(** * nutanix.py: fleet totals and capacity thresholds

    A shallow embedding of the aggregation and threshold evaluation done by
    the [__main__] block of [nutanix.py], and the properties its
    specification states about it.

    The script is Python 3: [total / 1024] on two [int]s is true division
    and yields a [float], which is why every conversion is wrapped in
    [int(...)].  The embedding keeps that: the quotient is rounded to a
    binary64 value (round to nearest, ties to even) and [int()] truncates it.
    On totals below 2^53 the result is the integer quotient
    ([bytes_to_gb_small], [mib_to_gb_small]).

    The payloads are the parsed JSON bodies returned by [get_hosts] and
    [get_vms].  JSON numbers are modelled as integers; a payload that carries
    a fractional number is outside the model.

    [str] of an [int] is modelled as the language defines it, for every
    integer.  CPython 3.11 and later refuse to print an integer of more than
    4300 digits ([ValueError]) unless [sys.set_int_max_str_digits] lifts the
    limit; the statements on which exceptions can end a run are made for
    figures within that limit ([printable_figures]). *)

From Stdlib Require Import ZArith List String Ascii Bool Lia Permutation.
From Stdlib Require Import DecimalString DecimalZ DecimalPos.
Import ListNotations.

Local Open Scope string_scope.
Local Open Scope Z_scope.

Set Warnings "-register-all".

(** ** Python values and exceptions *)

(** A parsed JSON document, as [r.json()] returns it.  A [dict] is kept as an
    association list in which the first binding of a key is the one seen. *)
Inductive value : Type :=
| VNone : value
| VBool : bool -> value
| VInt : Z -> value
| VStr : string -> value
| VList : list value -> value
| VDict : list (string * value) -> value.

Inductive exn : Type :=
| KeyError
| TypeError
| ValueError
| OverflowError
| ZeroDivisionError.

Inductive result (A : Type) : Type :=
| Ok : A -> result A
| Raise : exn -> result A.

Arguments Ok {A} _.
Arguments Raise {A} _.

Definition bind {A B : Type} (r : result A) (k : A -> result B) : result B :=
  match r with
  | Ok a => k a
  | Raise e => Raise e
  end.

Declare Scope py_scope.
Delimit Scope py_scope with py.
Notation "x <- c ;; k" := (bind c (fun x => k))
  (at level 61, c at next level, right associativity) : py_scope.
Local Open Scope py_scope.

(** [d[k]] *)
Fixpoint lookup (k : string) (kvs : list (string * value)) : option value :=
  match kvs with
  | [] => None
  | (k', v) :: rest => if String.eqb k k' then Some v else lookup k rest
  end.

Definition getitem (v : value) (k : string) : result value :=
  match v with
  | VDict kvs =>
      match lookup k kvs with
      | Some x => Ok x
      | None => Raise KeyError
      end
  | _ => Raise TypeError
  end.

Fixpoint chars (s : string) : list value :=
  match s with
  | EmptyString => []
  | String c rest => VStr (String c EmptyString) :: chars rest
  end.

(** The items a [for x in v] loop visits: the elements of a list, the keys
    of a dict, the characters of a str; anything else is not iterable. *)
Definition iter (v : value) : result (list value) :=
  match v with
  | VList l => Ok l
  | VDict kvs => Ok (map (fun kv => VStr (fst kv)) kvs)
  | VStr s => Ok (chars s)
  | _ => Raise TypeError
  end.

(** [acc += v] for an [int] accumulator. *)
Definition iadd (acc : Z) (v : value) : result Z :=
  match v with
  | VInt z => Ok (acc + z)
  | VBool b => Ok (acc + Z.b2z b)
  | _ => Raise TypeError
  end.

Section Coercion.

(** [int(s)] for a [str]: the integer the literal denotes, or nothing
    where Python raises [ValueError]. *)
Variable str_to_int : string -> option Z.

(** [int(v)] *)
Definition py_int (v : value) : result Z :=
  match v with
  | VInt z => Ok z
  | VBool b => Ok (Z.b2z b)
  | VStr s =>
      match str_to_int s with
      | Some z => Ok z
      | None => Raise ValueError
      end
  | _ => Raise TypeError
  end.

End Coercion.

(** ** Binary64 arithmetic *)

Module Float.

Definition prec : Z := 53.
Definition emin : Z := -1074.
Definition emax : Z := 1024.

(** A finite float is [m * 2^e]; the sign is the sign of [m]. *)
Inductive float : Type :=
| Finite (m e : Z)
| Inf (negative : bool)
| NaN.

(** [n / d] rounded to the nearest integer, ties to even ([0 <= n], [0 < d]). *)
Definition div_rne (n d : Z) : Z :=
  let q := n / d in
  let r := n mod d in
  if (d <? 2 * r) || ((2 * r =? d) && Z.odd q) then q + 1 else q.

(** The binade of [a / b * 2^e]: its base-2 logarithm rounded down
    ([0 < a], [0 < b]). *)
Definition ilog2_quot (a b e : Z) : Z :=
  let la := Z.log2 a in
  let lb := Z.log2 b in
  (if a * 2 ^ lb <? b * 2 ^ la then la - lb - 1 else la - lb) + e.

(** [a / b * 2^e] ([0 <= a], [0 < b]) rounded to binary64: the mantissa and
    the exponent of the result, or nothing when it exceeds the largest
    finite float. *)
Definition round_quot (a b e : Z) : option (Z * Z) :=
  if a =? 0 then Some (0, 0)
  else
    let ex := Z.max emin (ilog2_quot a b e - (prec - 1)) in
    let s := e - ex in
    let m := if 0 <=? s then div_rne (a * 2 ^ s) b
             else div_rne a (b * 2 ^ (- s)) in
    if 2 ^ (emax - emin) <=? m * 2 ^ (ex - emin) then None
    else Some (m, ex).

Definition signed (negative : bool) (m : Z) : Z :=
  if negative then - m else m.

(** [a / b] on two [int]s: the correctly rounded quotient. *)
Definition int_truediv (a b : Z) : result float :=
  if b =? 0 then Raise ZeroDivisionError
  else
    match round_quot (Z.abs a) (Z.abs b) 0 with
    | Some (m, e) => Ok (Finite (signed (xorb (a <? 0) (b <? 0)) m) e)
    | None => Raise OverflowError
    end.

(** [float(b)] *)
Definition of_int (b : Z) : result float := int_truediv b 1.

(** [x / y] on two [float]s: only a zero divisor raises. *)
Definition truediv (x : float) (y : float) : result float :=
  match x, y with
  | _, Finite 0 _ => Raise ZeroDivisionError
  | Finite m e, Finite m' e' =>
      let neg := xorb (m <? 0) (m' <? 0) in
      match round_quot (Z.abs m) (Z.abs m') (e - e') with
      | Some (q, ex) => Ok (Finite (signed neg q) ex)
      | None => Ok (Inf neg)
      end
  | Inf s, Finite m' _ => Ok (Inf (xorb s (m' <? 0)))
  | Finite _ _, Inf _ => Ok (Finite 0 0)
  | _, _ => Ok NaN
  end.

(** [x / b] for a [float] and an [int]: the [int] is converted first. *)
Definition truediv_int (x : float) (b : Z) : result float :=
  y <- of_int b ;; truediv x y.

(** [int(x)]: truncation towards zero. *)
Definition to_int (x : float) : result Z :=
  match x with
  | Finite m e =>
      if 0 <=? e then Ok (m * 2 ^ e) else Ok (Z.quot m (2 ^ (- e)))
  | Inf _ => Raise OverflowError
  | NaN => Raise ValueError
  end.

End Float.

(** ** Unit conversions *)

(** [int(total / 1024 / 1024 / 1024)] *)
Definition bytes_to_gb (total : Z) : result Z :=
  x1 <- Float.int_truediv total 1024 ;;
  x2 <- Float.truediv_int x1 1024 ;;
  x3 <- Float.truediv_int x2 1024 ;;
  Float.to_int x3.

(** [int(total / 1000)] *)
Definition mib_to_gb (total : Z) : result Z :=
  x <- Float.int_truediv total 1000 ;;
  Float.to_int x.

(** A mantissa and an exponent below [2^emax] in magnitude: what a finite
    float holds. *)
Definition in_range (m e : Z) : Prop :=
  Float.emin <= e
  /\ Z.abs m * 2 ^ (e - Float.emin) < 2 ^ (Float.emax - Float.emin).

(** ** Configuration and log records *)

(** The six limits [Nutanix.__init__] reads from the config file. *)
Record Limits : Type := {
  total_cpu_core_limit : Z;
  total_memory_usage_gb_limit : Z;
  total_storage_usage_gb_limit : Z;
  total_vms_num_sockets_limit : Z;
  total_vms_memory_size_gb_limit : Z;
  total_vms_disk_size_gb_limit : Z
}.

Inductive metric : Type :=
| HostCpuCores
| HostMemoryGB
| HostStorageGB
| VmSockets
| VmMemoryGB
| VmDiskGB.

Definition limit_of (cfg : Limits) (m : metric) : Z :=
  match m with
  | HostCpuCores => total_cpu_core_limit cfg
  | HostMemoryGB => total_memory_usage_gb_limit cfg
  | HostStorageGB => total_storage_usage_gb_limit cfg
  | VmSockets => total_vms_num_sockets_limit cfg
  | VmMemoryGB => total_vms_memory_size_gb_limit cfg
  | VmDiskGB => total_vms_disk_size_gb_limit cfg
  end.

(** [str(z)], with no limit on the number of digits. *)
Definition str_of_int (z : Z) : string := NilZero.string_of_int (Z.to_int z).

(** The text before the first [{}] of each of the six format strings. *)
Definition message_head (m : metric) : string :=
  match m with
  | HostCpuCores => "CPU core limit reached! Current total for all Hosts: "
  | HostMemoryGB => "Memory usage limit reached! Current total for all Hosts: "
  | HostStorageGB => "Storage usage limit reached! Current total for all Hosts: "
  | VmSockets => "CPU sockets limit reached! Current total for all VMs: "
  | VmMemoryGB => "Memory usage limit reached! Current total for all VMs: "
  | VmDiskGB => "Storage usage limit reached! Current total for all VMs: "
  end.

(** The unit suffix: the two counts carry none, the four sizes carry [ GB]. *)
Definition message_unit (m : metric) : string :=
  match m with
  | HostCpuCores | VmSockets => ""
  | _ => " GB"
  end.

(** ['... {}. Limit: {}'.format(total, limit)] *)
Definition breach_message (m : metric) (total limit : Z) : string :=
  message_head m ++ str_of_int total ++ message_unit m
    ++ ". Limit: " ++ str_of_int limit ++ message_unit m.

Record log_record : Type := {
  levelname : string;
  message : string
}.

Definition critical (msg : string) : log_record :=
  {| levelname := "CRITICAL"; message := msg |}.

(** A run: the records logged so far and how the run ended. *)
Definition prog (A : Type) : Type := (list log_record * result A)%type.

Definition lift {A : Type} (r : result A) : prog A := ([], r).

Definition and_then {A B : Type} (p : prog A) (k : A -> prog B) : prog B :=
  match p with
  | (l, Ok a) => let (l', r) := k a in ((l ++ l')%list, r)
  | (l, Raise e) => (l, Raise e)
  end.

Notation "x <~ c ;; k" := (and_then c (fun x => k))
  (at level 61, c at next level, right associativity) : py_scope.

(** [if total > limit: logger.critical(...)] *)
Definition check (m : metric) (total limit : Z) : prog unit :=
  if limit <? total then ([critical (breach_message m total limit)], Ok tt)
  else ([], Ok tt).

(** ** The two loops *)

(** [for x in items: acc = body(acc, x)] *)
Fixpoint for_each {A : Type} (body : A -> value -> result A)
    (items : list value) (acc : A) : result A :=
  match items with
  | [] => Ok acc
  | x :: rest => acc' <- body acc x ;; for_each body rest acc'
  end.

Record HostTotals : Type := {
  total_hosts_cpu_cores : Z;
  total_hosts_storage_usage_bytes : Z;
  total_hosts_memory_capacity_bytes : Z
}.

Record VmTotals : Type := {
  total_vms_threads_per_core : Z;
  total_vms_vcpus_per_socket : Z;
  total_vms_num_sockets : Z;
  total_vms_memory_size_mib : Z;
  total_vms_disk_size_bytes : Z
}.

Definition hosts_init : HostTotals :=
  {| total_hosts_cpu_cores := 0;
     total_hosts_storage_usage_bytes := 0;
     total_hosts_memory_capacity_bytes := 0 |}.

Definition vms_init : VmTotals :=
  {| total_vms_threads_per_core := 0;
     total_vms_vcpus_per_socket := 0;
     total_vms_num_sockets := 0;
     total_vms_memory_size_mib := 0;
     total_vms_disk_size_bytes := 0 |}.

(** [total_vms_disk_size_bytes += disk['disk_size_bytes']] *)
Definition add_disk_size (acc : Z) (disk : value) : result Z :=
  size <- getitem disk "disk_size_bytes" ;;
  iadd acc size.

(** The [try: ... except: pass] around it: whatever is raised, the
    accumulator is left as it was. *)
Definition disk_step (acc : Z) (disk : value) : Z :=
  match add_disk_size acc disk with
  | Ok acc' => acc'
  | Raise _ => acc
  end.

Definition disks_loop (acc : Z) (disks : list value) : Z :=
  fold_left disk_step disks acc.

(** [vm['status']['resources']] *)
Definition vm_resources (vm : value) : result value :=
  status <- getitem vm "status" ;;
  getitem status "resources".

(** The body of [for vm in vms['entities']]. *)
Definition vm_step (t : VmTotals) (vm : value) : result VmTotals :=
  r <- vm_resources vm ;;
  x <- getitem r "num_threads_per_core" ;;
  threads <- iadd (total_vms_threads_per_core t) x ;;
  r <- vm_resources vm ;;
  x <- getitem r "num_vcpus_per_socket" ;;
  vcpus <- iadd (total_vms_vcpus_per_socket t) x ;;
  r <- vm_resources vm ;;
  x <- getitem r "num_sockets" ;;
  sockets <- iadd (total_vms_num_sockets t) x ;;
  r <- vm_resources vm ;;
  x <- getitem r "memory_size_mib" ;;
  mib <- iadd (total_vms_memory_size_mib t) x ;;
  r <- vm_resources vm ;;
  dl <- getitem r "disk_list" ;;
  disks <- iter dl ;;
  Ok {| total_vms_threads_per_core := threads;
        total_vms_vcpus_per_socket := vcpus;
        total_vms_num_sockets := sockets;
        total_vms_memory_size_mib := mib;
        total_vms_disk_size_bytes :=
          disks_loop (total_vms_disk_size_bytes t) disks |}.

Definition count_vms (vms : value) : result VmTotals :=
  entities <- getitem vms "entities" ;;
  items <- iter entities ;;
  for_each vm_step items vms_init.

(** The VM half of [__main__], from the counters to the third check. *)
Definition check_vms (cfg : Limits) (vms : value) : prog unit :=
  t <~ lift (count_vms vms) ;;
  _ <~ check VmSockets (total_vms_num_sockets t)
         (total_vms_num_sockets_limit cfg) ;;
  total_vms_memory_size_gb <~ lift (mib_to_gb (total_vms_memory_size_mib t)) ;;
  _ <~ check VmMemoryGB total_vms_memory_size_gb
         (total_vms_memory_size_gb_limit cfg) ;;
  total_vms_disk_size_gb <~ lift (bytes_to_gb (total_vms_disk_size_bytes t)) ;;
  check VmDiskGB total_vms_disk_size_gb (total_vms_disk_size_gb_limit cfg).

Section Main.

Variable str_to_int : string -> option Z.

(** The body of [for host in hosts['entities']]. *)
Definition host_step (t : HostTotals) (host : value) : result HostTotals :=
  x <- getitem host "num_cpu_cores" ;;
  cores <- iadd (total_hosts_cpu_cores t) x ;;
  stats <- getitem host "usage_stats" ;;
  x <- getitem stats "storage.capacity_bytes" ;;
  storage <- py_int str_to_int x ;;
  x <- getitem host "memory_capacity_in_bytes" ;;
  memory <- py_int str_to_int x ;;
  Ok {| total_hosts_cpu_cores := cores;
        total_hosts_storage_usage_bytes :=
          total_hosts_storage_usage_bytes t + storage;
        total_hosts_memory_capacity_bytes :=
          total_hosts_memory_capacity_bytes t + memory |}.

Definition count_hosts (hosts : value) : result HostTotals :=
  entities <- getitem hosts "entities" ;;
  items <- iter entities ;;
  for_each host_step items hosts_init.

(** The host half of [__main__], from the counters to the third check. *)
Definition check_hosts (cfg : Limits) (hosts : value) : prog unit :=
  t <~ lift (count_hosts hosts) ;;
  _ <~ check HostCpuCores (total_hosts_cpu_cores t)
         (total_cpu_core_limit cfg) ;;
  total_hosts_memory_capacity_gbytes <~
    lift (bytes_to_gb (total_hosts_memory_capacity_bytes t)) ;;
  _ <~ check HostMemoryGB total_hosts_memory_capacity_gbytes
         (total_memory_usage_gb_limit cfg) ;;
  total_hosts_storage_usage_gbytes <~
    lift (bytes_to_gb (total_hosts_storage_usage_bytes t)) ;;
  check HostStorageGB total_hosts_storage_usage_gbytes
    (total_storage_usage_gb_limit cfg).

(** The [else] branch of [__main__] on the two payloads the API returned:
    the records it logs and whether it ran to the end.  The banner printed
    last goes to standard output and is no log record. *)
Definition main (cfg : Limits) (hosts vms : value) : prog unit :=
  _ <~ check_hosts cfg hosts ;;
  check_vms cfg vms.

End Main.

(** ** Well-formed payloads

    The records of the data model and the JSON the API sends for them.  The
    keys the script reads come first, so whatever else an entity carries
    ([host_other], [vm_other]) stays out of the way of [lookup]. *)

Record Host : Type := {
  num_cpu_cores : Z;
  storage_capacity_bytes : Z;
  memory_capacity_in_bytes : Z;
  host_other : list (string * value)
}.

Record Disk : Type := {
  disk_size_bytes : option Z;
  device_type : string
}.

Record Vm : Type := {
  num_threads_per_core : Z;
  num_vcpus_per_socket : Z;
  num_sockets : Z;
  memory_size_mib : Z;
  disk_list : list Disk;
  vm_other : list (string * value)
}.

Section Payloads.

(** How the API writes a statistic: the v2 surface sends the values under
    [usage_stats] as strings, which is what [int(...)] is there for. *)
Variable enc : Z -> value.

Definition host_json (h : Host) : value :=
  VDict (("num_cpu_cores", VInt (num_cpu_cores h))
         :: ("usage_stats",
             VDict [("storage.capacity_bytes", enc (storage_capacity_bytes h))])
         :: ("memory_capacity_in_bytes", VInt (memory_capacity_in_bytes h))
         :: host_other h).

Definition hosts_json (hs : list Host) : value :=
  VDict [("entities", VList (map host_json hs))].

End Payloads.

Definition disk_json (d : Disk) : value :=
  VDict ((match disk_size_bytes d with
          | Some z => [("disk_size_bytes", VInt z)]
          | None => []
          end)
         ++ [("device_properties",
              VDict [("device_type", VStr (device_type d))])])%list.

(** A VM entity with [disks] as its [disk_list]. *)
Definition vm_payload (v : Vm) (disks : list value) : value :=
  VDict [("status",
          VDict [("resources",
                  VDict (("num_threads_per_core", VInt (num_threads_per_core v))
                         :: ("num_vcpus_per_socket", VInt (num_vcpus_per_socket v))
                         :: ("num_sockets", VInt (num_sockets v))
                         :: ("memory_size_mib", VInt (memory_size_mib v))
                         :: ("disk_list", VList disks)
                         :: vm_other v))])].

Definition vm_json (v : Vm) : value :=
  vm_payload v (map disk_json (disk_list v)).

Definition vms_json (vs : list Vm) : value :=
  VDict [("entities", VList (map vm_json vs))].

(** ** What the totals should be *)

Definition Zsum (l : list Z) : Z := fold_right Z.add 0 l.

(** The bytes a disk adds: its size where it has one. *)
Definition disk_bytes (d : Disk) : Z :=
  match disk_size_bytes d with
  | Some z => z
  | None => 0
  end.

(** The sizes of the disks that have one. *)
Definition sized (ds : list Disk) : list Z :=
  flat_map (fun d => match disk_size_bytes d with
                     | Some z => [z]
                     | None => []
                     end) ds.

Definition vm_disk_bytes (v : Vm) : Z := Zsum (map disk_bytes (disk_list v)).

(** The running totals after one more record. *)
Definition host_add (t : HostTotals) (h : Host) : HostTotals :=
  {| total_hosts_cpu_cores := total_hosts_cpu_cores t + num_cpu_cores h;
     total_hosts_storage_usage_bytes :=
       total_hosts_storage_usage_bytes t + storage_capacity_bytes h;
     total_hosts_memory_capacity_bytes :=
       total_hosts_memory_capacity_bytes t + memory_capacity_in_bytes h |}.

Definition vm_add (t : VmTotals) (v : Vm) : VmTotals :=
  {| total_vms_threads_per_core :=
       total_vms_threads_per_core t + num_threads_per_core v;
     total_vms_vcpus_per_socket :=
       total_vms_vcpus_per_socket t + num_vcpus_per_socket v;
     total_vms_num_sockets := total_vms_num_sockets t + num_sockets v;
     total_vms_memory_size_mib := total_vms_memory_size_mib t + memory_size_mib v;
     total_vms_disk_size_bytes := total_vms_disk_size_bytes t + vm_disk_bytes v |}.

Definition host_totals (hs : list Host) : HostTotals :=
  {| total_hosts_cpu_cores := Zsum (map num_cpu_cores hs);
     total_hosts_storage_usage_bytes := Zsum (map storage_capacity_bytes hs);
     total_hosts_memory_capacity_bytes := Zsum (map memory_capacity_in_bytes hs) |}.

Definition vm_totals (vs : list Vm) : VmTotals :=
  {| total_vms_threads_per_core := Zsum (map num_threads_per_core vs);
     total_vms_vcpus_per_socket := Zsum (map num_vcpus_per_socket vs);
     total_vms_num_sockets := Zsum (map num_sockets vs);
     total_vms_memory_size_mib := Zsum (map memory_size_mib vs);
     total_vms_disk_size_bytes := Zsum (map vm_disk_bytes vs) |}.

(** The six unit-normalized totals of a run. *)
Record FleetTotals : Type := {
  hosts_cpu_cores : Z;
  hosts_memory_capacity_gbytes : Z;
  hosts_storage_usage_gbytes : Z;
  vms_num_sockets : Z;
  vms_memory_size_gb : Z;
  vms_disk_size_gb : Z
}.

Definition total_of (t : FleetTotals) (m : metric) : Z :=
  match m with
  | HostCpuCores => hosts_cpu_cores t
  | HostMemoryGB => hosts_memory_capacity_gbytes t
  | HostStorageGB => hosts_storage_usage_gbytes t
  | VmSockets => vms_num_sockets t
  | VmMemoryGB => vms_memory_size_gb t
  | VmDiskGB => vms_disk_size_gb t
  end.

(** The six totals of a fleet after unit conversion, where the four
    conversions go through. *)
Definition fleet_totals (hs : list Host) (vs : list Vm) : result FleetTotals :=
  let h := host_totals hs in
  let v := vm_totals vs in
  hmem <- bytes_to_gb (total_hosts_memory_capacity_bytes h) ;;
  hsto <- bytes_to_gb (total_hosts_storage_usage_bytes h) ;;
  vmem <- mib_to_gb (total_vms_memory_size_mib v) ;;
  vdisk <- bytes_to_gb (total_vms_disk_size_bytes v) ;;
  Ok {| hosts_cpu_cores := total_hosts_cpu_cores h;
        hosts_memory_capacity_gbytes := hmem;
        hosts_storage_usage_gbytes := hsto;
        vms_num_sockets := total_vms_num_sockets v;
        vms_memory_size_gb := vmem;
        vms_disk_size_gb := vdisk |}.

(** The order in which [__main__] evaluates the six checks. *)
Definition metrics : list metric :=
  [HostCpuCores; HostMemoryGB; HostStorageGB; VmSockets; VmMemoryGB; VmDiskGB].

(** The records a complete run logs, as a function of totals and limits. *)
Definition breaches (cfg : Limits) (t : FleetTotals) : list log_record :=
  flat_map (fun m => fst (check m (total_of t m) (limit_of cfg m))) metrics.

(** Two VM records that agree on everything but [num_threads_per_core] and
    [num_vcpus_per_socket]. *)
Definition same_but_threads_vcpus (v v' : Vm) : Prop :=
  num_sockets v = num_sockets v'
  /\ memory_size_mib v = memory_size_mib v'
  /\ disk_list v = disk_list v'
  /\ vm_other v = vm_other v'.

(** Two VM entities that differ at most in the values of
    [num_threads_per_core] and [num_vcpus_per_socket], which are integers in
    both: every other key of [resources] is bound alike, or unbound, in
    both. *)
Definition differ_in_threads_vcpus (vm vm' : value) : Prop :=
  exists kvs kvs' a a' b b',
    vm_resources vm = Ok (VDict kvs)
    /\ vm_resources vm' = Ok (VDict kvs')
    /\ lookup "num_threads_per_core" kvs = Some (VInt a)
    /\ lookup "num_threads_per_core" kvs' = Some (VInt a')
    /\ lookup "num_vcpus_per_socket" kvs = Some (VInt b)
    /\ lookup "num_vcpus_per_socket" kvs' = Some (VInt b')
    /\ forall k, k <> "num_threads_per_core" -> k <> "num_vcpus_per_socket" ->
         lookup k kvs = lookup k kvs'.

(** The three totals the VM checks read. *)
Definition checked_totals (t : VmTotals) : Z * Z * Z :=
  (total_vms_num_sockets t, total_vms_memory_size_mib t,
   total_vms_disk_size_bytes t).

(** Two results that end the same way: with the same exception, or with
    values that are the [same]. *)
Definition alike {A : Type} (same : A -> A -> Prop) (r r' : result A) : Prop :=
  match r, r' with
  | Ok a, Ok a' => same a a'
  | Raise e, Raise e' => e = e'
  | _, _ => False
  end.

Definition host_nonneg (h : Host) : Prop :=
  0 <= num_cpu_cores h
  /\ 0 <= storage_capacity_bytes h
  /\ 0 <= memory_capacity_in_bytes h.

Definition disk_nonneg (d : Disk) : Prop := 0 <= disk_bytes d.

Definition vm_nonneg (v : Vm) : Prop :=
  0 <= num_sockets v
  /\ 0 <= memory_size_mib v
  /\ Forall disk_nonneg (disk_list v).

(** The mantissa of [n] once its leading bit sits at position 52. *)
Definition normal (n : Z) : Z := n * 2 ^ (52 - Z.log2 n).

(** ** Payloads that are not well formed, and totals as integer quotients *)

(** A payload with [items] under [entities]. *)
Definition entities (items : list value) : value :=
  VDict [("entities", VList items)].

(** A VM entity whose [resources] carry the four counts of [v] and then
    [rest], which may or may not hold a [disk_list]. *)
Definition vm_entity (v : Vm) (rest : list (string * value)) : value :=
  VDict [("status",
          VDict [("resources",
                  VDict (("num_threads_per_core", VInt (num_threads_per_core v))
                         :: ("num_vcpus_per_socket", VInt (num_vcpus_per_socket v))
                         :: ("num_sockets", VInt (num_sockets v))
                         :: ("memory_size_mib", VInt (memory_size_mib v))
                         :: rest))])].

(** The totals after a VM that adds no disk bytes. *)
Definition vm_add_diskless (t : VmTotals) (v : Vm) : VmTotals :=
  {| total_vms_threads_per_core :=
       total_vms_threads_per_core t + num_threads_per_core v;
     total_vms_vcpus_per_socket :=
       total_vms_vcpus_per_socket t + num_vcpus_per_socket v;
     total_vms_num_sockets := total_vms_num_sockets t + num_sockets v;
     total_vms_memory_size_mib := total_vms_memory_size_mib t + memory_size_mib v;
     total_vms_disk_size_bytes := total_vms_disk_size_bytes t |}.

(** The six totals with the conversions read as integer quotients. *)
Definition floor_totals (hs : list Host) (vs : list Vm) : FleetTotals :=
  {| hosts_cpu_cores := Zsum (map num_cpu_cores hs);
     hosts_memory_capacity_gbytes :=
       Zsum (map memory_capacity_in_bytes hs) / 1024 ^ 3;
     hosts_storage_usage_gbytes :=
       Zsum (map storage_capacity_bytes hs) / 1024 ^ 3;
     vms_num_sockets := Zsum (map num_sockets vs);
     vms_memory_size_gb := Zsum (map memory_size_mib vs) / 1000;
     vms_disk_size_gb := Zsum (map vm_disk_bytes vs) / 1024 ^ 3 |}.

(** Raw totals that a double holds exactly. *)
Definition small_totals (hs : list Host) (vs : list Vm) : Prop :=
  0 <= Zsum (map memory_capacity_in_bytes hs) < 2 ^ 53
  /\ 0 <= Zsum (map storage_capacity_bytes hs) < 2 ^ 53
  /\ 0 <= Zsum (map memory_size_mib vs) < 2 ^ 53
  /\ 0 <= Zsum (map vm_disk_bytes vs) < 2 ^ 53.

(** The longest integer CPython 3.11 prints by default, in digits
    ([sys.get_int_max_str_digits()]), and the integers within it. *)
Definition max_str_digits : Z := 4300.

Definition printable (z : Z) : Prop := Z.abs z < 10 ^ max_str_digits.

(** The figures of a run that are printed as they are counted or
    configured: the two raw counts and the six limits.  The four sizes are
    printed after conversion. *)
Definition printable_figures (cfg : Limits) (hs : list Host) (vs : list Vm)
  : Prop :=
  printable (Zsum (map num_cpu_cores hs))
  /\ printable (Zsum (map num_sockets vs))
  /\ forall m, printable (limit_of cfg m).

(** The record a run logs for a metric, and the metrics over their limit. *)
Definition record_of (cfg : Limits) (t : FleetTotals) (m : metric)
  : log_record :=
  critical (breach_message m (total_of t m) (limit_of cfg m)).

Definition breached (cfg : Limits) (t : FleetTotals) : list metric :=
  filter (fun m => limit_of cfg m <? total_of t m) metrics.

(** Two VM records that differ in the order of their disks only. *)
Definition same_but_disk_order (v v' : Vm) : Prop :=
  num_threads_per_core v = num_threads_per_core v'
  /\ num_vcpus_per_socket v = num_vcpus_per_socket v'
  /\ num_sockets v = num_sockets v'
  /\ memory_size_mib v = memory_size_mib v'
  /\ Permutation (disk_list v) (disk_list v')
  /\ vm_other v = vm_other v'.

(** ** The API client and the script around the two loops *)

(** [a + b] for a [str] and whatever the config holds under a key. *)
Definition str_add (a : string) (b : value) : result string :=
  match b with
  | VStr s => Ok (a ++ s)
  | _ => Raise TypeError
  end.

(** The attributes [Nutanix.__init__] sets.  The six limits are kept as the
    config file has them: nothing looks at their type before they are
    compared. *)
Record Nutanix : Type := {
  cfg : value;
  cluster : value;
  username : value;
  password : value;
  base_url : string;
  base_url_v3 : string;
  limit_value : metric -> value
}.

(** [cfg['limits'][group][name]] *)
Definition limit_entry (cfg : value) (group name : string) : result value :=
  limits <- getitem cfg "limits" ;;
  section <- getitem limits group ;;
  getitem section name.

(** [Nutanix.__init__] once [yaml.load] has returned [cfg]. *)
Definition init (cfg : value) : result Nutanix :=
  cluster <- getitem cfg "cluster" ;;
  username <- getitem cfg "username" ;;
  password <- getitem cfg "password" ;;
  u <- str_add "https://" cluster ;;
  u3 <- str_add "https://" cluster ;;
  cpu <- limit_entry cfg "hosts" "total_cpu_core_limit" ;;
  mem <- limit_entry cfg "hosts" "total_memory_usage_gb_limit" ;;
  sto <- limit_entry cfg "hosts" "total_storage_usage_gb_limit" ;;
  sockets <- limit_entry cfg "vms" "total_vms_num_sockets_limit" ;;
  vmem <- limit_entry cfg "vms" "total_vms_memory_size_gb_limit" ;;
  vdisk <- limit_entry cfg "vms" "total_vms_disk_size_gb_limit" ;;
  Ok {| cfg := cfg;
        cluster := cluster;
        username := username;
        password := password;
        base_url := u ++ "/PrismGateway/services/rest/v2.0/";
        base_url_v3 := u3 ++ "/api/nutanix/v3/";
        limit_value := fun m =>
          match m with
          | HostCpuCores => cpu
          | HostMemoryGB => mem
          | HostStorageGB => sto
          | VmSockets => sockets
          | VmMemoryGB => vmem
          | VmDiskGB => vdisk
          end |}.

Inductive http_method : Type :=
| GET
| POST.

(** What [requests.get] and [requests.post] are called with. *)
Record request : Type := {
  method : http_method;
  url : string;
  auth : value * value;
  verify : bool
}.

(** The request [Nutanix.get] sends. *)
Definition get (nx : Nutanix) (path : string) : request :=
  {| method := GET;
     url := base_url nx ++ path;
     auth := (username nx, password nx);
     verify := false |}.

(** The request [Nutanix.post_v3] sends. *)
Definition post_v3 (nx : Nutanix) (path : string) : request :=
  {| method := POST;
     url := base_url_v3 nx ++ path;
     auth := (username nx, password nx);
     verify := false |}.

Definition get_clusters (nx : Nutanix) : request := get nx "clusters".
Definition get_hosts (nx : Nutanix) : request := get nx "hosts".
Definition get_vms (nx : Nutanix) : request := post_v3 nx "vms/list".

(** What the script does that can be seen from outside, in order. *)
Inductive event : Type :=
| Help
| Read (path : string)
| Sent (r : request)
| Logged (r : log_record)
| Printed (s : string).

(** An exception of Python itself, or one raised inside [open], [yaml] or
    [requests], known by its class name only. *)
Inductive error : Type :=
| Builtin (e : exn)
| Library (name : string).

Inductive outcome (A : Type) : Type :=
| Done : A -> outcome A
| Aborted : error -> outcome A.

Arguments Done {A} _.
Arguments Aborted {A} _.

(** What [yaml.load(open(path))] or [r.json()] comes back with. *)
Inductive reply : Type :=
| Body (v : value)
| Fault (name : string).

Definition script (A : Type) : Type := (list event * outcome A)%type.

Definition bind_script {A B : Type} (p : script A) (k : A -> script B)
  : script B :=
  match p with
  | (tr, Done a) => let (tr', r) := k a in ((tr ++ tr')%list, r)
  | (tr, Aborted e) => (tr, Aborted e)
  end.

Notation "x <<- c ;; k" := (bind_script c (fun x => k))
  (at level 61, c at next level, right associativity) : py_scope.

Definition of_reply (r : reply) : outcome value :=
  match r with
  | Body v => Done v
  | Fault name => Aborted (Library name)
  end.

Definition of_result {A : Type} (r : result A) : script A :=
  match r with
  | Ok a => ([], Done a)
  | Raise e => ([], Aborted (Builtin e))
  end.

Definition of_prog {A : Type} (p : prog A) : script A :=
  (map Logged (fst p),
   match snd p with
   | Ok a => Done a
   | Raise e => Aborted (Builtin e)
   end).

(** ['{}'.format(v)] for a limit that was compared with an [int]. *)
Definition bool_text (b : bool) : string := if b then "True" else "False".

(** The format string of a metric filled with two texts. *)
Definition format_breach (m : metric) (total limit : string) : string :=
  message_head m ++ total ++ message_unit m
    ++ ". Limit: " ++ limit ++ message_unit m.

(** [if total > limit: logger.critical(...)] with the limit as the config
    has it: an [int] is ordered against an [int] or a [bool], against
    anything else [>] raises. *)
Definition check_limit (m : metric) (total : Z) (limit : value) : prog unit :=
  match limit with
  | VInt l => check m total l
  | VBool b =>
      if Z.b2z b <? total
      then ([critical (format_breach m (str_of_int total) (bool_text b))], Ok tt)
      else ([], Ok tt)
  | _ => ([], Raise TypeError)
  end.

(** [print('\n-- Raw data below --')] *)
Definition banner : string :=
  String (ascii_of_nat 10) "-- Raw data below --".

Section Script.

Variable str_to_int : string -> option Z.

(** The outside world: what loading the config file at a path gives, and
    what the cluster answers to a request. *)
Variable load_yaml : string -> reply.
Variable respond : request -> reply.

Definition load (path : string) : script value :=
  ([Read path], of_reply (load_yaml path)).

Definition send (r : request) : script value :=
  ([Sent r], of_reply (respond r)).

(** The host half of [__main__] on [_nutanix] and the hosts payload. *)
Definition hosts_part (nx : Nutanix) (hosts : value) : prog unit :=
  t <~ lift (count_hosts str_to_int hosts) ;;
  _ <~ check_limit HostCpuCores (total_hosts_cpu_cores t)
         (limit_value nx HostCpuCores) ;;
  total_hosts_memory_capacity_gbytes <~
    lift (bytes_to_gb (total_hosts_memory_capacity_bytes t)) ;;
  _ <~ check_limit HostMemoryGB total_hosts_memory_capacity_gbytes
         (limit_value nx HostMemoryGB) ;;
  total_hosts_storage_usage_gbytes <~
    lift (bytes_to_gb (total_hosts_storage_usage_bytes t)) ;;
  check_limit HostStorageGB total_hosts_storage_usage_gbytes
    (limit_value nx HostStorageGB).

(** The VM half. *)
Definition vms_part (nx : Nutanix) (vms : value) : prog unit :=
  t <~ lift (count_vms vms) ;;
  _ <~ check_limit VmSockets (total_vms_num_sockets t)
         (limit_value nx VmSockets) ;;
  total_vms_memory_size_gb <~ lift (mib_to_gb (total_vms_memory_size_mib t)) ;;
  _ <~ check_limit VmMemoryGB total_vms_memory_size_gb
         (limit_value nx VmMemoryGB) ;;
  total_vms_disk_size_gb <~ lift (bytes_to_gb (total_vms_disk_size_bytes t)) ;;
  check_limit VmDiskGB total_vms_disk_size_gb (limit_value nx VmDiskGB).

(** The [else] branch of [__main__], from [Nutanix(config=...)] to the
    banner. *)
Definition run_with (path : string) : script unit :=
  cfg <<- load path ;;
  nx <<- of_result (init cfg) ;;
  clusters <<- send (get_clusters nx) ;;
  hosts <<- send (get_hosts nx) ;;
  _ <<- of_prog (hosts_part nx hosts) ;;
  vms <<- send (get_vms nx) ;;
  _ <<- of_prog (vms_part nx vms) ;;
  ([Printed banner], Done tt).

(** [__main__] on the parsed [--config] argument: [not args.config] holds
    for a missing argument and for an empty one. *)
Definition script_main (config : option string) : script unit :=
  match config with
  | None => ([Help], Done tt)
  | Some EmptyString => ([Help], Done tt)
  | Some path => run_with path
  end.

End Script.

(** A complete configuration file: the cluster name, the credentials and
    six integer limits. *)
Record Config : Type := {
  config_cluster : string;
  config_username : value;
  config_password : value;
  config_limits : Limits
}.

Definition config_yaml (c : Config) : value :=
  VDict [("cluster", VStr (config_cluster c));
         ("username", config_username c);
         ("password", config_password c);
         ("limits",
          VDict [("hosts",
                  VDict [("total_cpu_core_limit",
                          VInt (total_cpu_core_limit (config_limits c)));
                         ("total_memory_usage_gb_limit",
                          VInt (total_memory_usage_gb_limit (config_limits c)));
                         ("total_storage_usage_gb_limit",
                          VInt (total_storage_usage_gb_limit (config_limits c)))]);
                 ("vms",
                  VDict [("total_vms_num_sockets_limit",
                          VInt (total_vms_num_sockets_limit (config_limits c)));
                         ("total_vms_memory_size_gb_limit",
                          VInt (total_vms_memory_size_gb_limit (config_limits c)));
                         ("total_vms_disk_size_gb_limit",
                          VInt (total_vms_disk_size_gb_limit (config_limits c)))])])].

(** The three requests of a run against [cluster]. *)
Definition clusters_request (c : Config) : request :=
  {| method := GET;
     url := "https://" ++ config_cluster c
            ++ "/PrismGateway/services/rest/v2.0/clusters";
     auth := (config_username c, config_password c);
     verify := false |}.

Definition hosts_request (c : Config) : request :=
  {| method := GET;
     url := "https://" ++ config_cluster c
            ++ "/PrismGateway/services/rest/v2.0/hosts";
     auth := (config_username c, config_password c);
     verify := false |}.

Definition vms_request (c : Config) : request :=
  {| method := POST;
     url := "https://" ++ config_cluster c ++ "/api/nutanix/v3/vms/list";
     auth := (config_username c, config_password c);
     verify := false |}.

(** The records among the events of a run. *)
Definition logged (trace : list event) : list log_record :=
  flat_map (fun ev => match ev with Logged r => [r] | _ => [] end) trace.

(** The metrics of the two halves, in the order of their checks. *)
Definition host_metrics : list metric :=
  [HostCpuCores; HostMemoryGB; HostStorageGB].

Definition vm_metrics : list metric := [VmSockets; VmMemoryGB; VmDiskGB].

(** The records for the metrics of [ms] that are over their limit. *)
Definition records (cfg : Limits) (t : FleetTotals) (ms : list metric)
  : list log_record :=
  map (record_of cfg t)
    (filter (fun m => limit_of cfg m <? total_of t m) ms).

(** A limit that [>] cannot order against an [int]. *)
Definition not_a_number (v : value) : Prop :=
  match v with
  | VInt _ | VBool _ => False
  | _ => True
  end.

(** ** A small fleet

    Two hosts and two VMs on which the statements below are exercised. *)

(** [int(s)] on the literals the API sends, an optional minus sign and
    digits.  Python accepts more (blanks around the literal, a plus sign,
    underscores between digits); the statements below hold for any reading
    of [int], this one runs them on statistics sent as strings. *)
Definition decimal (s : string) : option Z :=
  option_map Z.of_int (NilZero.int_of_string s).

(** A statistic as the v2 surface sends it: ["4398046511104"]. *)
Definition as_str (z : Z) : value := VStr (str_of_int z).

Definition host_a : Host :=
  {| num_cpu_cores := 6; storage_capacity_bytes := 5 * 1024 ^ 3;
     memory_capacity_in_bytes := 64 * 1024 ^ 3; host_other := [] |}.

Definition host_b : Host :=
  {| num_cpu_cores := 5; storage_capacity_bytes := 7 * 1024 ^ 3 + 12;
     memory_capacity_in_bytes := 32 * 1024 ^ 3;
     host_other := [("name", VStr "node-2")] |}.

Definition vm_a : Vm :=
  {| num_threads_per_core := 1; num_vcpus_per_socket := 2; num_sockets := 2;
     memory_size_mib := 4096;
     disk_list := [ {| disk_size_bytes := Some (2 * 1024 ^ 3); device_type := "DISK" |};
                    {| disk_size_bytes := None; device_type := "CDROM" |} ];
     vm_other := [] |}.

Definition vm_b : Vm :=
  {| num_threads_per_core := 2; num_vcpus_per_socket := 1; num_sockets := 1;
     memory_size_mib := 904;
     disk_list := [ {| disk_size_bytes := Some (1024 ^ 3); device_type := "DISK" |} ];
     vm_other := [] |}.

(** A VM entity with four sockets and [threads] as its
    [num_threads_per_core]. *)
Definition vm_with_threads (threads : value) : value :=
  VDict [("status",
          VDict [("resources",
                  VDict [("num_threads_per_core", threads);
                         ("num_vcpus_per_socket", VInt 1);
                         ("num_sockets", VInt 4);
                         ("memory_size_mib", VInt 1024);
                         ("disk_list", VList [])])])].

Definition limits_a : Limits :=
  {| total_cpu_core_limit := 10;
     total_memory_usage_gb_limit := 96;
     total_storage_usage_gb_limit := 11;
     total_vms_num_sockets_limit := 2;
     total_vms_memory_size_gb_limit := 4;
     total_vms_disk_size_gb_limit := 3 |}.

Definition totals_a : FleetTotals :=
  {| hosts_cpu_cores := 11;
     hosts_memory_capacity_gbytes := 96;
     hosts_storage_usage_gbytes := 12;
     vms_num_sockets := 3;
     vms_memory_size_gb := 5;
     vms_disk_size_gb := 3 |}.

(** ** A small world

    A configuration file, and a cluster that answers the three requests. *)

Definition config_a : Config :=
  {| config_cluster := "10.0.0.5";
     config_username := VStr "admin";
     config_password := VStr "secret";
     config_limits := limits_a |}.

Definition load_a (path : string) : reply :=
  if String.eqb path "config.yml" then Body (config_yaml config_a)
  else Fault "FileNotFoundError".

Definition respond_a (r : request) : reply :=
  match method r with
  | POST => Body (vms_json [vm_a; vm_b])
  | GET =>
      if String.eqb (url r) (url (hosts_request config_a))
      then Body (hosts_json as_str [host_a; host_b])
      else Body (VDict [("entities", VList [])])
  end.

(** The same configuration with the CPU-core limit in quotes. *)
Definition quoted_limit_yaml : value :=
  VDict [("cluster", VStr "10.0.0.5");
         ("username", VStr "admin");
         ("password", VStr "secret");
         ("limits",
          VDict [("hosts",
                  VDict [("total_cpu_core_limit", VStr "10");
                         ("total_memory_usage_gb_limit", VInt 96);
                         ("total_storage_usage_gb_limit", VInt 11)]);
                 ("vms",
                  VDict [("total_vms_num_sockets_limit", VInt 2);
                         ("total_vms_memory_size_gb_limit", VInt 4);
                         ("total_vms_disk_size_gb_limit", VInt 3)])])].

(** * Properties *)

(** ** Binary64 division by a power of two and by 1000 *)

Module FloatFacts.

Import Float.

Lemma div_rne_exact q d : 0 < d -> div_rne (q * d) d = q.
Proof.
intros Hd. unfold div_rne.
rewrite Z.div_mul, Z.mod_mul by lia.
replace (d <? 2 * 0) with false by (symmetry; apply Z.ltb_ge; lia).
replace (2 * 0 =? d) with false by (symmetry; apply Z.eqb_neq; lia).
reflexivity.
Qed.

Lemma pow2_pos e : 0 <= e -> 0 < 2 ^ e.
Proof. intros. apply Z.pow_pos_nonneg; lia. Qed.

Lemma pow2_split a b : 0 <= a -> 0 <= b -> 2 ^ (a + b) = 2 ^ a * 2 ^ b.
Proof. intros. apply Z.pow_add_r; lia. Qed.

Lemma log2_bound n : 0 < n -> n < 2 ^ 53 -> Z.log2 n <= 52.
Proof.
intros Hn Hlt. apply (Z.log2_lt_pow2 n 53) in Hlt; lia.
Qed.

Lemma normal_log2 n : 0 < n -> n < 2 ^ 53 -> Z.log2 (normal n) = 52.
Proof.
intros Hn Hlt. pose proof (log2_bound n Hn Hlt). pose proof (Z.log2_nonneg n).
unfold normal. rewrite Z.log2_mul_pow2 by lia. lia.
Qed.

Lemma normal_range n : 0 < n -> n < 2 ^ 53 -> 0 < normal n < 2 ^ 53.
Proof.
intros Hn Hlt. pose proof (log2_bound n Hn Hlt). pose proof (Z.log2_nonneg n).
pose proof (Z.log2_spec n Hn) as [_ Hup].
unfold normal. split.
- apply Z.mul_pos_pos; [lia | apply pow2_pos; lia].
- replace 53 with (Z.succ (Z.log2 n) + (52 - Z.log2 n)) by lia.
  rewrite pow2_split by lia.
  apply Z.mul_lt_mono_pos_r; [apply pow2_pos; lia | exact Hup].
Qed.

Lemma round_quot_pow2 n j c e :
0 < n -> n < 2 ^ 53 -> 0 <= j -> 0 <= c ->
emin <= Z.log2 n + j - c + e - 52 <= emax - prec ->
round_quot (n * 2 ^ j) (2 ^ c) e
= Some (normal n, Z.log2 n + j - c + e - 52).
Proof.
intros Hn Hlt Hj Hc [Hlo Hhi].
pose proof (log2_bound n Hn Hlt) as Hl. pose proof (Z.log2_nonneg n) as Hl0.
pose proof (Z.log2_spec n Hn) as [Hlow Hup].
pose proof (pow2_pos j Hj) as Pj. pose proof (pow2_pos c Hc) as Pc.
pose proof (normal_range n Hn Hlt) as [Nlo Nhi].
unfold round_quot.
replace (n * 2 ^ j =? 0) with false by (symmetry; apply Z.eqb_neq; nia).
assert (Hlog : ilog2_quot (n * 2 ^ j) (2 ^ c) e = Z.log2 n + j - c + e).
{ unfold ilog2_quot. rewrite Z.log2_mul_pow2, Z.log2_pow2 by lia.
  replace (n * 2 ^ j * 2 ^ c <? 2 ^ c * 2 ^ (j + Z.log2 n)) with false; [lia|].
  symmetry; apply Z.ltb_ge. rewrite pow2_split by lia. nia. }
rewrite Hlog.
replace (Z.max emin (Z.log2 n + j - c + e - (prec - 1)))
  with (Z.log2 n + j - c + e - 52) by (unfold prec in *; lia).
set (ex := Z.log2 n + j - c + e - 52) in *.
assert (Hm : (if 0 <=? e - ex then div_rne (n * 2 ^ j * 2 ^ (e - ex)) (2 ^ c)
              else div_rne (n * 2 ^ j) (2 ^ c * 2 ^ (- (e - ex)))) = normal n).
{ destruct (0 <=? e - ex) eqn:Hs.
  - apply Z.leb_le in Hs.
    replace (n * 2 ^ j * 2 ^ (e - ex)) with (normal n * 2 ^ c).
    + apply div_rne_exact; lia.
    + unfold normal. rewrite <- !Z.mul_assoc, <- !pow2_split by lia.
      f_equal. f_equal. lia.
  - apply Z.leb_gt in Hs.
    rewrite <- pow2_split by lia.
    replace (n * 2 ^ j) with (normal n * 2 ^ (c + - (e - ex))).
    + apply div_rne_exact. apply pow2_pos; lia.
    + unfold normal. rewrite <- !Z.mul_assoc, <- !pow2_split by lia.
      f_equal. f_equal. lia. }
rewrite Hm.
replace (2 ^ (emax - emin) <=? normal n * 2 ^ (ex - emin)) with false; [reflexivity|].
symmetry; apply Z.leb_gt.
apply Z.lt_le_trans with (2 ^ 53 * 2 ^ (ex - emin)).
- apply Z.mul_lt_mono_pos_r; [apply pow2_pos; lia | lia].
- rewrite <- pow2_split by lia. apply Z.pow_le_mono_r; unfold prec in *; lia.
Qed.

Lemma int_truediv_1024 n j :
0 < n -> n < 2 ^ 53 -> 0 <= j -> Z.log2 n + j <= 1033 ->
int_truediv (n * 2 ^ j) 1024 = Ok (Finite (normal n) (Z.log2 n + j - 62)).
Proof.
intros Hn Hlt Hj Hb. pose proof (Z.log2_nonneg n).
pose proof (pow2_pos j Hj).
unfold int_truediv. simpl (1024 =? 0).
rewrite (Z.abs_eq (n * 2 ^ j)) by nia.
change (Z.abs 1024) with (2 ^ 10).
rewrite round_quot_pow2 by (unfold emin, emax, prec; lia).
replace (n * 2 ^ j <? 0) with false by (symmetry; apply Z.ltb_ge; nia).
simpl. do 2 f_equal. lia.
Qed.

Lemma truediv_finite m e m' e' :
m' <> 0 ->
truediv (Finite m e) (Finite m' e')
= match round_quot (Z.abs m) (Z.abs m') (e - e') with
  | Some (q, ex) => Ok (Finite (signed (xorb (m <? 0) (m' <? 0)) q) ex)
  | None => Ok (Inf (xorb (m <? 0) (m' <? 0)))
  end.
Proof. intros Hm. destruct m'; [congruence | reflexivity | reflexivity]. Qed.

Lemma truediv_int_1024 m e :
2 ^ 52 <= m -> m < 2 ^ 53 -> emin + 10 <= e -> e <= emax - prec + 10 ->
truediv_int (Finite m e) 1024 = Ok (Finite m (e - 10)).
Proof.
intros Hlo Hhi He1 He2.
assert (Hl : Z.log2 m = 52).
{ apply Z.le_antisymm.
  - apply log2_bound; lia.
  - apply Z.log2_le_pow2; lia. }
unfold truediv_int.
change (of_int 1024) with (Ok (Finite (2 ^ 52) (-42))).
cbn [bind]. rewrite truediv_finite by lia.
rewrite (Z.abs_eq m), (Z.abs_eq (2 ^ 52)) by lia.
pose proof (round_quot_pow2 m 0 52 (e - -42)) as H.
rewrite Hl, Z.mul_1_r in H. rewrite H by (unfold emin, emax, prec in *; lia).
unfold normal. rewrite Hl. simpl (2 ^ (52 - 52)). rewrite Z.mul_1_r.
replace (m <? 0) with false by (symmetry; apply Z.ltb_ge; lia).
simpl. do 2 f_equal. lia.
Qed.

Lemma div_rne_bounds n d :
0 < d -> n / d <= div_rne n d /\ 2 * d * div_rne n d <= 2 * n + d.
Proof.
intros Hd. unfold div_rne.
pose proof (Z_div_mod_eq_full n d) as Heq.
pose proof (Z.mod_pos_bound n d Hd) as Hr.
destruct ((d <? 2 * (n mod d)) || ((2 * (n mod d) =? d) && Z.odd (n / d))) eqn:Hup.
- split; [lia|].
  apply orb_true_iff in Hup. destruct Hup as [Hup|Hup].
  + apply Z.ltb_lt in Hup. nia.
  + apply andb_true_iff in Hup. destruct Hup as [Hup _].
    apply Z.eqb_eq in Hup. nia.
- split; [lia | nia].
Qed.

Lemma ilog2_quot_upper a b e : ilog2_quot a b e <= Z.log2 a - Z.log2 b + e.
Proof.
unfold ilog2_quot. destruct (a * 2 ^ Z.log2 b <? b * 2 ^ Z.log2 a); lia.
Qed.

Lemma int_truediv_1000 n :
0 < n -> n < 2 ^ 53 ->
exists m s, int_truediv n 1000 = Ok (Finite m (- s))
            /\ 9 <= s /\ (n / 1000) * 2 ^ s <= m < (n / 1000 + 1) * 2 ^ s.
Proof.
intros Hn Hlt.
pose proof (log2_bound n Hn Hlt) as Hl.
pose proof (ilog2_quot_upper n 1000 0) as Hlv.
change (Z.log2 1000) with 9 in Hlv.
set (ex := Z.max emin (ilog2_quot n 1000 0 - (prec - 1))).
assert (Hex : emin <= ex <= -9) by (unfold ex, prec, emin in *; lia).
set (P := 2 ^ (- ex)).
assert (HP : 512 <= P).
{ unfold P. change 512 with (2 ^ 9). apply Z.pow_le_mono_r; lia. }
pose proof (div_rne_bounds (n * P) 1000 ltac:(lia)) as [Hlow Hupp].
pose proof (Z_div_mod_eq_full n 1000) as Hq.
pose proof (Z.mod_pos_bound n 1000 ltac:(lia)) as Hr.
assert (Hqp : n / 1000 * P <= n * P / 1000).
{ apply Z.div_le_lower_bound; nia. }
assert (Hmhi : div_rne (n * P) 1000 < (n / 1000 + 1) * P) by nia.
exists (div_rne (n * P) 1000), (- ex).
split; [|split; [lia | fold P; lia]].
unfold int_truediv. simpl (1000 =? 0).
rewrite (Z.abs_eq n) by lia. change (Z.abs 1000) with 1000.
unfold round_quot.
replace (n =? 0) with false by (symmetry; apply Z.eqb_neq; lia).
fold ex. replace (0 - ex) with (- ex) by lia.
replace (0 <=? - ex) with true by (symmetry; apply Z.leb_le; lia).
fold P.
replace (2 ^ (emax - emin) <=? div_rne (n * P) 1000 * 2 ^ (ex - emin)) with false.
- replace (n <? 0) with false by (symmetry; apply Z.ltb_ge; lia).
  simpl. do 2 f_equal. lia.
- symmetry; apply Z.leb_gt.
  assert (Hnq : n / 1000 + 1 <= 2 ^ 53).
  { assert (n / 1000 <= n) by (apply Z.div_le_upper_bound; lia). lia. }
  apply Z.lt_le_trans with (2 ^ 53 * P * 2 ^ (ex - emin)).
  + apply Z.mul_lt_mono_pos_r; [apply pow2_pos; lia | nia].
  + unfold P, emin, emax in *.
    rewrite <- Z.mul_assoc, <- !pow2_split by lia.
    apply Z.pow_le_mono_r; lia.
Qed.

End FloatFacts.

(** ** The two conversions on totals a double holds exactly *)

Section Conversions.

Import Float FloatFacts.

Lemma bytes_to_gb_exact n j :
0 < n -> n < 2 ^ 53 -> 0 <= j -> Z.log2 n + j <= 1033 ->
bytes_to_gb (n * 2 ^ j) = Ok (n * 2 ^ j / 2 ^ 30).
Proof.
intros Hn Hlt Hj Hb.
pose proof (Z.log2_nonneg n) as Hl0. pose proof (log2_bound n Hn Hlt) as Hl.
pose proof (normal_range n Hn Hlt) as [Nlo Nhi].
assert (N52 : 2 ^ 52 <= normal n).
{ apply Z.log2_le_pow2; [lia | rewrite normal_log2; lia]. }
unfold bytes_to_gb.
rewrite int_truediv_1024 by assumption. cbn [bind].
rewrite truediv_int_1024 by (unfold emin, emax, prec; lia). cbn [bind].
rewrite truediv_int_1024 by (unfold emin, emax, prec; lia). cbn [bind].
unfold to_int.
set (ex := Z.log2 n + j - 62 - 10 - 10).
pose proof (pow2_pos j Hj) as Pj.
destruct (0 <=? ex) eqn:Hs; f_equal.
- apply Z.leb_le in Hs. subst ex.
  replace (n * 2 ^ j) with (normal n * 2 ^ (Z.log2 n + j - 62 - 10 - 10) * 2 ^ 30).
  + rewrite Z.div_mul by lia. reflexivity.
  + unfold normal. rewrite <- !Z.mul_assoc, <- !pow2_split by lia.
    f_equal. f_equal. lia.
- apply Z.leb_gt in Hs. subst ex.
  rewrite Z.quot_div_nonneg by (try apply pow2_pos; lia).
  rewrite <- (Z.div_mul_cancel_r (n * 2 ^ j) (2 ^ 30) (2 ^ (52 - Z.log2 n)))
    by (try (pose proof (pow2_pos (52 - Z.log2 n)); lia); lia).
  rewrite <- (Z.div_mul_cancel_r (normal n) _ (2 ^ j)) by (try apply Z.pow_nonzero; lia).
  f_equal.
  + unfold normal. ring.
  + rewrite <- !pow2_split by lia. f_equal. lia.
Qed.

Lemma bytes_to_gb_small n :
0 <= n -> n < 2 ^ 53 -> bytes_to_gb n = Ok (n / 1024 ^ 3).
Proof.
intros Hn Hlt. destruct (Z.eq_dec n 0) as [->|Hz]; [reflexivity|].
pose proof (bytes_to_gb_exact n 0) as H. rewrite Z.mul_1_r in H.
pose proof (log2_bound n ltac:(lia) Hlt).
apply H; lia.
Qed.

Lemma bytes_to_gb_multiple k :
0 <= k -> k <= 2 ^ 53 -> bytes_to_gb (k * 1024 ^ 3) = Ok k.
Proof.
intros Hk Hle. change (1024 ^ 3) with (2 ^ 30).
destruct (Z.eq_dec k 0) as [->|Hz]; [reflexivity|].
destruct (Z.eq_dec k (2 ^ 53)) as [->|Hmax]; [vm_compute; reflexivity|].
pose proof (log2_bound k ltac:(lia) ltac:(lia)).
rewrite bytes_to_gb_exact by lia.
rewrite Z.div_mul by lia. reflexivity.
Qed.

Lemma mib_to_gb_small n :
0 <= n -> n < 2 ^ 53 -> mib_to_gb n = Ok (n / 1000).
Proof.
intros Hn Hlt. destruct (Z.eq_dec n 0) as [->|Hz]; [reflexivity|].
destruct (int_truediv_1000 n ltac:(lia) Hlt) as (m & s & Hdiv & Hs & Hlo & Hhi).
unfold mib_to_gb. rewrite Hdiv. cbn [bind to_int].
replace (0 <=? - s) with false by (symmetry; apply Z.leb_gt; lia).
rewrite Z.opp_involutive.
pose proof (pow2_pos s ltac:(lia)) as Ps.
assert (0 <= n / 1000) by (apply Z.div_pos; lia).
rewrite Z.quot_div_nonneg by nia.
f_equal. symmetry. apply Z.div_unique with (m - n / 1000 * 2 ^ s); lia.
Qed.

End Conversions.

(** ** Statistics sent as strings *)

Lemma decimal_str_of_int z : decimal (str_of_int z) = Some z.
Proof.
  unfold decimal, str_of_int. rewrite NilZero.isi.
  - cbn [option_map]. rewrite DecimalZ.of_to. reflexivity.
  - destruct z; cbn; try discriminate.
    intros H. injection H as H. exact (Unsigned.to_uint_nonnil p H).
  - destruct z; cbn; try discriminate.
    intros H. injection H as H. exact (Unsigned.to_uint_nonnil p H).
Qed.

Lemma as_str_int z : py_int decimal (as_str z) = Ok z.
Proof. unfold py_int, as_str. rewrite decimal_str_of_int. reflexivity. Qed.

(** ** Sums *)

Lemma Zsum_app l l' : Zsum (l ++ l') = Zsum l + Zsum l'.
Proof. induction l as [|x l IH]; simpl; lia. Qed.

Lemma Zsum_perm l l' : Permutation l l' -> Zsum l = Zsum l'.
Proof. induction 1; simpl; lia. Qed.

Lemma Zsum_nonneg l : Forall (fun z => 0 <= z) l -> 0 <= Zsum l.
Proof. induction 1; simpl; lia. Qed.

(** ** The loops on well-formed payloads *)

Lemma disk_step_json acc d : disk_step acc (disk_json d) = acc + disk_bytes d.
Proof.
  unfold disk_step, add_disk_size, disk_json, disk_bytes.
  destruct (disk_size_bytes d); simpl; lia.
Qed.

Lemma disks_loop_json ds : forall acc,
  disks_loop acc (map disk_json ds) = acc + Zsum (map disk_bytes ds).
Proof.
  unfold disks_loop.
  induction ds as [|d ds IH]; intros acc; simpl.
  - lia.
  - rewrite IH, disk_step_json. lia.
Qed.

Lemma vm_step_json t v : vm_step t (vm_json v) = Ok (vm_add t v).
Proof.
  unfold vm_step, vm_json, vm_payload, vm_add. cbn.
  rewrite disks_loop_json. reflexivity.
Qed.

Lemma for_each_vms vs : forall t,
  for_each vm_step (map vm_json vs) t = Ok (fold_left vm_add vs t).
Proof.
  induction vs as [|v vs IH]; intros t; cbn [map for_each fold_left].
  - reflexivity.
  - rewrite vm_step_json. cbn [bind]. apply IH.
Qed.

Lemma fold_vm_add vs : forall t,
  fold_left vm_add vs t =
  {| total_vms_threads_per_core :=
       total_vms_threads_per_core t + Zsum (map num_threads_per_core vs);
     total_vms_vcpus_per_socket :=
       total_vms_vcpus_per_socket t + Zsum (map num_vcpus_per_socket vs);
     total_vms_num_sockets := total_vms_num_sockets t + Zsum (map num_sockets vs);
     total_vms_memory_size_mib :=
       total_vms_memory_size_mib t + Zsum (map memory_size_mib vs);
     total_vms_disk_size_bytes :=
       total_vms_disk_size_bytes t + Zsum (map vm_disk_bytes vs) |}.
Proof.
  induction vs as [|v vs IH]; intros t; simpl.
  - destruct t; simpl. f_equal; lia.
  - rewrite IH. unfold vm_add; simpl. f_equal; lia.
Qed.

Lemma count_vms_json vs : count_vms (vms_json vs) = Ok (vm_totals vs).
Proof.
  unfold count_vms, vms_json. cbn.
  rewrite for_each_vms, fold_vm_add. reflexivity.
Qed.

Section HostLoop.

Variable str_to_int : string -> option Z.
Variable enc : Z -> value.
Hypothesis enc_int : forall z, py_int str_to_int (enc z) = Ok z.

Lemma host_step_json t h :
  host_step str_to_int t (host_json enc h) = Ok (host_add t h).
Proof.
  unfold host_step, host_json, host_add. cbn.
  rewrite enc_int. reflexivity.
Qed.

Lemma for_each_hosts hs : forall t,
  for_each (host_step str_to_int) (map (host_json enc) hs) t
  = Ok (fold_left host_add hs t).
Proof.
  induction hs as [|h hs IH]; intros t; cbn [map for_each fold_left].
  - reflexivity.
  - rewrite host_step_json. cbn [bind]. apply IH.
Qed.

Lemma fold_host_add hs : forall t,
  fold_left host_add hs t =
  {| total_hosts_cpu_cores := total_hosts_cpu_cores t + Zsum (map num_cpu_cores hs);
     total_hosts_storage_usage_bytes :=
       total_hosts_storage_usage_bytes t + Zsum (map storage_capacity_bytes hs);
     total_hosts_memory_capacity_bytes :=
       total_hosts_memory_capacity_bytes t
       + Zsum (map memory_capacity_in_bytes hs) |}.
Proof.
  induction hs as [|h hs IH]; intros t; simpl.
  - destruct t; simpl. f_equal; lia.
  - rewrite IH. unfold host_add; simpl. f_equal; lia.
Qed.

Lemma count_hosts_json hs :
  count_hosts str_to_int (hosts_json enc hs) = Ok (host_totals hs).
Proof.
  unfold count_hosts, hosts_json. cbn.
  rewrite for_each_hosts, fold_host_add. reflexivity.
Qed.

End HostLoop.

(** ** Runs and their logs *)

Lemma and_then_ok {A B : Type} (a : A) (k : A -> prog B) :
  and_then (lift (Ok a)) k = k a.
Proof. unfold and_then, lift. destruct (k a); reflexivity. Qed.

Lemma and_then_raise {A B : Type} (e : exn) (k : A -> prog B) :
  and_then (lift (@Raise A e)) k = ([], Raise e).
Proof. reflexivity. Qed.

Lemma and_then_check {B : Type} m t l (k : unit -> prog B) :
  and_then (check m t l) k = (fst (check m t l) ++ fst (k tt), snd (k tt))%list.
Proof. unfold and_then, check. destruct (l <? t), (k tt); reflexivity. Qed.

Lemma and_then_log_l {A B : Type} (p : prog A) (k : A -> prog B) r :
  In r (fst p) -> In r (fst (and_then p k)).
Proof.
  destruct p as [l [a|e]]; simpl; [|tauto].
  destruct (k a); simpl. intros H. apply in_or_app; tauto.
Qed.

Lemma and_then_log_inv {A B : Type} (p : prog A) (k : A -> prog B) r :
  In r (fst (and_then p k)) ->
  In r (fst p) \/ exists a, snd p = Ok a /\ In r (fst (k a)).
Proof.
  destruct p as [l [a|e]]; simpl; [|tauto].
  destruct (k a) eqn:Hk; simpl. intros H.
  apply in_app_or in H. destruct H; [tauto|].
  right. exists a. rewrite Hk. tauto.
Qed.

Lemma check_log m t l r :
  In r (fst (check m t l)) <-> l < t /\ r = critical (breach_message m t l).
Proof.
  unfold check. destruct (l <? t) eqn:H; simpl.
  - apply Z.ltb_lt in H. intuition.
  - apply Z.ltb_ge in H. intuition lia.
Qed.

(** The format strings tell the six metrics apart. *)
Lemma breach_message_metric m m' t l t' l' :
  breach_message m t l = breach_message m' t' l' -> m = m'.
Proof.
  unfold breach_message.
  destruct m, m'; try reflexivity; simpl; intros H; discriminate H.
Qed.

Lemma in_metrics m : In m metrics.
Proof. destruct m; simpl; tauto. Qed.

Lemma breaches_spec cfg t r :
  In r (breaches cfg t) <->
  exists m, limit_of cfg m < total_of t m
            /\ r = critical (breach_message m (total_of t m) (limit_of cfg m)).
Proof.
  unfold breaches. rewrite in_flat_map. split.
  - intros (m & _ & H). apply check_log in H. eauto.
  - intros (m & H). exists m. split; [apply in_metrics | apply check_log; exact H].
Qed.

Lemma breaches_metric cfg t m :
  In (critical (breach_message m (total_of t m) (limit_of cfg m))) (breaches cfg t)
  <-> limit_of cfg m < total_of t m.
Proof.
  rewrite breaches_spec. split.
  - intros (m' & Hlt & Heq). injection Heq as Heq.
    apply breach_message_metric in Heq. subst m'. exact Hlt.
  - intros H. eauto.
Qed.

Lemma check_vms_json cfg vs g_mem g_disk :
  mib_to_gb (Zsum (map memory_size_mib vs)) = Ok g_mem ->
  bytes_to_gb (Zsum (map vm_disk_bytes vs)) = Ok g_disk ->
  check_vms cfg (vms_json vs)
  = ((fst (check VmSockets (Zsum (map num_sockets vs))
             (total_vms_num_sockets_limit cfg))
      ++ fst (check VmMemoryGB g_mem (total_vms_memory_size_gb_limit cfg))
      ++ fst (check VmDiskGB g_disk (total_vms_disk_size_gb_limit cfg)))%list,
     Ok tt).
Proof.
  intros Hmem Hdisk. unfold check_vms.
  rewrite count_vms_json, and_then_ok, and_then_check. cbn [vm_totals total_vms_num_sockets total_vms_memory_size_mib total_vms_disk_size_bytes].
  rewrite Hmem, and_then_ok, and_then_check, Hdisk, and_then_ok.
  cbn [fst snd]. f_equal.
  unfold check. destruct (_ <? g_disk); reflexivity.
Qed.

Section HostRun.

Variable str_to_int : string -> option Z.
Variable enc : Z -> value.
Hypothesis enc_int : forall z, py_int str_to_int (enc z) = Ok z.

Lemma check_hosts_json cfg hs g_mem g_sto :
  bytes_to_gb (Zsum (map memory_capacity_in_bytes hs)) = Ok g_mem ->
  bytes_to_gb (Zsum (map storage_capacity_bytes hs)) = Ok g_sto ->
  check_hosts str_to_int cfg (hosts_json enc hs)
  = ((fst (check HostCpuCores (Zsum (map num_cpu_cores hs))
             (total_cpu_core_limit cfg))
      ++ fst (check HostMemoryGB g_mem (total_memory_usage_gb_limit cfg))
      ++ fst (check HostStorageGB g_sto (total_storage_usage_gb_limit cfg)))%list,
     Ok tt).
Proof.
  intros Hmem Hsto. unfold check_hosts.
  rewrite (count_hosts_json _ _ enc_int), and_then_ok, and_then_check.
  cbn [host_totals total_hosts_cpu_cores total_hosts_storage_usage_bytes
       total_hosts_memory_capacity_bytes].
  rewrite Hmem, and_then_ok, and_then_check, Hsto, and_then_ok.
  cbn [fst snd]. f_equal.
  unfold check. destruct (_ <? g_sto); reflexivity.
Qed.

(** A run on well-formed payloads whose four conversions go through logs
    exactly [breaches] and ends normally. *)
Lemma main_json cfg hs vs t :
  fleet_totals hs vs = Ok t ->
  main str_to_int cfg (hosts_json enc hs) (vms_json vs)
  = (breaches cfg t, Ok tt).
Proof.
  unfold fleet_totals.
  cbn [host_totals vm_totals total_hosts_cpu_cores
       total_hosts_storage_usage_bytes total_hosts_memory_capacity_bytes
       total_vms_num_sockets total_vms_memory_size_mib
       total_vms_disk_size_bytes].
  destruct (bytes_to_gb (Zsum (map memory_capacity_in_bytes hs)))
    as [hmem|] eqn:Hm; [|discriminate].
  destruct (bytes_to_gb (Zsum (map storage_capacity_bytes hs)))
    as [hsto|] eqn:Hs; [|discriminate].
  destruct (mib_to_gb (Zsum (map memory_size_mib vs)))
    as [vmem|] eqn:Hv; [|discriminate].
  destruct (bytes_to_gb (Zsum (map vm_disk_bytes vs)))
    as [vdisk|] eqn:Hd; [|discriminate].
  cbn [bind]. intros [= <-]. unfold main.
  rewrite (check_hosts_json cfg hs _ _ Hm Hs).
  rewrite (check_vms_json cfg vs _ _ Hv Hd).
  unfold and_then, breaches.
  cbn [flat_map metrics total_of limit_of hosts_cpu_cores
       hosts_memory_capacity_gbytes hosts_storage_usage_gbytes
       vms_num_sockets vms_memory_size_gb vms_disk_size_gb].
  rewrite <- !app_assoc, app_nil_r. reflexivity.
Qed.

End HostRun.

(** ** Disks, skipped entries and fields that are not read *)

Lemma Zsum_sized ds : Zsum (map disk_bytes ds) = Zsum (sized ds).
Proof.
  induction ds as [|d ds IH]; [reflexivity|].
  unfold sized, disk_bytes in *. simpl.
  destruct (disk_size_bytes d); simpl; rewrite ?Zsum_app; simpl; lia.
Qed.

Lemma disk_bytes_of_sizes ds :
  Zsum (map disk_bytes ds)
  = Zsum (map (fun o : option Z => match o with Some z => z | None => 0 end)
            (map disk_size_bytes ds)).
Proof. rewrite map_map. reflexivity. Qed.

Lemma Forall_disk_bytes ds :
  Forall disk_nonneg ds -> 0 <= Zsum (map disk_bytes ds).
Proof.
  intros H. apply Zsum_nonneg, Forall_map. exact H.
Qed.

Lemma add_disk_size_fails_any acc acc' disk e :
  add_disk_size acc disk = Raise e -> add_disk_size acc' disk = Raise e.
Proof.
  unfold add_disk_size.
  destruct (getitem disk "disk_size_bytes") as [v|e']; cbn [bind]; [|tauto].
  destruct v; cbn; congruence.
Qed.

Lemma disks_loop_skip before : forall acc disk after e,
  add_disk_size acc disk = Raise e ->
  disks_loop acc (before ++ disk :: after) = disks_loop acc (before ++ after).
Proof.
  intros acc disk after e Hfail. unfold disks_loop.
  rewrite !fold_left_app. cbn [fold_left]. f_equal.
  unfold disk_step.
  rewrite (add_disk_size_fails_any acc _ disk e Hfail). reflexivity.
Qed.

(** One step of the VM loop on two entities that differ in the two
    unchecked fields only: the steps end alike, and alike in the three totals
    the checks read. *)
Lemma vm_step_alike t t' vm vm' :
  checked_totals t = checked_totals t' ->
  differ_in_threads_vcpus vm vm' ->
  alike (fun r r' => checked_totals r = checked_totals r')
        (vm_step t vm) (vm_step t' vm').
Proof.
  intros Ht (kvs & kvs' & a & a' & b & b' & Hr & Hr' & Ha & Ha' & Hb & Hb' & Hk).
  unfold checked_totals in Ht. injection Ht as Hs Hm Hd.
  unfold vm_step. rewrite Hr, Hr'. cbn [bind getitem].
  rewrite Ha, Ha', Hb, Hb'. cbn [bind iadd].
  rewrite <- (Hk "num_sockets"), <- (Hk "memory_size_mib"),
    <- (Hk "disk_list") by discriminate.
  rewrite <- Hs, <- Hm, <- Hd.
  destruct (lookup "num_sockets" kvs) as [x|]; cbn [bind]; [|reflexivity].
  destruct (iadd (total_vms_num_sockets t) x) as [s|e]; cbn [bind alike];
    [|reflexivity].
  destruct (lookup "memory_size_mib" kvs) as [y|]; cbn [bind alike];
    [|reflexivity].
  destruct (iadd (total_vms_memory_size_mib t) y) as [m|e]; cbn [bind alike];
    [|reflexivity].
  destruct (lookup "disk_list" kvs) as [dl|]; cbn [bind alike]; [|reflexivity].
  destruct (iter dl) as [disks|e]; cbn [bind alike]; reflexivity.
Qed.

Lemma for_each_vm_step_alike vms vms' :
  Forall2 differ_in_threads_vcpus vms vms' ->
  forall t t', checked_totals t = checked_totals t' ->
  alike (fun r r' => checked_totals r = checked_totals r')
        (for_each vm_step vms t) (for_each vm_step vms' t').
Proof.
  induction 1 as [|vm vm' vms vms' Hvm _ IH]; intros t t' Ht; cbn [for_each].
  - exact Ht.
  - pose proof (vm_step_alike t t' vm vm' Ht Hvm) as Hstep.
    destruct (vm_step t vm) as [r|e], (vm_step t' vm') as [r'|e'];
      cbn [alike] in Hstep; try contradiction; cbn [bind].
    + apply IH, Hstep.
    + exact Hstep.
Qed.

(** Well-formed records that agree on everything else are such entities. *)
Lemma vm_json_differ v v' :
  same_but_threads_vcpus v v' ->
  differ_in_threads_vcpus (vm_json v) (vm_json v').
Proof.
  intros (Hs & Hm & Hd & Ho).
  unfold differ_in_threads_vcpus, vm_json, vm_payload.
  do 6 eexists. split; [reflexivity|]. split; [reflexivity|].
  split; [reflexivity|]. split; [reflexivity|].
  split; [reflexivity|]. split; [reflexivity|].
  intros k Hk1 Hk2. cbn [lookup].
  apply String.eqb_neq in Hk1, Hk2. rewrite Hk1, Hk2.
  rewrite Hs, Hm, Hd, Ho. reflexivity.
Qed.

(** [s + ''] *)
Lemma append_empty_r (s : string) : (s ++ "")%string = s.
Proof. induction s as [|c s IH]; cbn; [reflexivity|now rewrite IH]. Qed.

(** A fleet whose raw totals are below 2^53 has its six normalized totals:
    the integer quotients. *)
Lemma fleet_totals_small hs vs :
  0 <= Zsum (map memory_capacity_in_bytes hs) < 2 ^ 53 ->
  0 <= Zsum (map storage_capacity_bytes hs) < 2 ^ 53 ->
  0 <= Zsum (map memory_size_mib vs) < 2 ^ 53 ->
  0 <= Zsum (map vm_disk_bytes vs) < 2 ^ 53 ->
  fleet_totals hs vs
  = Ok {| hosts_cpu_cores := Zsum (map num_cpu_cores hs);
          hosts_memory_capacity_gbytes :=
            Zsum (map memory_capacity_in_bytes hs) / 1024 ^ 3;
          hosts_storage_usage_gbytes :=
            Zsum (map storage_capacity_bytes hs) / 1024 ^ 3;
          vms_num_sockets := Zsum (map num_sockets vs);
          vms_memory_size_gb := Zsum (map memory_size_mib vs) / 1000;
          vms_disk_size_gb := Zsum (map vm_disk_bytes vs) / 1024 ^ 3 |}.
Proof.
  intros [? ?] [? ?] [? ?] [? ?]. unfold fleet_totals.
  cbn [host_totals vm_totals total_hosts_cpu_cores
       total_hosts_storage_usage_bytes total_hosts_memory_capacity_bytes
       total_vms_num_sockets total_vms_memory_size_mib
       total_vms_disk_size_bytes].
  rewrite !bytes_to_gb_small, mib_to_gb_small by assumption.
  reflexivity.
Qed.

(** ** What a conversion can return *)

Module FloatRange.

Import Float FloatFacts.

Lemma div_rne_nonneg n d : 0 <= n -> 0 < d -> 0 <= div_rne n d.
Proof.
  intros Hn Hd. pose proof (div_rne_bounds n d Hd) as [Hlo _].
  pose proof (Z.div_pos n d Hn Hd). lia.
Qed.

Lemma round_quot_nonneg a b e m ex :
  0 <= a -> 0 < b -> round_quot a b e = Some (m, ex) -> 0 <= m.
Proof.
  intros Ha Hb. unfold round_quot.
  destruct (a =? 0); [intros H; inversion H; lia|].
  set (x := Z.max emin (ilog2_quot a b e - (prec - 1))).
  destruct (0 <=? e - x) eqn:Hs;
    match goal with
    | |- context [if ?c then None else _] => destruct c
    end; try discriminate; intros H; inversion H; subst.
  - apply Z.leb_le in Hs. apply div_rne_nonneg; [|exact Hb].
    pose proof (pow2_pos (e - x) Hs). nia.
  - apply Z.leb_gt in Hs. apply div_rne_nonneg; [exact Ha|].
    pose proof (pow2_pos (- (e - x)) ltac:(lia)). nia.
Qed.

Lemma of_int_1024 : of_int 1024 = Ok (Finite (2 ^ 52) (-42)).
Proof. reflexivity. Qed.

Lemma round_quot_in_range a b e m ex :
  0 <= a -> 0 < b -> round_quot a b e = Some (m, ex) -> in_range m ex.
Proof.
  intros Ha Hb Hr.
  pose proof (round_quot_nonneg _ _ _ _ _ Ha Hb Hr) as Hm.
  unfold in_range. rewrite (Z.abs_eq m Hm).
  revert Hr. unfold round_quot.
  destruct (a =? 0).
  { intros [= <- <-]. split; [discriminate|reflexivity]. }
  set (x := Z.max emin (ilog2_quot a b e - (prec - 1))).
  set (q := if 0 <=? e - x then _ else _).
  destruct (2 ^ (emax - emin) <=? q * 2 ^ (x - emin)) eqn:Hc; [discriminate|].
  intros [= <- <-]. apply Z.leb_gt in Hc. split; [apply Z.le_max_l|exact Hc].
Qed.

Lemma abs_signed s m : Z.abs (signed s m) = Z.abs m.
Proof. destruct s; cbn [signed]; [apply Z.abs_opp|reflexivity]. Qed.

Lemma int_truediv_in_range a b m e :
  int_truediv a b = Ok (Finite m e) -> in_range m e.
Proof.
  unfold int_truediv. destruct (b =? 0) eqn:Hb; [discriminate|].
  apply Z.eqb_neq in Hb.
  destruct (round_quot (Z.abs a) (Z.abs b) 0) as [[q ex]|] eqn:Hr;
    [|discriminate].
  intros [= <- <-].
  apply round_quot_in_range in Hr; [|apply Z.abs_nonneg|lia].
  unfold in_range in *. rewrite abs_signed. exact Hr.
Qed.

Lemma truediv_int_1024_in_range x m e :
  truediv_int x 1024 = Ok (Finite m e) -> in_range m e.
Proof.
  unfold truediv_int. rewrite of_int_1024. cbn [bind].
  destruct x as [m0 e0|s|]; [|destruct s; discriminate|discriminate].
  rewrite truediv_finite by discriminate.
  destruct (round_quot (Z.abs m0) (Z.abs (2 ^ 52)) (e0 - -42)) as [[q ex]|] eqn:Hr;
    [|discriminate].
  intros [= <- <-].
  apply round_quot_in_range in Hr; [|apply Z.abs_nonneg|reflexivity].
  unfold in_range in *. rewrite abs_signed. exact Hr.
Qed.

Lemma to_int_in_range m e z :
  in_range m e -> to_int (Finite m e) = Ok z -> Z.abs z < 2 ^ emax.
Proof.
  unfold in_range, emin, emax. intros [He Hm]. unfold to_int.
  replace (1024 - -1074) with (1024 + 1074) in Hm by lia.
  replace (e - -1074) with (e + 1074) in Hm by lia.
  rewrite (pow2_split 1024 1074) in Hm by lia.
  pose proof (pow2_pos 1074 ltac:(lia)) as P.
  destruct (0 <=? e) eqn:Hs; intros [= <-].
  - apply Z.leb_le in Hs. rewrite (pow2_split e 1074) in Hm by lia.
    pose proof (pow2_pos e Hs) as Pe.
    rewrite Z.abs_mul, (Z.abs_eq (2 ^ e)) by lia.
    apply Z.mul_lt_mono_pos_r with (p := 2 ^ 1074); [exact P|].
    rewrite <- Z.mul_assoc. exact Hm.
  - apply Z.leb_gt in Hs.
    pose proof (pow2_pos (- e) ltac:(lia)) as Pe.
    pose proof (Z.abs_nonneg m) as Hm0.
    rewrite <- Z.quot_abs by lia.
    rewrite (Z.abs_eq (2 ^ (- e))) by lia.
    rewrite Z.quot_div_nonneg by lia.
    assert (H1074 : 2 ^ 1074 = 2 ^ (- e) * 2 ^ (e + 1074)).
    { rewrite <- pow2_split by lia. f_equal. lia. }
    pose proof (Z.mul_div_le (Z.abs m) (2 ^ (- e)) Pe) as Hq.
    apply Z.mul_lt_mono_pos_r with (p := 2 ^ 1074); [exact P|].
    apply Z.le_lt_trans with (Z.abs m * 2 ^ (e + 1074)); [|exact Hm].
    rewrite H1074, Z.mul_assoc.
    apply Z.mul_le_mono_nonneg_r; [apply Z.lt_le_incl, pow2_pos; lia|]. lia.
Qed.

End FloatRange.

(** What a conversion returns is below 2^1024 in magnitude, and printable. *)
Lemma bytes_to_gb_bound n g : bytes_to_gb n = Ok g -> Z.abs g < 2 ^ 1024.
Proof.
  unfold bytes_to_gb.
  destruct (Float.int_truediv n 1024) as [x1|]; [|discriminate]. cbn [bind].
  destruct (Float.truediv_int x1 1024) as [x2|]; [|discriminate]. cbn [bind].
  destruct (Float.truediv_int x2 1024) as [[m e|s|]|] eqn:H3; try discriminate.
  cbn [bind]. apply FloatRange.to_int_in_range.
  exact (FloatRange.truediv_int_1024_in_range _ _ _ H3).
Qed.

Lemma mib_to_gb_bound n g : mib_to_gb n = Ok g -> Z.abs g < 2 ^ 1024.
Proof.
  unfold mib_to_gb.
  destruct (Float.int_truediv n 1000) as [[m e|s|]|] eqn:H1; try discriminate.
  cbn [bind]. apply FloatRange.to_int_in_range.
  exact (FloatRange.int_truediv_in_range _ _ _ _ H1).
Qed.

Lemma float_is_printable z : Z.abs z < 2 ^ 1024 -> printable z.
Proof.
  intros H. unfold printable, max_str_digits.
  apply Z.lt_trans with (2 ^ 1024); [exact H|].
  vm_compute. reflexivity.
Qed.

(** Every figure a complete run can cite is printable when the two raw
    counts and the six limits are. *)
Lemma fleet_figures_printable cfg hs vs t :
  printable_figures cfg hs vs -> fleet_totals hs vs = Ok t ->
  forall m, printable (total_of t m) /\ printable (limit_of cfg m).
Proof.
  intros (Hcores & Hsockets & Hlimits) Ht m. split; [|apply Hlimits].
  unfold fleet_totals in Ht. cbn zeta in Ht.
  destruct (bytes_to_gb (total_hosts_memory_capacity_bytes (host_totals hs)))
    as [g1|] eqn:H1; [|discriminate].
  destruct (bytes_to_gb (total_hosts_storage_usage_bytes (host_totals hs)))
    as [g2|] eqn:H2; [|discriminate].
  destruct (mib_to_gb (total_vms_memory_size_mib (vm_totals vs)))
    as [g3|] eqn:H3; [|discriminate].
  destruct (bytes_to_gb (total_vms_disk_size_bytes (vm_totals vs)))
    as [g4|] eqn:H4; [|discriminate].
  cbn [bind] in Ht. injection Ht as <-.
  destruct m; cbn [total_of hosts_cpu_cores hosts_memory_capacity_gbytes
                   hosts_storage_usage_gbytes vms_num_sockets
                   vms_memory_size_gb vms_disk_size_gb];
    first [ exact Hcores | exact Hsockets
          | apply float_is_printable;
            first [ eapply bytes_to_gb_bound; eassumption
                  | eapply mib_to_gb_bound; eassumption ] ].
Qed.

(** ** What a run can log *)

Lemma check_vms_log cfg vms r :
  In r (fst (check_vms cfg vms)) ->
  exists m t l, r = critical (breach_message m t l)
                /\ (m = VmSockets \/ m = VmMemoryGB \/ m = VmDiskGB).
Proof.
  unfold check_vms. intros H.
  apply and_then_log_inv in H. destruct H as [[]|(t & _ & H)].
  apply and_then_log_inv in H. destruct H as [H|([] & _ & H)].
  { apply check_log in H. destruct H as [_ ->]. eauto 8. }
  apply and_then_log_inv in H. destruct H as [[]|(g & _ & H)].
  apply and_then_log_inv in H. destruct H as [H|([] & _ & H)].
  { apply check_log in H. destruct H as [_ ->]. eauto 8. }
  apply and_then_log_inv in H. destruct H as [[]|(g' & _ & H)].
  apply check_log in H. destruct H as [_ ->]. eauto 8.
Qed.

Lemma check_hosts_log str_to_int cfg hosts r :
  In r (fst (check_hosts str_to_int cfg hosts)) ->
  exists m t l,
    r = critical (breach_message m t l) /\ l < t
    /\ (m = HostCpuCores
        /\ l = total_cpu_core_limit cfg
        /\ (exists tot, count_hosts str_to_int hosts = Ok tot
                        /\ t = total_hosts_cpu_cores tot)
        \/ m = HostMemoryGB \/ m = HostStorageGB).
Proof.
  unfold check_hosts. intros H.
  apply and_then_log_inv in H. destruct H as [[]|(tot & Htot & H)].
  simpl in Htot.
  apply and_then_log_inv in H. destruct H as [H|([] & _ & H)].
  { apply check_log in H. destruct H as [Hlt ->].
    do 3 eexists. split; [reflexivity|]. split; [exact Hlt|].
    left. eauto. }
  apply and_then_log_inv in H. destruct H as [[]|(g & _ & H)].
  apply and_then_log_inv in H. destruct H as [H|([] & _ & H)].
  { apply check_log in H. destruct H as [Hlt ->]. eauto 10. }
  apply and_then_log_inv in H. destruct H as [[]|(g' & _ & H)].
  apply check_log in H. destruct H as [Hlt ->]. eauto 10.
Qed.

(** * The claims *)

(** C1. On a fleet whose four unit conversions go through, and whose counts
    and limits are within the digits CPython prints, the run ends normally
    and, for each of the six metrics, logs a record for the metric exactly
    when its unit-normalized total is strictly greater than its limit.  The
    record has level CRITICAL and its text is the metric's sentence with the
    total and the limit in decimal, both printable; every record logged is
    one of these.  A total equal to the limit logs no record for the metric,
    a total of limit + 1 logs one. *)
Theorem breach_iff_total_above_limit
    (str_to_int : string -> option Z) (enc : Z -> value)
    (enc_int : forall z, py_int str_to_int (enc z) = Ok z)
    (cfg : Limits) (hs : list Host) (vs : list Vm) (t : FleetTotals)
    (Ht : fleet_totals hs vs = Ok t)
    (Hprint : printable_figures cfg hs vs) :
  let run := main str_to_int cfg (hosts_json enc hs) (vms_json vs) in
  let dec := fun z : Z => NilZero.string_of_int (Z.to_int z) in
  let line := fun (m : metric) (total limit : Z) =>
    match m with
    | HostCpuCores =>
        "CPU core limit reached! Current total for all Hosts: "
          ++ dec total ++ ". Limit: " ++ dec limit
    | HostMemoryGB =>
        "Memory usage limit reached! Current total for all Hosts: "
          ++ dec total ++ " GB. Limit: " ++ dec limit ++ " GB"
    | HostStorageGB =>
        "Storage usage limit reached! Current total for all Hosts: "
          ++ dec total ++ " GB. Limit: " ++ dec limit ++ " GB"
    | VmSockets =>
        "CPU sockets limit reached! Current total for all VMs: "
          ++ dec total ++ ". Limit: " ++ dec limit
    | VmMemoryGB =>
        "Memory usage limit reached! Current total for all VMs: "
          ++ dec total ++ " GB. Limit: " ++ dec limit ++ " GB"
    | VmDiskGB =>
        "Storage usage limit reached! Current total for all VMs: "
          ++ dec total ++ " GB. Limit: " ++ dec limit ++ " GB"
    end in
  let record := fun (m : metric) (total limit : Z) =>
    {| levelname := "CRITICAL"; message := line m total limit |} in
  snd run = Ok tt
  /\ (forall m, printable (total_of t m) /\ printable (limit_of cfg m))
  /\ (forall r, In r (fst run) ->
      exists m, r = record m (total_of t m) (limit_of cfg m)
                /\ limit_of cfg m < total_of t m)
  /\ forall m : metric,
       (In (record m (total_of t m) (limit_of cfg m)) (fst run)
        <-> limit_of cfg m < total_of t m)
       /\ (total_of t m = limit_of cfg m ->
           forall x y, ~ In (record m x y) (fst run))
       /\ (total_of t m = limit_of cfg m + 1 ->
           In (record m (limit_of cfg m + 1) (limit_of cfg m)) (fst run)).
Proof.
  intros run dec line record.
  assert (Hrecord : forall m x y, record m x y = critical (breach_message m x y)).
  { intros m x y. unfold record, critical. f_equal.
    destruct m; unfold line, breach_message, message_head, message_unit,
      str_of_int, dec; cbn [append]; rewrite ?append_empty_r; reflexivity. }
  unfold run. rewrite (main_json _ _ enc_int cfg hs vs t Ht).
  cbn [fst snd]. split; [reflexivity|].
  split; [exact (fleet_figures_printable cfg hs vs t Hprint Ht)|]. split.
  { intros r Hin. apply breaches_spec in Hin. destruct Hin as (m & Hlt & ->).
    exists m. split; [symmetry; apply Hrecord|exact Hlt]. }
  intros m. rewrite !Hrecord. split; [|split].
  - apply breaches_metric.
  - intros Heq x y. rewrite Hrecord. intros Hin. apply breaches_spec in Hin.
    destruct Hin as (m' & Hlt & Hmsg). injection Hmsg as Hmsg.
    apply breach_message_metric in Hmsg. subst m'. lia.
  - intros Heq. rewrite <- Heq. apply breaches_metric. lia.
Qed.

Lemma breach_iff_total_above_limit_witness :
  let run := main decimal limits_a (hosts_json as_str [host_a; host_b])
               (vms_json [vm_a; vm_b]) in
  fleet_totals [host_a; host_b] [vm_a; vm_b] = Ok totals_a
  /\ printable_figures limits_a [host_a; host_b] [vm_a; vm_b]
  /\ snd run = Ok tt
  /\ (In {| levelname := "CRITICAL";
            message := "CPU core limit reached! Current total for all Hosts: 11. Limit: 10" |}
         (fst run)
      <-> 10 < 11)
  /\ (In {| levelname := "CRITICAL";
            message := "Memory usage limit reached! Current total for all Hosts: 96 GB. Limit: 96 GB" |}
         (fst run)
      <-> 96 < 96)
  /\ (In {| levelname := "CRITICAL";
            message := "Storage usage limit reached! Current total for all VMs: 3 GB. Limit: 3 GB" |}
         (fst run)
      <-> 3 < 3).
Proof.
  intros run.
  assert (Ht : fleet_totals [host_a; host_b] [vm_a; vm_b] = Ok totals_a)
    by (vm_compute; reflexivity).
  assert (Hprint : printable_figures limits_a [host_a; host_b] [vm_a; vm_b]).
  { split; [|split; [|intros m; destruct m]];
      apply float_is_printable; vm_compute; reflexivity. }
  destruct (breach_iff_total_above_limit decimal as_str as_str_int limits_a
              [host_a; host_b] [vm_a; vm_b] totals_a Ht Hprint)
    as (Hend & _ & _ & Hm).
  split; [exact Ht|]. split; [exact Hprint|]. split; [exact Hend|].
  split; [|split].
  - exact (proj1 (Hm HostCpuCores)).
  - exact (proj1 (Hm HostMemoryGB)).
  - exact (proj1 (Hm VmDiskGB)).
Defined.

(** C2. The CPU-core total the host loop computes is the sum of the records'
    [num_cpu_cores], and reordering the records changes none of the totals. *)
Theorem cpu_core_total_is_order_free_sum
    (str_to_int : string -> option Z) (enc : Z -> value)
    (enc_int : forall z, py_int str_to_int (enc z) = Ok z)
    (hs hs' : list Host) (Hperm : Permutation hs hs') :
  (t <- count_hosts str_to_int (hosts_json enc hs) ;; Ok (total_hosts_cpu_cores t))
  = Ok (Zsum (map num_cpu_cores hs))
  /\ count_hosts str_to_int (hosts_json enc hs')
     = count_hosts str_to_int (hosts_json enc hs).
Proof.
  rewrite !(count_hosts_json _ _ enc_int). split; [reflexivity|].
  unfold host_totals. f_equal.
  f_equal; apply Zsum_perm, Permutation_map, Permutation_sym, Hperm.
Qed.

Lemma cpu_core_total_is_order_free_sum_witness :
  Permutation [host_a; host_b] [host_b; host_a]
  /\ (t <- count_hosts decimal (hosts_json as_str [host_a; host_b]) ;;
      Ok (total_hosts_cpu_cores t))
     = Ok (Zsum (map num_cpu_cores [host_a; host_b]))
  /\ count_hosts decimal (hosts_json as_str [host_b; host_a])
     = count_hosts decimal (hosts_json as_str [host_a; host_b]).
Proof.
  split; [apply perm_swap|].
  apply (cpu_core_total_is_order_free_sum decimal as_str as_str_int
           [host_a; host_b] [host_b; host_a]).
  apply perm_swap.
Defined.

(** C3, as amended.  A non-negative byte total that is a multiple of 1024^3
    and whose quotient is at most 2^53 converts to exactly that quotient;
    3 * 1024^3 bytes are 3 GB. *)
Theorem bytes_to_gb_exact_on_multiples (total : Z)
    (Hpos : 0 <= total) (Hdiv : total mod 1024 ^ 3 = 0)
    (Hmax : total / 1024 ^ 3 <= 2 ^ 53) :
  bytes_to_gb total = Ok (total / 1024 ^ 3).
Proof.
  pose proof (Z_div_mod_eq_full total (1024 ^ 3)) as Heq.
  rewrite Hdiv, Z.add_0_r, Z.mul_comm in Heq.
  rewrite Heq at 1. apply bytes_to_gb_multiple; [|exact Hmax].
  apply Z.div_pos; [exact Hpos | reflexivity].
Qed.

Lemma bytes_to_gb_exact_on_multiples_witness :
  bytes_to_gb (3 * 1024 ^ 3) = Ok 3.
Proof.
  apply (bytes_to_gb_exact_on_multiples (3 * 1024 ^ 3));
    [vm_compute; discriminate | reflexivity | vm_compute; discriminate].
Defined.

(** C3 as stated fails once the quotient needs more than 53 bits: the
    division is done on doubles and (2^53 + 1) * 1024^3 bytes come out one
    gigabyte short. *)
Lemma bytes_to_gb_rounds_above_2_53 :
  let total := (2 ^ 53 + 1) * 1024 ^ 3 in
  0 <= total
  /\ total mod 1024 ^ 3 = 0
  /\ total / 1024 ^ 3 = 2 ^ 53 + 1
  /\ bytes_to_gb total = Ok (2 ^ 53)
  /\ bytes_to_gb total <> Ok (total / 1024 ^ 3).
Proof. vm_compute. repeat split; discriminate. Qed.

(** C4. The VM memory total is divided by 1000, not by 1024: 5000 MiB are
    reported as 5 GB where the binary quotient is 4, every total below 2^53
    is reported as its quotient by 1000, and with a limit of 4 a fleet of
    5000 MiB is logged as 5 GB over it. *)
Theorem mib_to_gb_is_decimal :
  mib_to_gb 5000 = Ok 5
  /\ 5000 / 1024 = 4
  /\ (forall n, 0 <= n < 2 ^ 53 -> mib_to_gb n = Ok (n / 1000))
  /\ (forall cfg vs,
        Zsum (map memory_size_mib vs) = 5000 ->
        total_vms_memory_size_gb_limit cfg = 4 ->
        In (critical
              "Memory usage limit reached! Current total for all VMs: 5 GB. Limit: 4 GB")
           (fst (check_vms cfg (vms_json vs)))).
Proof.
  split; [reflexivity|]. split; [reflexivity|]. split.
  - intros n [Hlo Hhi]. apply mib_to_gb_small; assumption.
  - intros cfg vs Hsum Hlim. unfold check_vms.
    rewrite count_vms_json, and_then_ok, and_then_check.
    cbn [vm_totals total_vms_memory_size_mib fst].
    apply in_or_app. right. rewrite Hsum.
    change (mib_to_gb 5000) with (@Ok Z 5). rewrite and_then_ok.
    apply and_then_log_l. rewrite Hlim. simpl. left. reflexivity.
Qed.

Lemma mib_to_gb_is_decimal_witness :
  mib_to_gb 4096 = Ok (4096 / 1000)
  /\ In (critical
           "Memory usage limit reached! Current total for all VMs: 5 GB. Limit: 4 GB")
        (fst (check_vms limits_a (vms_json [vm_a; vm_b]))).
Proof.
  destruct mib_to_gb_is_decimal as (_ & _ & Hsmall & Hrun). split.
  - apply (Hsmall 4096). split; [discriminate | reflexivity].
  - apply (Hrun limits_a [vm_a; vm_b]); reflexivity.
Defined.

(** C5. A disk entry without a [disk_size_bytes] key leaves the accumulator
    as it was; over a list of sized and unsized disks the accumulator grows
    by the sum of the sizes of the sized ones, and the VM loop goes on to
    return its totals. *)
Theorem unsized_disks_add_nothing :
  (forall acc kvs,
     lookup "disk_size_bytes" kvs = None -> disk_step acc (VDict kvs) = acc)
  /\ (forall acc d,
        disk_size_bytes d = None -> disk_step acc (disk_json d) = acc)
  /\ (forall acc ds,
        disks_loop acc (map disk_json ds) = acc + Zsum (sized ds))
  /\ (forall t v,
        vm_step t (vm_json v) = Ok (vm_add t v)
        /\ total_vms_disk_size_bytes (vm_add t v)
           = total_vms_disk_size_bytes t + Zsum (sized (disk_list v))).
Proof.
  split; [|split; [|split]].
  - intros acc kvs Hnone. unfold disk_step, add_disk_size, getitem.
    rewrite Hnone. reflexivity.
  - intros acc d Hnone. rewrite disk_step_json. unfold disk_bytes.
    rewrite Hnone. lia.
  - intros acc ds. rewrite disks_loop_json, Zsum_sized. reflexivity.
  - intros t v. split; [apply vm_step_json|].
    unfold vm_add, vm_disk_bytes. simpl. rewrite Zsum_sized. reflexivity.
Qed.

Lemma unsized_disks_add_nothing_witness :
  disk_step 7 (VDict [("uuid", VStr "c0ffee")]) = 7
  /\ disk_step 7 (disk_json {| disk_size_bytes := None; device_type := "CDROM" |}) = 7.
Proof.
  destruct unsized_disks_add_nothing as (Hraw & Hrec & _). split.
  - apply (Hraw 7 [("uuid", VStr "c0ffee")]). reflexivity.
  - apply (Hrec 7 {| disk_size_bytes := None; device_type := "CDROM" |}).
    reflexivity.
Defined.

(** C6. With a CPU-core limit of 10, two hosts of 6 and 5 cores total 11 and
    the run logs the CPU-core record citing 11 and 10; two hosts of 4 and 5
    cores total 9 and the run logs no CPU-core record. *)
Theorem cpu_core_scenario
    (str_to_int : string -> option Z) (enc : Z -> value)
    (enc_int : forall z, py_int str_to_int (enc z) = Ok z)
    (cfg : Limits) (h1 h2 : Host) (vms : value)
    (Hlimit : total_cpu_core_limit cfg = 10) :
  (num_cpu_cores h1 = 6 -> num_cpu_cores h2 = 5 ->
   (t <- count_hosts str_to_int (hosts_json enc [h1; h2]) ;;
    Ok (total_hosts_cpu_cores t)) = Ok 11
   /\ In (critical "CPU core limit reached! Current total for all Hosts: 11. Limit: 10")
         (fst (main str_to_int cfg (hosts_json enc [h1; h2]) vms)))
  /\ (num_cpu_cores h1 = 4 -> num_cpu_cores h2 = 5 ->
      (t <- count_hosts str_to_int (hosts_json enc [h1; h2]) ;;
       Ok (total_hosts_cpu_cores t)) = Ok 9
      /\ forall x y,
           ~ In (critical (breach_message HostCpuCores x y))
                (fst (main str_to_int cfg (hosts_json enc [h1; h2]) vms))).
Proof.
  split; intros H1 H2; rewrite (count_hosts_json _ _ enc_int);
    cbn [bind host_totals total_hosts_cpu_cores map Zsum fold_right];
    rewrite H1, H2; (split; [reflexivity|]).
  - unfold main, check_hosts. apply and_then_log_l.
    rewrite (count_hosts_json _ _ enc_int), and_then_ok.
    apply and_then_log_l.
    cbn [host_totals total_hosts_cpu_cores map Zsum fold_right].
    rewrite H1, H2, Hlimit. left. reflexivity.
  - intros x y Hin. unfold main in Hin.
    apply and_then_log_inv in Hin. destruct Hin as [Hin|([] & _ & Hin)].
    + apply check_hosts_log in Hin.
      destruct Hin as (m & t & l & Heq & Hlt & Hm).
      injection Heq as Heq. apply breach_message_metric in Heq. subst m.
      destruct Hm as [(_ & Hl & tot & Htot & Ht)|[Hm|Hm]]; try discriminate Hm.
      rewrite (count_hosts_json _ _ enc_int) in Htot. injection Htot as <-.
      cbn [host_totals total_hosts_cpu_cores map Zsum fold_right] in Ht.
      lia.
    + apply check_vms_log in Hin. destruct Hin as (m & t & l & Heq & Hm).
      injection Heq as Heq. apply breach_message_metric in Heq. subst m.
      destruct Hm as [Hm|[Hm|Hm]]; discriminate Hm.
Qed.

Lemma cpu_core_scenario_witness :
  In (critical "CPU core limit reached! Current total for all Hosts: 11. Limit: 10")
     (fst (main decimal limits_a (hosts_json as_str [host_a; host_b])
             (vms_json [vm_a; vm_b]))).
Proof.
  destruct (cpu_core_scenario decimal as_str as_str_int limits_a
              host_a host_b (vms_json [vm_a; vm_b]) eq_refl) as [Hbreach _].
  exact (proj2 (Hbreach eq_refl eq_refl)).
Defined.

(** C7. A VM with a disk of 2 * 1024^3 bytes and a disk without a size, and
    a VM with one disk of 1024^3 bytes, total 3 * 1024^3 disk bytes, which
    convert to 3 GB; the run logs the VM-disk record exactly when the
    configured VM-disk limit is below 3. *)
Theorem vm_disk_scenario (cfg : Limits) (v1 v2 : Vm)
    (Hd1 : map disk_size_bytes (disk_list v1) = [Some (2 * 1024 ^ 3); None])
    (Hd2 : map disk_size_bytes (disk_list v2) = [Some (1 * 1024 ^ 3)])
    (Hmem : 0 <= memory_size_mib v1 + memory_size_mib v2 < 2 ^ 53) :
  (t <- count_vms (vms_json [v1; v2]) ;; Ok (total_vms_disk_size_bytes t))
  = Ok (3 * 1024 ^ 3)
  /\ bytes_to_gb (3 * 1024 ^ 3) = Ok 3
  /\ snd (check_vms cfg (vms_json [v1; v2])) = Ok tt
  /\ (In (critical (breach_message VmDiskGB 3 (total_vms_disk_size_gb_limit cfg)))
         (fst (check_vms cfg (vms_json [v1; v2])))
      <-> total_vms_disk_size_gb_limit cfg < 3).
Proof.
  assert (Hsum : Zsum (map vm_disk_bytes [v1; v2]) = 3 * 1024 ^ 3).
  { cbn [map Zsum fold_right]. unfold vm_disk_bytes.
    rewrite !disk_bytes_of_sizes, Hd1, Hd2. reflexivity. }
  assert (Hgb : bytes_to_gb (3 * 1024 ^ 3) = Ok 3) by reflexivity.
  split; [|split; [exact Hgb|]].
  { rewrite count_vms_json. cbn [bind vm_totals total_vms_disk_size_bytes].
    rewrite Hsum. reflexivity. }
  rewrite (check_vms_json cfg [v1; v2] ((memory_size_mib v1 + memory_size_mib v2) / 1000) 3).
  - cbn [fst snd]. split; [reflexivity|].
    rewrite !in_app_iff, !check_log. split.
    + intros [[_ H]|[[_ H]|[Hlt _]]]; [| |exact Hlt];
        apply (f_equal message) in H; cbn [message critical] in H;
        apply breach_message_metric in H; discriminate H.
    + intros Hlt. right. right. split; [exact Hlt | reflexivity].
  - cbn [map Zsum fold_right]. rewrite Z.add_0_r.
    apply mib_to_gb_small; lia.
  - rewrite Hsum. exact Hgb.
Qed.

Lemma vm_disk_scenario_witness :
  (t <- count_vms (vms_json [vm_a; vm_b]) ;; Ok (total_vms_disk_size_bytes t))
  = Ok (3 * 1024 ^ 3)
  /\ bytes_to_gb (3 * 1024 ^ 3) = Ok 3
  /\ snd (check_vms limits_a (vms_json [vm_a; vm_b])) = Ok tt
  /\ (In (critical (breach_message VmDiskGB 3 (total_vms_disk_size_gb_limit limits_a)))
         (fst (check_vms limits_a (vms_json [vm_a; vm_b])))
      <-> total_vms_disk_size_gb_limit limits_a < 3).
Proof.
  apply (vm_disk_scenario limits_a vm_a vm_b);
    [reflexivity | reflexivity | split; [discriminate | reflexivity]].
Defined.

(** C8, as amended.  Folding in one more host or VM record whose quantities
    are non-negative lowers none of the six accumulators: the totals after
    the longer prefix are the totals after the shorter one plus the record's
    own figures. *)
Theorem totals_grow_with_nonneg_records
    (str_to_int : string -> option Z) (enc : Z -> value)
    (enc_int : forall z, py_int str_to_int (enc z) = Ok z) :
  (forall hs h, host_nonneg h ->
     let t := host_totals hs in
     let t' := host_add t h in
     count_hosts str_to_int (hosts_json enc hs) = Ok t
     /\ count_hosts str_to_int (hosts_json enc (hs ++ [h])) = Ok t'
     /\ total_hosts_cpu_cores t <= total_hosts_cpu_cores t'
     /\ total_hosts_storage_usage_bytes t <= total_hosts_storage_usage_bytes t'
     /\ total_hosts_memory_capacity_bytes t
        <= total_hosts_memory_capacity_bytes t')
  /\ (forall vs v, vm_nonneg v ->
        let t := vm_totals vs in
        let t' := vm_add t v in
        count_vms (vms_json vs) = Ok t
        /\ count_vms (vms_json (vs ++ [v])) = Ok t'
        /\ total_vms_num_sockets t <= total_vms_num_sockets t'
        /\ total_vms_memory_size_mib t <= total_vms_memory_size_mib t'
        /\ total_vms_disk_size_bytes t <= total_vms_disk_size_bytes t').
Proof.
  split.
  - intros hs h (Hc & Hs & Hm) t t'. subst t t'.
    rewrite !(count_hosts_json _ _ enc_int).
    split; [reflexivity|]. split.
    + f_equal. unfold host_totals, host_add; cbn.
      rewrite !map_app, !Zsum_app. cbn. f_equal; lia.
    + unfold host_add; cbn. lia.
  - intros vs v (Hs & Hm & Hd) t t'. subst t t'.
    rewrite !count_vms_json.
    split; [reflexivity|]. split.
    + f_equal. unfold vm_totals, vm_add; cbn.
      rewrite !map_app, !Zsum_app. cbn. f_equal; lia.
    + pose proof (Forall_disk_bytes _ Hd) as Hdisk.
      unfold vm_add, vm_disk_bytes; cbn. lia.
Qed.

Lemma totals_grow_with_nonneg_records_witness :
  host_nonneg host_b /\ vm_nonneg vm_b
  /\ total_hosts_cpu_cores (host_totals [host_a])
     <= total_hosts_cpu_cores (host_add (host_totals [host_a]) host_b)
  /\ total_vms_disk_size_bytes (vm_totals [vm_a])
     <= total_vms_disk_size_bytes (vm_add (vm_totals [vm_a]) vm_b).
Proof.
  assert (Hh : host_nonneg host_b) by (repeat split; discriminate).
  assert (Hv : vm_nonneg vm_b).
  { repeat split; try discriminate.
    repeat constructor; discriminate. }
  destruct (totals_grow_with_nonneg_records decimal as_str as_str_int)
    as [Hhosts Hvms].
  split; [exact Hh|]. split; [exact Hv|]. split.
  - exact (proj1 (proj2 (proj2 (Hhosts [host_a] host_b Hh)))).
  - exact (proj2 (proj2 (proj2 (proj2 (Hvms [vm_a] vm_b Hv))))).
Defined.

(** C8 as stated fails on a record with a negative figure: after a host
    reporting -1 cores the CPU-core accumulator is below where it was. *)
Lemma negative_record_lowers_total :
  let h := {| num_cpu_cores := -1; storage_capacity_bytes := 0;
              memory_capacity_in_bytes := 0; host_other := [] |} in
  count_hosts decimal (hosts_json as_str []) = Ok hosts_init
  /\ count_hosts decimal (hosts_json as_str [h])
     = Ok {| total_hosts_cpu_cores := -1;
             total_hosts_storage_usage_bytes := 0;
             total_hosts_memory_capacity_bytes := 0 |}
  /\ -1 < total_hosts_cpu_cores hosts_init.
Proof. repeat split. Qed.

(** C9. Whatever makes [total_vms_disk_size_bytes += disk['disk_size_bytes']]
    raise (an entry that is not a dict, a missing key, a size that cannot be
    added to an int), the accumulator after the entry is the accumulator
    before it, and the loops carry on as if the entry were not in the list. *)
Theorem failed_disk_add_is_skipped :
  (forall acc disk e,
     add_disk_size acc disk = Raise e -> disk_step acc disk = acc)
  /\ (forall acc before disk after e,
        add_disk_size acc disk = Raise e ->
        disks_loop acc (before ++ disk :: after)
        = disks_loop acc (before ++ after))
  /\ (forall t v before disk after e,
        add_disk_size 0 disk = Raise e ->
        vm_step t (vm_payload v (before ++ disk :: after))
        = vm_step t (vm_payload v (before ++ after))
        /\ exists t', vm_step t (vm_payload v (before ++ disk :: after)) = Ok t')
  /\ (forall acc kvs,
        lookup "disk_size_bytes" kvs = None ->
        add_disk_size acc (VDict kvs) = Raise KeyError)
  /\ (forall acc kvs size,
        lookup "disk_size_bytes" kvs = Some size ->
        (forall z, size <> VInt z) -> (forall b, size <> VBool b) ->
        add_disk_size acc (VDict kvs) = Raise TypeError)
  /\ (forall acc disk,
        (forall kvs, disk <> VDict kvs) ->
        add_disk_size acc disk = Raise TypeError).
Proof.
  repeat apply conj.
  - intros acc disk e Hfail. unfold disk_step. rewrite Hfail. reflexivity.
  - intros acc before disk after e Hfail.
    apply (disks_loop_skip before acc disk after e Hfail).
  - intros t v before disk after e Hfail.
    unfold vm_step, vm_payload. cbn.
    rewrite (disks_loop_skip before _ disk after e
               (add_disk_size_fails_any _ _ _ _ Hfail)).
    split; [reflexivity | eexists; reflexivity].
  - intros acc kvs Hnone. unfold add_disk_size, getitem. rewrite Hnone.
    reflexivity.
  - intros acc kvs size Hsome Hint Hbool.
    unfold add_disk_size, getitem. rewrite Hsome. cbn [bind].
    destruct size; try reflexivity.
    + exfalso. apply (Hbool b). reflexivity.
    + exfalso. apply (Hint z). reflexivity.
  - intros acc disk Hnd. unfold add_disk_size.
    destruct disk; try reflexivity.
    exfalso. apply (Hnd l). reflexivity.
Qed.

Lemma failed_disk_add_is_skipped_witness :
  add_disk_size 5 (VDict [("disk_size_bytes", VStr "40 GiB")]) = Raise TypeError
  /\ disk_step 5 (VDict [("disk_size_bytes", VStr "40 GiB")]) = 5
  /\ disks_loop 5 ([VDict [("disk_size_bytes", VInt 2)]]
                   ++ VNone :: [VDict [("disk_size_bytes", VInt 3)]])
     = disks_loop 5 ([VDict [("disk_size_bytes", VInt 2)]]
                     ++ [VDict [("disk_size_bytes", VInt 3)]]).
Proof.
  destruct failed_disk_add_is_skipped as (Hstep & Hloop & _).
  split; [reflexivity|]. split.
  - apply (Hstep 5 (VDict [("disk_size_bytes", VStr "40 GiB")]) TypeError).
    reflexivity.
  - apply (Hloop 5 [VDict [("disk_size_bytes", VInt 2)]] VNone
             [VDict [("disk_size_bytes", VInt 3)]] TypeError).
    reflexivity.
Defined.

(** C10, as amended.  Two VM collections in which every VM's
    [num_threads_per_core] and [num_vcpus_per_socket] are integers, and which
    differ only in those two fields, make the run log the same records, in
    the same order, and end the same way. *)
Theorem threads_and_vcpus_do_not_show
    (str_to_int : string -> option Z) (cfg : Limits) (hosts vms vms' : value)
    (items items' : list value)
    (Hvms : getitem vms "entities" = Ok (VList items))
    (Hvms' : getitem vms' "entities" = Ok (VList items'))
    (Hsame : Forall2 differ_in_threads_vcpus items items') :
  main str_to_int cfg hosts vms = main str_to_int cfg hosts vms'.
Proof.
  unfold main. f_equal. unfold check_vms, count_vms.
  rewrite Hvms, Hvms'. cbn [bind iter].
  pose proof (for_each_vm_step_alike items items' Hsame vms_init vms_init
                eq_refl) as Hloop.
  destruct (for_each vm_step items vms_init) as [t|e],
    (for_each vm_step items' vms_init) as [t'|e'];
    cbn [alike] in Hloop; try contradiction.
  - unfold checked_totals in Hloop. injection Hloop as Hs Hm Hd.
    rewrite !and_then_ok. rewrite Hs, Hm, Hd. reflexivity.
  - subst e'. reflexivity.
Qed.

Lemma threads_and_vcpus_do_not_show_witness :
  let vm_a' := {| num_threads_per_core := 8; num_vcpus_per_socket := 16;
                  num_sockets := num_sockets vm_a;
                  memory_size_mib := memory_size_mib vm_a;
                  disk_list := disk_list vm_a; vm_other := vm_other vm_a |} in
  Forall2 differ_in_threads_vcpus [vm_json vm_a; vm_json vm_b]
    [vm_json vm_a'; vm_json vm_b]
  /\ main decimal limits_a (hosts_json as_str [host_a; host_b]) (vms_json [vm_a; vm_b])
     = main decimal limits_a (hosts_json as_str [host_a; host_b])
         (vms_json [vm_a'; vm_b]).
Proof.
  intros vm_a'.
  assert (H : Forall2 differ_in_threads_vcpus [vm_json vm_a; vm_json vm_b]
                [vm_json vm_a'; vm_json vm_b]).
  { repeat constructor; apply vm_json_differ; repeat split. }
  split; [exact H|].
  exact (threads_and_vcpus_do_not_show decimal limits_a
           (hosts_json as_str [host_a; host_b])
           (vms_json [vm_a; vm_b]) (vms_json [vm_a'; vm_b])
           [vm_json vm_a; vm_json vm_b] [vm_json vm_a'; vm_json vm_b]
           eq_refl eq_refl H).
Defined.

(** C10 as stated fails where one of the two fields is not a number: the
    loop adds it to its counter before any VM check is made.  With
    [num_threads_per_core] null the run ends with [TypeError] and without
    the socket record that the same VM with one thread per core gets. *)
Lemma non_integer_threads_change_the_log :
  let hosts := hosts_json as_str [host_a; host_b] in
  let run := main decimal limits_a hosts (entities [vm_with_threads (VInt 1)]) in
  let run' := main decimal limits_a hosts (entities [vm_with_threads VNone]) in
  In {| levelname := "CRITICAL";
        message := "CPU sockets limit reached! Current total for all VMs: 4. Limit: 2" |}
     (fst run)
  /\ snd run = Ok tt
  /\ ~ In {| levelname := "CRITICAL";
            message := "CPU sockets limit reached! Current total for all VMs: 4. Limit: 2" |}
          (fst run')
  /\ snd run' = Raise TypeError.
Proof.
  vm_compute. repeat split.
  - auto 10.
  - intros H. repeat (destruct H as [H|H]; [discriminate H|]). exact H.
Qed.

(** * Beyond the claims *)

(** ** Signs, and what the conversions can raise *)

Module FloatSigns.

Import Float FloatFacts FloatRange.

Lemma round_quot_zero b e : round_quot 0 b e = Some (0, 0).
Proof. reflexivity. Qed.

(** The float [-x]. *)
Lemma int_truediv_opp a b :
  0 < a -> 0 < b ->
  int_truediv (- a) b
  = match int_truediv a b with
    | Ok (Finite m e) => Ok (Finite (- m) e)
    | r => r
    end.
Proof.
  intros Ha Hb. unfold int_truediv.
  replace (b =? 0) with false by (symmetry; apply Z.eqb_neq; lia).
  rewrite Z.abs_opp.
  replace (- a <? 0) with true by (symmetry; apply Z.ltb_lt; lia).
  replace (a <? 0) with false by (symmetry; apply Z.ltb_ge; lia).
  replace (b <? 0) with false by (symmetry; apply Z.ltb_ge; lia).
  destruct (round_quot (Z.abs a) (Z.abs b) 0) as [[m e]|]; reflexivity.
Qed.

Lemma truediv_opp m e m' e' :
  0 <= m -> 0 < m' ->
  truediv (Finite (- m) e) (Finite m' e')
  = match truediv (Finite m e) (Finite m' e') with
    | Ok (Finite q ex) => Ok (Finite (- q) ex)
    | Ok (Inf s) => Ok (Inf (negb s))
    | r => r
    end.
Proof.
  intros Hm Hm'. rewrite !truediv_finite by lia.
  destruct (Z.eq_dec m 0) as [->|Hz].
  - cbn [Z.opp Z.abs]. rewrite round_quot_zero.
    destruct (m' <? 0); reflexivity.
  - rewrite Z.abs_opp.
    replace (- m <? 0) with true by (symmetry; apply Z.ltb_lt; lia).
    replace (m <? 0) with false by (symmetry; apply Z.ltb_ge; lia).
    replace (m' <? 0) with false by (symmetry; apply Z.ltb_ge; lia).
    destruct (round_quot (Z.abs m) (Z.abs m') (e - e')) as [[q ex]|];
      reflexivity.
Qed.

Lemma truediv_nonneg m e m' e' q ex :
  0 <= m -> 0 < m' ->
  truediv (Finite m e) (Finite m' e') = Ok (Finite q ex) -> 0 <= q.
Proof.
  intros Hm Hm'. rewrite truediv_finite by lia.
  replace (m <? 0) with false by (symmetry; apply Z.ltb_ge; lia).
  replace (m' <? 0) with false by (symmetry; apply Z.ltb_ge; lia).
  destruct (round_quot (Z.abs m) (Z.abs m') (e - e')) as [[q' ex']|] eqn:Hr;
    [|discriminate].
  intros H; inversion H; subst. cbn [xorb signed].
  assert (Hb : 0 < Z.abs m') by lia.
  exact (round_quot_nonneg _ _ _ _ _ (Z.abs_nonneg m) Hb Hr).
Qed.

Lemma to_int_opp m e :
  to_int (Finite (- m) e)
  = match to_int (Finite m e) with
    | Ok z => Ok (- z)
    | r => r
    end.
Proof.
  unfold to_int. destruct (0 <=? e) eqn:He.
  - f_equal. ring.
  - f_equal. apply Z.quot_opp_l. apply Z.leb_gt in He.
    apply Z.pow_nonzero; lia.
Qed.

End FloatSigns.

Section Signs.

Import Float FloatFacts FloatRange FloatSigns.

(** A float as [int_truediv] on a non-negative total leaves it. *)
Lemma int_truediv_shape a b :
  0 <= a -> 0 < b ->
  (exists m e, int_truediv a b = Ok (Finite m e) /\ 0 <= m)
  \/ int_truediv a b = Raise OverflowError.
Proof.
  intros Ha Hb. unfold int_truediv.
  replace (b =? 0) with false by (symmetry; apply Z.eqb_neq; lia).
  replace (a <? 0) with false by (symmetry; apply Z.ltb_ge; lia).
  replace (b <? 0) with false by (symmetry; apply Z.ltb_ge; lia).
  destruct (round_quot (Z.abs a) (Z.abs b) 0) as [[m e]|] eqn:Hr.
  - left. exists m, e. split; [reflexivity|].
    assert (Hb' : 0 < Z.abs b) by lia.
    exact (round_quot_nonneg _ _ _ _ _ (Z.abs_nonneg a) Hb' Hr).
  - right. reflexivity.
Qed.

Lemma truediv_1024_shape m e :
  0 <= m ->
  (exists q ex, truediv_int (Finite m e) 1024 = Ok (Finite q ex) /\ 0 <= q)
  \/ exists s, truediv_int (Finite m e) 1024 = Ok (Inf s).
Proof.
  intros Hm. unfold truediv_int. rewrite of_int_1024. cbn [bind].
  pose proof (truediv_nonneg m e (2 ^ 52) (-42)) as Hq.
  rewrite truediv_finite in * by lia.
  destruct (round_quot (Z.abs m) (Z.abs (2 ^ 52)) (e - -42)) as [[q ex]|].
  - left. do 2 eexists. split; [reflexivity|].
    eapply Hq; [exact Hm | lia | reflexivity].
  - right. eexists. reflexivity.
Qed.

Lemma truediv_1024_opp m e :
  0 <= m ->
  truediv_int (Finite (- m) e) 1024
  = match truediv_int (Finite m e) 1024 with
    | Ok (Finite q ex) => Ok (Finite (- q) ex)
    | Ok (Inf s) => Ok (Inf (negb s))
    | r => r
    end.
Proof.
  intros Hm. unfold truediv_int. rewrite of_int_1024. cbn [bind].
  apply truediv_opp; lia.
Qed.

Lemma truediv_1024_inf s : truediv_int (Inf s) 1024 = Ok (Inf s).
Proof. destruct s; reflexivity. Qed.

(** [bytes_to_gb] and [mib_to_gb] are odd. *)
Lemma bytes_to_gb_opp n :
  0 <= n ->
  bytes_to_gb (- n)
  = match bytes_to_gb n with
    | Ok g => Ok (- g)
    | r => r
    end.
Proof.
  intros Hn. destruct (Z.eq_dec n 0) as [->|Hz]; [reflexivity|].
  unfold bytes_to_gb. rewrite int_truediv_opp by lia.
  destruct (int_truediv_shape n 1024 Hn ltac:(lia))
    as [(m & e & -> & Hm)| ->]; [|reflexivity].
  cbn [bind]. rewrite truediv_1024_opp by exact Hm.
  destruct (truediv_1024_shape m e Hm) as [(q & ex & -> & Hq)|[s ->]].
  - cbn [bind]. rewrite truediv_1024_opp by exact Hq.
    destruct (truediv_1024_shape q ex Hq) as [(q' & ex' & -> & Hq')|[s ->]].
    + cbn [bind]. apply to_int_opp.
    + reflexivity.
  - cbn [bind]. rewrite !truediv_1024_inf. reflexivity.
Qed.

Lemma mib_to_gb_opp n :
  0 <= n ->
  mib_to_gb (- n)
  = match mib_to_gb n with
    | Ok g => Ok (- g)
    | r => r
    end.
Proof.
  intros Hn. destruct (Z.eq_dec n 0) as [->|Hz]; [reflexivity|].
  unfold mib_to_gb. rewrite int_truediv_opp by lia.
  destruct (int_truediv_shape n 1000 Hn ltac:(lia))
    as [(m & e & -> & Hm)| ->]; [|reflexivity].
  cbn [bind]. apply to_int_opp.
Qed.

(** Whatever the total, a conversion returns or raises [OverflowError]. *)
Lemma bytes_to_gb_raises n e :
  bytes_to_gb n = Raise e -> e = OverflowError.
Proof.
  assert (Hpos : forall k, 0 <= k -> bytes_to_gb k = Raise e -> e = OverflowError).
  { intros k Hk. unfold bytes_to_gb.
    destruct (int_truediv_shape k 1024 Hk ltac:(lia))
      as [(m & x & -> & Hm)| ->]; [|cbn; congruence].
    cbn [bind].
    destruct (truediv_1024_shape m x Hm) as [(q & ex & -> & Hq)|[s ->]].
    - cbn [bind].
      destruct (truediv_1024_shape q ex Hq) as [(q' & ex' & -> & Hq')|[s ->]].
      + cbn [bind]. unfold to_int. destruct (0 <=? ex'); discriminate.
      + cbn. congruence.
    - cbn [bind]. rewrite truediv_1024_inf. cbn. congruence. }
  destruct (Z.le_gt_cases 0 n) as [Hn|Hn]; [apply Hpos; exact Hn|].
  replace n with (- - n) by lia. rewrite bytes_to_gb_opp by lia.
  specialize (Hpos (- n) ltac:(lia)).
  destruct (bytes_to_gb (- n)); [discriminate|]. intros [= <-].
  apply Hpos. reflexivity.
Qed.

Lemma mib_to_gb_raises n e :
  mib_to_gb n = Raise e -> e = OverflowError.
Proof.
  assert (Hpos : forall k, 0 <= k -> mib_to_gb k = Raise e -> e = OverflowError).
  { intros k Hk. unfold mib_to_gb.
    destruct (int_truediv_shape k 1000 Hk ltac:(lia))
      as [(m & x & -> & Hm)| ->]; [|cbn; congruence].
    cbn [bind]. unfold to_int. destruct (0 <=? x); discriminate. }
  destruct (Z.le_gt_cases 0 n) as [Hn|Hn]; [apply Hpos; exact Hn|].
  replace n with (- - n) by lia. rewrite mib_to_gb_opp by lia.
  specialize (Hpos (- n) ltac:(lia)).
  destruct (mib_to_gb (- n)); [discriminate|]. intros [= <-].
  apply Hpos. reflexivity.
Qed.

End Signs.

Module FloatOverflow.

Import Float FloatFacts.

(** [ilog2_quot] does not overshoot: [b * 2^lv <= a]. *)
Lemma ilog2_quot_lower a b :
  0 < a -> 0 < b -> 0 <= ilog2_quot a b 0 ->
  b * 2 ^ ilog2_quot a b 0 <= a.
Proof.
  intros Ha Hb. unfold ilog2_quot. rewrite Z.add_0_r.
  pose proof (Z.log2_spec a Ha) as [Hal Hau].
  pose proof (Z.log2_spec b Hb) as [Hbl Hbu].
  pose proof (Z.log2_nonneg a) as La. pose proof (Z.log2_nonneg b) as Lb.
  set (la := Z.log2 a) in *. set (lb := Z.log2 b) in *.
  destruct (a * 2 ^ lb <? b * 2 ^ la) eqn:Hc; intros Hlv.
  - apply Z.lt_le_incl.
    apply Z.lt_le_trans with (2 ^ Z.succ lb * 2 ^ (la - lb - 1)).
    + apply Z.mul_lt_mono_pos_r; [apply pow2_pos; lia | exact Hbu].
    + rewrite <- pow2_split by lia.
      replace (Z.succ lb + (la - lb - 1)) with la by lia. exact Hal.
  - apply Z.ltb_ge in Hc.
    apply Z.mul_le_mono_pos_r with (p := 2 ^ lb); [apply pow2_pos; lia|].
    rewrite <- Z.mul_assoc, <- pow2_split by lia.
    replace (la - lb + lb) with la by lia. exact Hc.
Qed.

Lemma ilog2_quot_floor a b :
  0 < a -> 0 < b -> Z.log2 a - Z.log2 b - 1 <= ilog2_quot a b 0.
Proof.
  intros Ha Hb. unfold ilog2_quot.
  destruct (a * 2 ^ Z.log2 b <? b * 2 ^ Z.log2 a); lia.
Qed.

(** A quotient of [2^1024] or more is too large for a float. *)
Lemma int_truediv_overflow a b :
  0 < b -> b * 2 ^ 1024 <= a -> int_truediv a b = Raise OverflowError.
Proof.
  intros Hb Hab.
  assert (Ha : 0 < a) by (pose proof (pow2_pos 1024 ltac:(lia)); nia).
  pose proof (Z.log2_spec b Hb) as [Hbl _].
  pose proof (Z.log2_nonneg b) as Lb.
  assert (Hla : Z.log2 b + 1024 <= Z.log2 a).
  { apply Z.log2_le_pow2; [exact Ha|]. rewrite pow2_split by lia.
    pose proof (pow2_pos 1024 ltac:(lia)). nia. }
  pose proof (ilog2_quot_floor a b Ha Hb) as Hfl.
  pose proof (ilog2_quot_lower a b Ha Hb ltac:(lia)) as Hlow.
  set (lv := ilog2_quot a b 0) in *.
  unfold int_truediv.
  replace (b =? 0) with false by (symmetry; apply Z.eqb_neq; lia).
  rewrite (Z.abs_eq a), (Z.abs_eq b) by lia.
  unfold round_quot.
  replace (a =? 0) with false by (symmetry; apply Z.eqb_neq; lia).
  fold lv.
  replace (Z.max emin (lv - (prec - 1))) with (lv - 52)
    by (unfold emin, prec; lia).
  set (ex := lv - 52).
  replace (0 <=? 0 - ex) with false by (symmetry; apply Z.leb_gt; lia).
  replace (- (0 - ex)) with ex by lia.
  pose proof (pow2_pos ex ltac:(lia)) as Pex.
  pose proof (div_rne_bounds a (b * 2 ^ ex) ltac:(nia)) as [Hq _].
  set (m := div_rne a (b * 2 ^ ex)) in *.
  replace (2 ^ (emax - emin) <=? m * 2 ^ (ex - emin)) with true; [reflexivity|].
  symmetry; apply Z.leb_le.
  assert (Hm : 2 ^ 1024 <= m * 2 ^ ex).
  { destruct (Z.le_gt_cases ex 1024) as [Hs|Hs].
    - assert (2 ^ (1024 - ex) <= a / (b * 2 ^ ex)).
      { apply Z.div_le_lower_bound; [nia|].
        replace (b * 2 ^ ex * 2 ^ (1024 - ex)) with (b * 2 ^ 1024); [exact Hab|].
        rewrite <- Z.mul_assoc, <- pow2_split by lia. do 2 f_equal. lia. }
      apply Z.le_trans with (2 ^ (1024 - ex) * 2 ^ ex); [|nia].
      rewrite <- pow2_split by lia. apply Z.pow_le_mono_r; lia.
    - assert (1 <= a / (b * 2 ^ ex)).
      { apply Z.div_le_lower_bound; [nia|].
        apply Z.le_trans with (b * 2 ^ lv); [|exact Hlow].
        rewrite Z.mul_1_r. apply Z.mul_le_mono_nonneg_l; [lia|].
        apply Z.pow_le_mono_r; unfold ex; lia. }
      apply Z.le_trans with (2 ^ ex); [apply Z.pow_le_mono_r; lia | nia]. }
  unfold emax, emin.
  replace (1024 - -1074) with (1024 + 1074) by lia.
  replace (ex - -1074) with (ex + 1074) by lia.
  rewrite !pow2_split by lia. rewrite Z.mul_assoc.
  apply Z.mul_le_mono_nonneg_r; [apply Z.lt_le_incl, pow2_pos; lia | exact Hm].
Qed.

End FloatOverflow.

Lemma bytes_to_gb_overflow n :
  2 ^ 1034 <= n -> bytes_to_gb n = Raise OverflowError.
Proof.
  intros Hn. unfold bytes_to_gb.
  rewrite FloatOverflow.int_truediv_overflow; [reflexivity | lia |].
  change (1024 * 2 ^ 1024) with (2 ^ 1034). exact Hn.
Qed.

Lemma mib_to_gb_overflow n :
  1000 * 2 ^ 1024 <= n -> mib_to_gb n = Raise OverflowError.
Proof.
  intros Hn. unfold mib_to_gb.
  rewrite FloatOverflow.int_truediv_overflow; [reflexivity | lia | exact Hn].
Qed.

(** ** Loops on payloads that are not well formed *)

Lemma for_each_app {A : Type} (body : A -> value -> result A) l : forall l' acc,
  for_each body (l ++ l') acc
  = (acc' <- for_each body l acc ;; for_each body l' acc').
Proof.
  induction l as [|x l IH]; intros l' acc; cbn [app for_each bind].
  - reflexivity.
  - destruct (body acc x) as [acc'|e]; cbn [bind]; [apply IH | reflexivity].
Qed.

Lemma iadd_fails_any acc acc' v e :
  iadd acc v = Raise e -> iadd acc' v = Raise e.
Proof. destruct v; cbn; congruence. Qed.

Lemma host_step_fails_any str_to_int t t' host e :
  host_step str_to_int t host = Raise e ->
  host_step str_to_int t' host = Raise e.
Proof.
  unfold host_step.
  destruct (getitem host "num_cpu_cores") as [x|]; cbn [bind]; [|tauto].
  destruct (iadd (total_hosts_cpu_cores t) x) as [c|e1] eqn:Hadd; cbn [bind].
  - assert (Hadd' : exists c', iadd (total_hosts_cpu_cores t') x = Ok c').
    { destruct x; cbn in *; try discriminate; eauto. }
    destruct Hadd' as [c' ->]. cbn [bind].
    destruct (getitem host "usage_stats") as [s|]; cbn [bind]; [|tauto].
    destruct (getitem s "storage.capacity_bytes") as [y|]; cbn [bind]; [|tauto].
    destruct (py_int str_to_int y); cbn [bind]; [|tauto].
    destruct (getitem host "memory_capacity_in_bytes") as [w|]; cbn [bind];
      [|tauto].
    destruct (py_int str_to_int w); cbn [bind]; [discriminate | tauto].
  - intros [= <-]. rewrite (iadd_fails_any _ _ _ _ Hadd). reflexivity.
Qed.

Lemma disks_loop_strs l : forall acc,
  Forall (fun d => exists s, d = VStr s) l -> disks_loop acc l = acc.
Proof.
  unfold disks_loop.
  induction l as [|d l IH]; intros acc H; cbn [fold_left]; [reflexivity|].
  inversion H as [|? ? [s ->] Hl]; subst. cbn. apply IH, Hl.
Qed.

Lemma chars_strs s : Forall (fun d => exists s', d = VStr s') (chars s).
Proof. induction s; cbn; constructor; eauto. Qed.

Lemma keys_strs (kvs : list (string * value)) :
  Forall (fun d => exists s, d = VStr s) (map (fun kv => VStr (fst kv)) kvs).
Proof. induction kvs; cbn; constructor; eauto. Qed.

Lemma count_hosts_entities str_to_int items :
  count_hosts str_to_int (entities items)
  = for_each (host_step str_to_int) items hosts_init.
Proof. reflexivity. Qed.

Lemma count_vms_entities items :
  count_vms (entities items) = for_each vm_step items vms_init.
Proof. reflexivity. Qed.

(** X1. One host entity on which the loop body raises, anywhere in the
    list, ends the run with that exception before anything is logged,
    whatever the hosts before it total and whatever follows it. *)
Theorem malformed_host_aborts_unlogged
    (str_to_int : string -> option Z) (enc : Z -> value)
    (enc_int : forall z, py_int str_to_int (enc z) = Ok z)
    (cfg : Limits) (before : list Host) (bad : value) (after : list value)
    (vms : value) (e : exn)
    (Hbad : host_step str_to_int hosts_init bad = Raise e) :
  main str_to_int cfg
    (entities (map (host_json enc) before ++ bad :: after)) vms
  = ([], Raise e).
Proof.
  unfold main, check_hosts.
  rewrite count_hosts_entities, for_each_app, (for_each_hosts _ _ enc_int).
  cbn [bind for_each].
  rewrite (host_step_fails_any _ _ _ _ _ Hbad). reflexivity.
Qed.

Lemma malformed_host_aborts_unlogged_witness :
  main decimal limits_a
    (entities (map (host_json as_str) [host_a; host_b]
               ++ VDict [("num_cpu_cores", VInt 64)] :: [VNone])) VNone
  = ([], Raise KeyError).
Proof.
  apply (malformed_host_aborts_unlogged decimal as_str as_str_int limits_a
           [host_a; host_b] (VDict [("num_cpu_cores", VInt 64)]) [VNone] VNone
           KeyError).
  reflexivity.
Defined.

(** X2. The core count is added as it comes, the two byte counts go through
    [int()]: a host whose [num_cpu_cores] is a string raises [TypeError] even
    where the string is a number, while the same string under
    [storage.capacity_bytes] and [memory_capacity_in_bytes] is read as that
    number. *)
Theorem core_count_is_not_coerced
    (str_to_int : string -> option Z) (s : string) (z : Z)
    (Hs : str_to_int s = Some z) (t : HostTotals) (c : Z)
    (rest : list (string * value)) :
  host_step str_to_int t
    (VDict (("num_cpu_cores", VStr s)
            :: ("usage_stats", VDict [("storage.capacity_bytes", VInt z)])
            :: ("memory_capacity_in_bytes", VInt z) :: rest))
  = Raise TypeError
  /\ host_step str_to_int t
       (VDict (("num_cpu_cores", VInt c)
               :: ("usage_stats", VDict [("storage.capacity_bytes", VStr s)])
               :: ("memory_capacity_in_bytes", VStr s) :: rest))
     = Ok {| total_hosts_cpu_cores := total_hosts_cpu_cores t + c;
             total_hosts_storage_usage_bytes :=
               total_hosts_storage_usage_bytes t + z;
             total_hosts_memory_capacity_bytes :=
               total_hosts_memory_capacity_bytes t + z |}.
Proof.
  split; [reflexivity|].
  unfold host_step. cbn. rewrite Hs. reflexivity.
Qed.

Lemma core_count_is_not_coerced_witness :
  host_step decimal hosts_init
    (VDict [("num_cpu_cores", VStr "16");
            ("usage_stats", VDict [("storage.capacity_bytes", VInt 16)]);
            ("memory_capacity_in_bytes", VInt 16)])
  = Raise TypeError
  /\ host_step decimal hosts_init
       (VDict [("num_cpu_cores", VInt 8);
               ("usage_stats", VDict [("storage.capacity_bytes", VStr "16")]);
               ("memory_capacity_in_bytes", VStr "16")])
     = Ok {| total_hosts_cpu_cores := 0 + 8;
             total_hosts_storage_usage_bytes := 0 + 16;
             total_hosts_memory_capacity_bytes := 0 + 16 |}.
Proof.
  apply (core_count_is_not_coerced decimal "16" 16 eq_refl hosts_init 8 []).
Defined.

(** X3. The [try] covers the addition only.  A VM without a [disk_list] ends
    the loop with [KeyError] and one whose [disk_list] is [null], a number
    or a boolean with [TypeError]; a [disk_list] that is a string or an
    object is walked character by character or key by key and adds
    nothing. *)
Theorem disk_list_must_be_iterable (t : VmTotals) (v : Vm)
    (rest : list (string * value)) :
  (lookup "disk_list" rest = None ->
   vm_step t (vm_entity v rest) = Raise KeyError)
  /\ (forall dl,
        lookup "disk_list" rest = Some dl ->
        dl = VNone \/ (exists z, dl = VInt z) \/ (exists b, dl = VBool b) ->
        vm_step t (vm_entity v rest) = Raise TypeError)
  /\ (forall dl,
        lookup "disk_list" rest = Some dl ->
        (exists s, dl = VStr s) \/ (exists kvs, dl = VDict kvs) ->
        vm_step t (vm_entity v rest) = Ok (vm_add_diskless t v)).
Proof.
  unfold vm_step, vm_entity. cbn.
  split; [|split].
  - intros ->. reflexivity.
  - intros dl -> [->|[[z ->]|[b ->]]]; reflexivity.
  - intros dl -> [[s ->]|[kvs ->]]; cbn.
    + rewrite (disks_loop_strs _ _ (chars_strs s)). reflexivity.
    + rewrite (disks_loop_strs _ _ (keys_strs kvs)). reflexivity.
Qed.

Lemma disk_list_must_be_iterable_witness :
  vm_step vms_init (vm_entity vm_a [("guest_tools", VNone)]) = Raise KeyError
  /\ vm_step vms_init (vm_entity vm_a [("disk_list", VNone)]) = Raise TypeError
  /\ vm_step vms_init (vm_entity vm_a [("disk_list", VStr "none")])
     = Ok (vm_add_diskless vms_init vm_a).
Proof.
  destruct (disk_list_must_be_iterable vms_init vm_a [("guest_tools", VNone)])
    as (Hmissing & _).
  destruct (disk_list_must_be_iterable vms_init vm_a [("disk_list", VNone)])
    as (_ & Hnull & _).
  destruct (disk_list_must_be_iterable vms_init vm_a [("disk_list", VStr "none")])
    as (_ & _ & Hstr).
  split; [exact (Hmissing eq_refl)|]. split.
  - exact (Hnull VNone eq_refl (or_introl eq_refl)).
  - exact (Hstr (VStr "none") eq_refl (or_introl (ex_intro _ "none" eq_refl))).
Defined.

(** X4. An empty fleet runs to the end with all six totals at zero: the
    record of a metric is logged exactly when its limit is negative.  This
    holds for whatever [entities] iterates to nothing: [[]], [{}] or [""]. *)
Theorem empty_fleet_is_all_zero
    (str_to_int : string -> option Z) (cfg : Limits)
    (hosts vms h_entities v_entities : value)
    (Hh : getitem hosts "entities" = Ok h_entities)
    (Hhe : iter h_entities = Ok [])
    (Hv : getitem vms "entities" = Ok v_entities)
    (Hve : iter v_entities = Ok []) :
  main str_to_int cfg hosts vms
  = (map (fun m => critical (breach_message m 0 (limit_of cfg m)))
       (filter (fun m => limit_of cfg m <? 0) metrics),
     Ok tt).
Proof.
  unfold main, check_hosts, check_vms, count_hosts, count_vms.
  rewrite Hh, Hv. cbn [bind]. rewrite Hhe, Hve. cbn [bind for_each].
  rewrite !and_then_ok.
  cbn [hosts_init vms_init total_hosts_cpu_cores
       total_hosts_storage_usage_bytes total_hosts_memory_capacity_bytes
       total_vms_num_sockets total_vms_memory_size_mib
       total_vms_disk_size_bytes].
  change (bytes_to_gb 0) with (@Ok Z 0). change (mib_to_gb 0) with (@Ok Z 0).
  rewrite !and_then_check, !and_then_ok, !and_then_check. cbn [fst snd].
  unfold and_then, check. cbn [metrics filter limit_of].
  destruct cfg as [l1 l2 l3 l4 l5 l6]; cbn.
  destruct (l1 <? 0), (l2 <? 0), (l3 <? 0), (l4 <? 0), (l5 <? 0), (l6 <? 0);
    reflexivity.
Qed.

Lemma empty_fleet_is_all_zero_witness :
  main decimal limits_a (entities []) (VDict [("entities", VDict [])])
  = (map (fun m => critical (breach_message m 0 (limit_of limits_a m)))
       (filter (fun m => limit_of limits_a m <? 0) metrics),
     Ok tt).
Proof.
  apply (empty_fleet_is_all_zero decimal limits_a (entities [])
           (VDict [("entities", VDict [])]) (VList []) (VDict []));
    reflexivity.
Defined.

(** ** Conversions beyond the non-negative multiples *)

Lemma quot_small_opp n d :
  0 <= n -> 0 < d -> Z.quot (- n) d = - (n / d).
Proof.
  intros Hn Hd. rewrite Z.quot_opp_l by lia.
  rewrite Z.quot_div_nonneg by lia. reflexivity.
Qed.

(** X5. [int()] truncates towards zero: every total of magnitude below 2^53,
    negative ones included, converts to its quotient rounded towards zero,
    by 1024^3 for bytes and by 1000 for MiB. *)
Theorem conversions_truncate_toward_zero (n : Z)
    (Hn : - 2 ^ 53 < n < 2 ^ 53) :
  bytes_to_gb n = Ok (Z.quot n (1024 ^ 3))
  /\ mib_to_gb n = Ok (Z.quot n 1000).
Proof.
  destruct (Z.le_gt_cases 0 n) as [Hpos|Hneg].
  - rewrite bytes_to_gb_small, mib_to_gb_small by lia.
    rewrite !Z.quot_div_nonneg by lia. split; reflexivity.
  - replace n with (- - n) by lia.
    rewrite bytes_to_gb_opp, mib_to_gb_opp by lia.
    rewrite bytes_to_gb_small, mib_to_gb_small by lia.
    rewrite !quot_small_opp by lia. split; reflexivity.
Qed.

Lemma conversions_truncate_toward_zero_witness :
  bytes_to_gb (- (3 * 1024 ^ 3) - 1) = Ok (Z.quot (- (3 * 1024 ^ 3) - 1) (1024 ^ 3))
  /\ mib_to_gb (- (3 * 1024 ^ 3) - 1) = Ok (Z.quot (- (3 * 1024 ^ 3) - 1) 1000).
Proof.
  apply (conversions_truncate_toward_zero (- (3 * 1024 ^ 3) - 1)).
  split; reflexivity.
Defined.

(** X6. A total with at most 53 significant bits, whatever its size below
    2^1034, converts to its exact integer quotient by 1024^3. *)
Theorem bytes_to_gb_exact_on_53_bit_totals (n j : Z)
    (Hn : 0 < n < 2 ^ 53) (Hj : 0 <= j) (Hmax : n * 2 ^ j < 2 ^ 1034) :
  bytes_to_gb (n * 2 ^ j) = Ok (n * 2 ^ j / 1024 ^ 3).
Proof.
  apply bytes_to_gb_exact; try lia.
  assert (Hlog : Z.log2 (n * 2 ^ j) < 1034).
  { apply Z.log2_lt_pow2; [|exact Hmax].
    apply Z.mul_pos_pos; [lia | apply Z.pow_pos_nonneg; lia]. }
  rewrite Z.log2_mul_pow2 in Hlog by lia. lia.
Qed.

Lemma bytes_to_gb_exact_on_53_bit_totals_witness :
  bytes_to_gb ((2 ^ 52 + 1) * 2 ^ 100) = Ok ((2 ^ 52 + 1) * 2 ^ 100 / 1024 ^ 3).
Proof.
  apply (bytes_to_gb_exact_on_53_bit_totals (2 ^ 52 + 1) 100);
    [split; reflexivity | discriminate | reflexivity].
Defined.

(** ** Runs on well-formed payloads *)

Lemma and_then_snd {A B : Type} (p : prog A) (k : A -> prog B) :
  snd (and_then p k) = (a <- snd p ;; snd (k a)).
Proof.
  destruct p as [l [a|e]]; cbn; [|reflexivity]. destruct (k a); reflexivity.
Qed.

Lemma check_snd m t l : snd (check m t l) = Ok tt.
Proof. unfold check. destruct (l <? t); reflexivity. Qed.

(** X7. On well-formed payloads whose two raw counts and six limits are
    within the 4300 digits CPython prints, nothing but [OverflowError] can
    end the run early: every figure a record cites is then printable, a
    conversion returning at most 309 digits; and [OverflowError] does end it
    where a total is too large for a double: with host memory of 2^1034
    bytes or more the run stops at the first conversion, after the CPU-core
    check. *)
Theorem well_formed_run_ends_or_overflows
    (str_to_int : string -> option Z) (enc : Z -> value)
    (enc_int : forall z, py_int str_to_int (enc z) = Ok z)
    (cfg : Limits) (hs : list Host) (vs : list Vm)
    (Hprint : printable_figures cfg hs vs) :
  let run := main str_to_int cfg (hosts_json enc hs) (vms_json vs) in
  (snd run = Ok tt \/ snd run = Raise OverflowError)
  /\ (forall t, fleet_totals hs vs = Ok t ->
      forall m, printable (total_of t m) /\ printable (limit_of cfg m))
  /\ (forall n g, bytes_to_gb n = Ok g \/ mib_to_gb n = Ok g -> printable g)
  /\ (2 ^ 1034 <= Zsum (map memory_capacity_in_bytes hs) ->
      run = (fst (check HostCpuCores (Zsum (map num_cpu_cores hs))
                    (total_cpu_core_limit cfg)),
             Raise OverflowError)).
Proof.
  cbn zeta. split; [|split; [|split]].
  - unfold main. rewrite and_then_snd.
    unfold check_hosts. rewrite and_then_snd, (count_hosts_json _ _ enc_int).
    cbn [lift snd bind]. rewrite and_then_snd, check_snd. cbn [bind].
    rewrite and_then_snd. cbn [lift snd].
    destruct (bytes_to_gb (total_hosts_memory_capacity_bytes (host_totals hs)))
      as [g1|e1] eqn:H1; cbn [bind];
      [|apply bytes_to_gb_raises in H1; subst; right; reflexivity].
    rewrite and_then_snd, check_snd. cbn [bind].
    rewrite and_then_snd. cbn [lift snd].
    destruct (bytes_to_gb (total_hosts_storage_usage_bytes (host_totals hs)))
      as [g2|e2] eqn:H2; cbn [bind];
      [|apply bytes_to_gb_raises in H2; subst; right; reflexivity].
    rewrite check_snd. cbn [bind].
    unfold check_vms. rewrite and_then_snd, count_vms_json.
    cbn [lift snd bind]. rewrite and_then_snd, check_snd. cbn [bind].
    rewrite and_then_snd. cbn [lift snd].
    destruct (mib_to_gb (total_vms_memory_size_mib (vm_totals vs)))
      as [g3|e3] eqn:H3; cbn [bind];
      [|apply mib_to_gb_raises in H3; subst; right; reflexivity].
    rewrite and_then_snd, check_snd. cbn [bind].
    rewrite and_then_snd. cbn [lift snd].
    destruct (bytes_to_gb (total_vms_disk_size_bytes (vm_totals vs)))
      as [g4|e4] eqn:H4; cbn [bind];
      [|apply bytes_to_gb_raises in H4; subst; right; reflexivity].
    left. apply check_snd.
  - intros t Ht. exact (fleet_figures_printable cfg hs vs t Hprint Ht).
  - intros n g [H|H]; apply float_is_printable;
      [exact (bytes_to_gb_bound _ _ H) | exact (mib_to_gb_bound _ _ H)].
  - intros Hbig. unfold main, check_hosts.
    rewrite (count_hosts_json _ _ enc_int), and_then_ok. cbn beta.
    rewrite and_then_check.
    cbn [host_totals total_hosts_cpu_cores total_hosts_memory_capacity_bytes].
    rewrite (bytes_to_gb_overflow _ Hbig), and_then_raise.
    cbn [fst snd]. rewrite app_nil_r. reflexivity.
Qed.

Lemma well_formed_run_ends_or_overflows_witness :
  let big := {| num_cpu_cores := 64; storage_capacity_bytes := 0;
                memory_capacity_in_bytes := 2 ^ 1034; host_other := [] |} in
  printable_figures limits_a [big] [vm_a]
  /\ main decimal limits_a (hosts_json as_str [big]) (vms_json [vm_a])
     = (fst (check HostCpuCores (Zsum (map num_cpu_cores [big]))
               (total_cpu_core_limit limits_a)),
        Raise OverflowError).
Proof.
  intros big.
  assert (Hprint : printable_figures limits_a [big] [vm_a]).
  { split; [|split; [|intros m; destruct m]];
      apply float_is_printable; vm_compute; reflexivity. }
  split; [exact Hprint|].
  destruct (well_formed_run_ends_or_overflows decimal as_str as_str_int
              limits_a [big] [vm_a] Hprint) as (_ & _ & _ & Hover).
  apply Hover. vm_compute. discriminate.
Defined.

Lemma fleet_totals_floor hs vs :
  small_totals hs vs -> fleet_totals hs vs = Ok (floor_totals hs vs).
Proof.
  intros (H1 & H2 & H3 & H4). apply fleet_totals_small; assumption.
Qed.

Lemma above_limit_iff l n d :
  0 < d -> l < n / d <-> (l + 1) * d <= n.
Proof.
  intros Hd. split; intros H.
  - pose proof (Z.mul_div_le n d Hd). nia.
  - assert (l + 1 <= n / d) by (apply Z.div_le_lower_bound; lia). lia.
Qed.

Lemma logged_metric cfg t m :
  (exists x y, In (critical (breach_message m x y)) (breaches cfg t))
  <-> limit_of cfg m < total_of t m.
Proof.
  split.
  - intros (x & y & Hin). apply breaches_spec in Hin.
    destruct Hin as (m' & Hlt & Heq).
    apply (f_equal message) in Heq. cbn [message critical] in Heq.
    apply breach_message_metric in Heq. subst m'. exact Hlt.
  - intros Hlt. do 2 eexists. apply breaches_metric. exact Hlt.
Qed.

(** X8. The quotient is taken before the comparison, so a size metric is
    over its limit only from a full unit above it: on non-negative totals
    below 2^53, with counts and limits within the digits CPython prints, the
    run ends normally, the record of a byte metric is logged exactly when
    the byte total reaches (limit + 1) * 1024^3, and the VM-memory record
    exactly when the MiB total reaches (limit + 1) * 1000.  (A negative
    total is truncated towards zero and can pass its limit sooner.) *)
Theorem breach_needs_a_full_unit
    (str_to_int : string -> option Z) (enc : Z -> value)
    (enc_int : forall z, py_int str_to_int (enc z) = Ok z)
    (cfg : Limits) (hs : list Host) (vs : list Vm)
    (Hsmall : small_totals hs vs)
    (Hprint : printable_figures cfg hs vs) :
  let run := main str_to_int cfg (hosts_json enc hs) (vms_json vs) in
  let logged m := exists x y, In (critical (breach_message m x y)) (fst run) in
  snd run = Ok tt
  /\ (logged HostMemoryGB
      <-> (total_memory_usage_gb_limit cfg + 1) * 1024 ^ 3
          <= Zsum (map memory_capacity_in_bytes hs))
  /\ (logged HostStorageGB
      <-> (total_storage_usage_gb_limit cfg + 1) * 1024 ^ 3
          <= Zsum (map storage_capacity_bytes hs))
  /\ (logged VmMemoryGB
      <-> (total_vms_memory_size_gb_limit cfg + 1) * 1000
          <= Zsum (map memory_size_mib vs))
  /\ (logged VmDiskGB
      <-> (total_vms_disk_size_gb_limit cfg + 1) * 1024 ^ 3
          <= Zsum (map vm_disk_bytes vs)).
Proof.
  cbn zeta.
  rewrite (main_json _ _ enc_int cfg hs vs _ (fleet_totals_floor hs vs Hsmall)).
  cbn [fst snd]. split; [reflexivity|]. rewrite !logged_metric.
  cbn [limit_of total_of floor_totals hosts_memory_capacity_gbytes
       hosts_storage_usage_gbytes vms_memory_size_gb vms_disk_size_gb].
  repeat split; try (apply above_limit_iff; reflexivity);
    try (apply above_limit_iff; assumption).
Qed.

Lemma breach_needs_a_full_unit_witness :
  small_totals [host_a; host_b] [vm_a; vm_b]
  /\ printable_figures limits_a [host_a; host_b] [vm_a; vm_b]
  /\ ((exists x y,
         In (critical (breach_message HostStorageGB x y))
            (fst (main decimal limits_a (hosts_json as_str [host_a; host_b])
                    (vms_json [vm_a; vm_b]))))
      <-> (total_storage_usage_gb_limit limits_a + 1) * 1024 ^ 3
          <= Zsum (map storage_capacity_bytes [host_a; host_b])).
Proof.
  assert (Hs : small_totals [host_a; host_b] [vm_a; vm_b]).
  { repeat split; (discriminate || reflexivity). }
  assert (Hprint : printable_figures limits_a [host_a; host_b] [vm_a; vm_b]).
  { split; [|split; [|intros m; destruct m]];
      apply float_is_printable; vm_compute; reflexivity. }
  split; [exact Hs|]. split; [exact Hprint|].
  exact (proj1 (proj2 (proj2 (breach_needs_a_full_unit decimal as_str
                                as_str_int limits_a [host_a; host_b]
                                [vm_a; vm_b] Hs Hprint)))).
Defined.

(** Below zero the threshold is another: the quotient is truncated towards
    zero, so -5 bytes count as 0 GB and pass a limit of -1 GB. *)
Lemma negative_total_passes_its_limit :
  let cfg := {| total_cpu_core_limit := 0; total_memory_usage_gb_limit := -1;
                total_storage_usage_gb_limit := 0;
                total_vms_num_sockets_limit := 0;
                total_vms_memory_size_gb_limit := 0;
                total_vms_disk_size_gb_limit := 0 |} in
  let host := {| num_cpu_cores := 0; storage_capacity_bytes := 0;
                 memory_capacity_in_bytes := -5; host_other := [] |} in
  In {| levelname := "CRITICAL";
        message := "Memory usage limit reached! Current total for all Hosts: 0 GB. Limit: -1 GB" |}
     (fst (main decimal cfg (hosts_json as_str [host]) (vms_json [])))
  /\ ~ (total_memory_usage_gb_limit cfg + 1) * 1024 ^ 3
       <= Zsum (map memory_capacity_in_bytes [host]).
Proof. vm_compute. split; [auto | intros H; apply H; reflexivity]. Qed.

Lemma breaches_filter cfg t :
  breaches cfg t = map (record_of cfg t) (breached cfg t).
Proof.
  unfold breaches, breached, record_of, check.
  cbn [metrics flat_map filter].
  destruct (limit_of cfg HostCpuCores <? _), (limit_of cfg HostMemoryGB <? _),
    (limit_of cfg HostStorageGB <? _), (limit_of cfg VmSockets <? _),
    (limit_of cfg VmMemoryGB <? _), (limit_of cfg VmDiskGB <? _);
    reflexivity.
Qed.

(** X9. A complete run logs one record for each metric over its limit and
    nothing else, in the order of the six checks: CPU cores, host memory,
    host storage, VM sockets, VM memory, VM disk. *)
Theorem log_is_the_breached_metrics_in_order
    (str_to_int : string -> option Z) (enc : Z -> value)
    (enc_int : forall z, py_int str_to_int (enc z) = Ok z)
    (cfg : Limits) (hs : list Host) (vs : list Vm) (t : FleetTotals)
    (Ht : fleet_totals hs vs = Ok t) :
  fst (main str_to_int cfg (hosts_json enc hs) (vms_json vs))
  = map (record_of cfg t) (breached cfg t)
  /\ NoDup (breached cfg t)
  /\ (List.length (breached cfg t) <= 6)%nat.
Proof.
  rewrite (main_json _ _ enc_int cfg hs vs t Ht). cbn [fst].
  split; [apply breaches_filter|]. split.
  - apply NoDup_filter. unfold metrics.
    repeat (constructor; [cbn; intuition discriminate|]). constructor.
  - unfold breached.
    apply Nat.le_trans with (List.length metrics); [apply filter_length_le|].
    reflexivity.
Qed.

Lemma log_is_the_breached_metrics_in_order_witness :
  fleet_totals [host_a; host_b] [vm_a; vm_b] = Ok totals_a
  /\ fst (main decimal limits_a (hosts_json as_str [host_a; host_b])
            (vms_json [vm_a; vm_b]))
     = map (record_of limits_a totals_a) (breached limits_a totals_a).
Proof.
  assert (Ht : fleet_totals [host_a; host_b] [vm_a; vm_b] = Ok totals_a)
    by (vm_compute; reflexivity).
  split; [exact Ht|].
  exact (proj1 (log_is_the_breached_metrics_in_order decimal as_str as_str_int
                  limits_a [host_a; host_b] [vm_a; vm_b] totals_a Ht)).
Defined.

Lemma host_totals_perm hs hs' :
  Permutation hs hs' -> host_totals hs = host_totals hs'.
Proof.
  intros H. unfold host_totals.
  f_equal; apply Zsum_perm, Permutation_map, H.
Qed.

Lemma vm_totals_perm vs vs' :
  Permutation vs vs' -> vm_totals vs = vm_totals vs'.
Proof.
  intros H. unfold vm_totals.
  f_equal; apply Zsum_perm, Permutation_map, H.
Qed.

Lemma vm_totals_disk_order vs vs' :
  Forall2 same_but_disk_order vs vs' -> vm_totals vs = vm_totals vs'.
Proof.
  intros H. unfold vm_totals.
  assert (Hmaps : map num_threads_per_core vs = map num_threads_per_core vs'
                  /\ map num_vcpus_per_socket vs = map num_vcpus_per_socket vs'
                  /\ map num_sockets vs = map num_sockets vs'
                  /\ map memory_size_mib vs = map memory_size_mib vs'
                  /\ map vm_disk_bytes vs = map vm_disk_bytes vs').
  { induction H as [|v v' vs vs' (H1 & H2 & H3 & H4 & H5 & _) _
                      (I1 & I2 & I3 & I4 & I5)]; cbn.
    - repeat split.
    - rewrite H1, H2, H3, H4, I1, I2, I3, I4, I5.
      unfold vm_disk_bytes at 1 3.
      rewrite (Zsum_perm _ _ (Permutation_map disk_bytes H5)).
      repeat split. }
  destruct Hmaps as (-> & -> & -> & -> & ->). reflexivity.
Qed.

(** X10. On well-formed host and VM records the whole run is a commutative
    reduction: listing the hosts, the VMs, or the disks of a VM in another
    order changes neither the records logged nor how the run ends. *)
Theorem run_does_not_depend_on_order
    (str_to_int : string -> option Z) (enc : Z -> value)
    (enc_int : forall z, py_int str_to_int (enc z) = Ok z)
    (cfg : Limits) (hs hs' : list Host) (vs vs' vs'' : list Vm)
    (Hhosts : Permutation hs hs')
    (Hdisks : Forall2 same_but_disk_order vs vs')
    (Hvms : Permutation vs' vs'') :
  main str_to_int cfg (hosts_json enc hs') (vms_json vs'')
  = main str_to_int cfg (hosts_json enc hs) (vms_json vs).
Proof.
  unfold main, check_hosts, check_vms.
  rewrite !(count_hosts_json _ _ enc_int), !count_vms_json.
  rewrite <- (host_totals_perm _ _ Hhosts), <- (vm_totals_perm _ _ Hvms),
    <- (vm_totals_disk_order _ _ Hdisks).
  reflexivity.
Qed.

Lemma run_does_not_depend_on_order_witness :
  let vm_a' := {| num_threads_per_core := num_threads_per_core vm_a;
                  num_vcpus_per_socket := num_vcpus_per_socket vm_a;
                  num_sockets := num_sockets vm_a;
                  memory_size_mib := memory_size_mib vm_a;
                  disk_list := rev (disk_list vm_a);
                  vm_other := vm_other vm_a |} in
  main decimal limits_a (hosts_json as_str [host_b; host_a])
    (vms_json [vm_b; vm_a'])
  = main decimal limits_a (hosts_json as_str [host_a; host_b])
      (vms_json [vm_a; vm_b]).
Proof.
  intros vm_a'.
  apply (run_does_not_depend_on_order decimal as_str as_str_int limits_a
           [host_a; host_b] [host_b; host_a] [vm_a; vm_b] [vm_a'; vm_b]
           [vm_b; vm_a']).
  - apply perm_swap.
  - constructor; [|constructor; [|constructor]].
    + repeat split. apply perm_swap.
    + repeat split. apply Permutation_refl.
  - apply perm_swap.
Defined.

(** Entities that are not well formed are another matter: the first one
    the loop cannot read ends the run, so their order decides how. *)
Lemma order_of_malformed_hosts_shows str_to_int cfg vms :
  snd (main str_to_int cfg (entities [VDict []; VNone]) vms) = Raise KeyError
  /\ snd (main str_to_int cfg (entities [VNone; VDict []]) vms)
     = Raise TypeError.
Proof. split; reflexivity. Qed.

Lemma Zsum_cons x l : Zsum (x :: l) = x + Zsum l.
Proof. reflexivity. Qed.

Lemma host_sums_nonneg hs :
  Forall host_nonneg hs ->
  0 <= Zsum (map num_cpu_cores hs)
  /\ 0 <= Zsum (map storage_capacity_bytes hs)
  /\ 0 <= Zsum (map memory_capacity_in_bytes hs).
Proof.
  induction 1 as [|h hs (H1 & H2 & H3) _ (I1 & I2 & I3)];
    cbn [map]; rewrite ?Zsum_cons; [cbn; lia | lia].
Qed.

Lemma vm_sums_nonneg vs :
  Forall vm_nonneg vs ->
  0 <= Zsum (map num_sockets vs)
  /\ 0 <= Zsum (map memory_size_mib vs)
  /\ 0 <= Zsum (map vm_disk_bytes vs).
Proof.
  induction 1 as [|v vs (H1 & H2 & H3) _ (I1 & I2 & I3)];
    cbn [map]; rewrite ?Zsum_cons; [cbn; lia|].
  pose proof (Forall_disk_bytes _ H3). unfold vm_disk_bytes at 1. lia.
Qed.

(** X11. Alerts are monotone in the fleet: with non-negative records and
    totals below 2^53, a metric whose record is logged for a fleet has its
    record logged for every fleet that extends it by further hosts and
    VMs. *)
Theorem breaches_persist_as_the_fleet_grows
    (str_to_int : string -> option Z) (enc : Z -> value)
    (enc_int : forall z, py_int str_to_int (enc z) = Ok z)
    (cfg : Limits) (hs more_hs : list Host) (vs more_vs : list Vm)
    (Hh : Forall host_nonneg (hs ++ more_hs))
    (Hv : Forall vm_nonneg (vs ++ more_vs))
    (Hsmall : small_totals (hs ++ more_hs) (vs ++ more_vs))
    (m : metric) :
  In (record_of cfg (floor_totals hs vs) m)
     (fst (main str_to_int cfg (hosts_json enc hs) (vms_json vs))) ->
  In (record_of cfg (floor_totals (hs ++ more_hs) (vs ++ more_vs)) m)
     (fst (main str_to_int cfg (hosts_json enc (hs ++ more_hs))
             (vms_json (vs ++ more_vs)))).
Proof.
  apply Forall_app in Hh. destruct Hh as [Hh1 Hh2].
  apply Forall_app in Hv. destruct Hv as [Hv1 Hv2].
  destruct (host_sums_nonneg _ Hh1) as (A1 & A2 & A3).
  destruct (host_sums_nonneg _ Hh2) as (B1 & B2 & B3).
  destruct (vm_sums_nonneg _ Hv1) as (C1 & C2 & C3).
  destruct (vm_sums_nonneg _ Hv2) as (D1 & D2 & D3).
  pose proof Hsmall as (S1 & S2 & S3 & S4).
  rewrite !map_app, !Zsum_app in S1, S2, S3, S4.
  assert (Hsmall0 : small_totals hs vs) by (repeat split; lia).
  rewrite (main_json _ _ enc_int cfg _ _ _ (fleet_totals_floor _ _ Hsmall0)).
  rewrite (main_json _ _ enc_int cfg _ _ _ (fleet_totals_floor _ _ Hsmall)).
  cbn [fst]. unfold record_of. rewrite !breaches_metric.
  assert (Hle : total_of (floor_totals hs vs) m
                <= total_of (floor_totals (hs ++ more_hs) (vs ++ more_vs)) m).
  { destruct m; cbn; rewrite !map_app, !Zsum_app;
      try lia; apply Z.div_le_mono; lia. }
  lia.
Qed.

Lemma breaches_persist_as_the_fleet_grows_witness :
  let cfg := {| total_cpu_core_limit := 1;
                total_memory_usage_gb_limit := 1;
                total_storage_usage_gb_limit := 1;
                total_vms_num_sockets_limit := 1;
                total_vms_memory_size_gb_limit := 1;
                total_vms_disk_size_gb_limit := 1 |} in
  In (record_of cfg (floor_totals [host_a] [vm_a]) VmSockets)
     (fst (main decimal cfg (hosts_json as_str [host_a]) (vms_json [vm_a])))
  /\ In (record_of cfg (floor_totals ([host_a] ++ [host_b]) ([vm_a] ++ [vm_b]))
           VmSockets)
        (fst (main decimal cfg (hosts_json as_str ([host_a] ++ [host_b]))
                (vms_json ([vm_a] ++ [vm_b])))).
Proof.
  intros cfg.
  assert (Hlogged :
            In (record_of cfg (floor_totals [host_a] [vm_a]) VmSockets)
               (fst (main decimal cfg (hosts_json as_str [host_a])
                       (vms_json [vm_a]))))
    by (vm_compute; tauto).
  split; [exact Hlogged|].
  apply (breaches_persist_as_the_fleet_grows decimal as_str as_str_int cfg
           [host_a] [host_b] [vm_a] [vm_b]).
  - repeat constructor; discriminate.
  - repeat constructor; discriminate.
  - repeat split; (discriminate || reflexivity).
  - exact Hlogged.
Defined.

(** ** The script around the loops *)

Lemma append_assoc (a b c : string) : ((a ++ b) ++ c)%string = (a ++ b ++ c)%string.
Proof. induction a as [|x a IH]; cbn; [reflexivity | rewrite IH; reflexivity]. Qed.

Lemma append_inj_l (a b c : string) : (a ++ b)%string = (a ++ c)%string -> b = c.
Proof.
  induction a as [|x a IH]; cbn; intros H; [exact H|].
  injection H as H. apply IH, H.
Qed.

Lemma str_add_ok a v s : str_add a v = Ok s -> exists c, v = VStr c /\ s = (a ++ c)%string.
Proof. destruct v; cbn; try discriminate. intros [= <-]. eauto. Qed.

(** What [init] has read when it returns. *)
Lemma init_ok c nx :
  init c = Ok nx ->
  exists s,
    getitem c "cluster" = Ok (VStr s)
    /\ getitem c "username" = Ok (username nx)
    /\ getitem c "password" = Ok (password nx)
    /\ base_url nx = ("https://" ++ s ++ "/PrismGateway/services/rest/v2.0/")%string
    /\ base_url_v3 nx = ("https://" ++ s ++ "/api/nutanix/v3/")%string.
Proof.
  unfold init.
  destruct (getitem c "cluster") as [cl|]; cbn [bind]; [|discriminate].
  destruct (getitem c "username") as [u|]; cbn [bind]; [|discriminate].
  destruct (getitem c "password") as [p|]; cbn [bind]; [|discriminate].
  destruct (str_add "https://" cl) as [b|] eqn:Hb; cbn [bind]; [|discriminate].
  apply str_add_ok in Hb. destruct Hb as (s & -> & ->).
  repeat match goal with
         | |- context [limit_entry ?a ?b ?c] =>
             destruct (limit_entry a b c); cbn [bind]; [|discriminate]
         end.
  intros [= <-]. exists s. cbn.
  rewrite ?append_assoc. repeat split; reflexivity.
Qed.

Lemma init_config c :
  exists nx,
    init (config_yaml c) = Ok nx
    /\ get_clusters nx = clusters_request c
    /\ get_hosts nx = hosts_request c
    /\ get_vms nx = vms_request c
    /\ forall m, limit_value nx m = VInt (limit_of (config_limits c) m).
Proof.
  eexists. split; [reflexivity|].
  unfold get_clusters, get_hosts, get_vms, get, post_v3, clusters_request,
    hosts_request, vms_request. cbn.
  rewrite !append_assoc. repeat split. intros m. destruct m; reflexivity.
Qed.

Lemma check_limit_int m t l : check_limit m t (VInt l) = check m t l.
Proof. reflexivity. Qed.

Lemma check_limit_not_a_number m t v :
  not_a_number v -> check_limit m t v = ([], Raise TypeError).
Proof. destruct v; cbn; tauto. Qed.

Lemma logged_app tr tr' : logged (tr ++ tr') = (logged tr ++ logged tr')%list.
Proof. unfold logged. apply flat_map_app. Qed.

Lemma logged_map l : logged (map Logged l) = l.
Proof.
  induction l as [|r l IH]; [reflexivity|].
  change (logged (map Logged (r :: l))) with (r :: logged (map Logged l)).
  rewrite IH. reflexivity.
Qed.

Lemma in_map_logged ev l :
  In ev (map Logged l) -> exists r, ev = Logged r.
Proof. intros H. apply in_map_iff in H. destruct H as (r & <- & _). eauto. Qed.

Section ScriptFacts.

Variable str_to_int : string -> option Z.
Variable load_yaml : string -> reply.
Variable respond : request -> reply.

Let run := run_with str_to_int load_yaml respond.
Let hosts_of := hosts_part str_to_int.

(** With integer limits the two halves are [check_hosts] and [check_vms]. *)
Lemma hosts_part_int nx l hosts :
  (forall m, limit_value nx m = VInt (limit_of l m)) ->
  hosts_part str_to_int nx hosts = check_hosts str_to_int l hosts.
Proof.
  intros H. unfold hosts_part, check_hosts. rewrite !H. reflexivity.
Qed.

Lemma vms_part_int nx l vms :
  (forall m, limit_value nx m = VInt (limit_of l m)) ->
  vms_part nx vms = check_vms l vms.
Proof.
  intros H. unfold vms_part, check_vms. rewrite !H. reflexivity.
Qed.

(** The run, stage by stage. *)
Lemma run_with_stages path :
  run path =
  match load_yaml path with
  | Fault name => ([Read path], Aborted (Library name))
  | Body c =>
    match init c with
    | Raise e => ([Read path], Aborted (Builtin e))
    | Ok nx =>
      match respond (get_clusters nx) with
      | Fault name =>
          ([Read path; Sent (get_clusters nx)], Aborted (Library name))
      | Body _ =>
        match respond (get_hosts nx) with
        | Fault name =>
            ([Read path; Sent (get_clusters nx); Sent (get_hosts nx)],
             Aborted (Library name))
        | Body hosts =>
          let pre :=
            ([Read path; Sent (get_clusters nx); Sent (get_hosts nx)]
             ++ map Logged (fst (hosts_of nx hosts)))%list in
          match snd (hosts_of nx hosts) with
          | Raise e => (pre, Aborted (Builtin e))
          | Ok _ =>
            match respond (get_vms nx) with
            | Fault name =>
                ((pre ++ [Sent (get_vms nx)])%list, Aborted (Library name))
            | Body vms =>
              let pre' :=
                (pre ++ Sent (get_vms nx)
                        :: map Logged (fst (vms_part nx vms)))%list in
              match snd (vms_part nx vms) with
              | Raise e => (pre', Aborted (Builtin e))
              | Ok _ => ((pre' ++ [Printed banner])%list, Done tt)
              end
            end
          end
        end
      end
    end
  end.
Proof.
  unfold run, hosts_of, run_with, load, send.
  destruct (load_yaml path) as [c|name];
    cbn -[hosts_part vms_part init]; [|reflexivity].
  destruct (init c) as [nx|e];
    cbn -[hosts_part vms_part init]; [|reflexivity].
  destruct (respond (get_clusters nx)) as [cl|name];
    cbn -[hosts_part vms_part init]; [|reflexivity].
  destruct (respond (get_hosts nx)) as [hosts|name];
    cbn -[hosts_part vms_part init]; [|reflexivity].
  destruct (hosts_part str_to_int nx hosts) as [l [[]|e]];
    cbn -[hosts_part vms_part init]; [|reflexivity].
  destruct (respond (get_vms nx)) as [vms|name];
    cbn -[hosts_part vms_part init];
    [|rewrite <- ?app_assoc; reflexivity].
  destruct (vms_part nx vms) as [l' [[]|e]];
    cbn -[hosts_part vms_part init]; rewrite <- ?app_assoc; reflexivity.
Qed.

End ScriptFacts.

Lemma not_sent_logged r l : ~ In (Sent r) (map Logged l).
Proof. intros H. apply in_map_logged in H. destruct H; discriminate. Qed.

Lemma not_printed_logged s l : ~ In (Printed s) (map Logged l).
Proof. intros H. apply in_map_logged in H. destruct H; discriminate. Qed.

Ltac split_in H :=
  repeat match type of H with
         | In _ (_ ++ _)%list => apply in_app_or in H; destruct H as [H|H]
         | In _ (_ :: _) => destruct H as [H|H]
         | In _ [] => destruct H
         end.

(** The events a run can produce. *)
Lemma run_events str_to_int load_yaml respond path ev :
  In ev (fst (run_with str_to_int load_yaml respond path)) ->
  ev = Read path
  \/ (exists r, ev = Logged r)
  \/ ev = Printed banner
  \/ exists c nx,
       load_yaml path = Body c /\ init c = Ok nx
       /\ (ev = Sent (get_clusters nx) \/ ev = Sent (get_hosts nx)
           \/ ev = Sent (get_vms nx)).
Proof.
  rewrite run_with_stages.
  destruct (load_yaml path) as [c|name];
    [|intros H; cbn [fst] in H; split_in H; subst; tauto].
  destruct (init c) as [nx|e] eqn:Hinit;
    [|intros H; cbn [fst] in H; split_in H; subst; tauto].
  assert (Hsent : forall r,
             r = get_clusters nx \/ r = get_hosts nx \/ r = get_vms nx ->
             Sent r = Read path
             \/ (exists r', Sent r = Logged r')
             \/ Sent r = Printed banner
             \/ exists c' nx',
                  Body c = Body c' /\ init c' = Ok nx'
                  /\ (Sent r = Sent (get_clusters nx')
                      \/ Sent r = Sent (get_hosts nx')
                      \/ Sent r = Sent (get_vms nx'))).
  { intros r Hr. right; right; right. exists c, nx.
    split; [reflexivity|]. split; [exact Hinit|].
    destruct Hr as [ -> | [ -> | -> ] ]; tauto. }
  assert (Hlog : forall l, In ev (map Logged l) ->
             ev = Read path
             \/ (exists r', ev = Logged r')
             \/ ev = Printed banner
             \/ exists c' nx',
                  Body c = Body c' /\ init c' = Ok nx'
                  /\ (ev = Sent (get_clusters nx')
                      \/ ev = Sent (get_hosts nx')
                      \/ ev = Sent (get_vms nx'))).
  { intros l Hin. right; left. exact (in_map_logged _ _ Hin). }
  assert (Hend : forall evs,
             (In ev evs ->
              ev = Read path \/ In ev [Sent (get_clusters nx);
                                       Sent (get_hosts nx);
                                       Sent (get_vms nx); Printed banner]
              \/ exists l, In ev (map Logged l)) ->
             In ev evs ->
             ev = Read path
             \/ (exists r', ev = Logged r')
             \/ ev = Printed banner
             \/ exists c' nx',
                  Body c = Body c' /\ init c' = Ok nx'
                  /\ (ev = Sent (get_clusters nx')
                      \/ ev = Sent (get_hosts nx')
                      \/ ev = Sent (get_vms nx'))).
  { intros evs Hcase Hin. destruct (Hcase Hin) as [H|[H|[l H]]].
    - left. exact H.
    - cbn in H. destruct H as [H|[H|[H|[H|[]]]]]; subst;
        try (apply Hsent; tauto).
      right; right; left. reflexivity.
    - exact (Hlog l H). }
  destruct (respond (get_clusters nx)) as [cl|name];
    [|refine (Hend _ _); intros H; cbn [fst] in H; split_in H; subst;
      cbn; auto 8].
  destruct (respond (get_hosts nx)) as [hosts|name];
    [|refine (Hend _ _); intros H; cbn [fst] in H; split_in H; subst;
      cbn; auto 8].
  cbn zeta.
  destruct (snd (hosts_part str_to_int nx hosts)) as [[]|e];
    [|refine (Hend _ _); intros H; cbn [fst] in H; split_in H; subst;
      cbn; eauto 8].
  destruct (respond (get_vms nx)) as [vms|name];
    [|refine (Hend _ _); intros H; cbn [fst] in H; split_in H; subst;
      cbn; eauto 8].
  destruct (snd (vms_part nx vms)) as [[]|e];
    refine (Hend _ _); intros H; cbn [fst] in H; split_in H; subst;
    cbn; eauto 8.
Qed.

Lemma sent_in_run str_to_int load_yaml respond path r :
  In (Sent r) (fst (run_with str_to_int load_yaml respond path)) ->
  exists c nx,
    load_yaml path = Body c /\ init c = Ok nx
    /\ (r = get_clusters nx \/ r = get_hosts nx \/ r = get_vms nx).
Proof.
  intros H. apply run_events in H.
  destruct H as [H|[[r' H]|[H|(c & nx & Hl & Hi & H)]]]; try discriminate.
  exists c, nx. split; [exact Hl|]. split; [exact Hi|].
  destruct H as [H|[H|H]]; inversion H; subst; tauto.
Qed.

(** X12. Whatever the file system and the cluster answer, every request the
    script sends comes after a configuration was read on which [__init__]
    ran to the end; it goes over https to the configured cluster, to one of
    the three paths, carries the configured user name and password, and has
    certificate verification switched off.  Without [--config], or with an
    empty one, nothing is sent. *)
Theorem every_request_comes_from_the_config
    (str_to_int : string -> option Z)
    (load_yaml : string -> reply) (respond : request -> reply)
    (config : option string) (r : request)
    (Hsent : In (Sent r)
               (fst (script_main str_to_int load_yaml respond config))) :
  exists path c nx s,
    config = Some path /\ path <> ""%string
    /\ load_yaml path = Body c /\ init c = Ok nx
    /\ getitem c "cluster" = Ok (VStr s)
    /\ getitem c "username" = Ok (fst (auth r))
    /\ getitem c "password" = Ok (snd (auth r))
    /\ verify r = false
    /\ (method r = GET
        /\ url r = ("https://" ++ s
                    ++ "/PrismGateway/services/rest/v2.0/clusters")%string
        \/ method r = GET
           /\ url r = ("https://" ++ s
                       ++ "/PrismGateway/services/rest/v2.0/hosts")%string
        \/ method r = POST
           /\ url r = ("https://" ++ s ++ "/api/nutanix/v3/vms/list")%string).
Proof.
  destruct config as [[|a path]|]; cbn [script_main] in Hsent;
    try (cbn in Hsent; intuition discriminate).
  apply sent_in_run in Hsent. destruct Hsent as (c & nx & Hload & Hinit & Hr).
  destruct (init_ok c nx Hinit) as (s & Hc & Hu & Hp & Hb & Hb3).
  exists (String a path), c, nx, s.
  split; [reflexivity|]. split; [discriminate|].
  split; [exact Hload|]. split; [exact Hinit|]. split; [exact Hc|].
  destruct Hr as [ -> | [ -> | -> ] ];
    unfold get_clusters, get_hosts, get_vms, get, post_v3;
    cbn [auth verify method url fst snd]; rewrite ?Hb, ?Hb3;
    (split; [exact Hu|]); (split; [exact Hp|]); (split; [reflexivity|]).
  - left. split; [reflexivity|]. cbn. rewrite ?append_assoc. reflexivity.
  - right; left. split; [reflexivity|]. cbn. rewrite ?append_assoc. reflexivity.
  - right; right. split; [reflexivity|]. cbn. rewrite ?append_assoc. reflexivity.
Qed.

Lemma every_request_comes_from_the_config_witness :
  exists path c nx s,
    Some "config.yml"%string = Some path /\ path <> ""%string
    /\ load_a path = Body c /\ init c = Ok nx
    /\ getitem c "cluster" = Ok (VStr s)
    /\ getitem c "username" = Ok (fst (auth (hosts_request config_a)))
    /\ getitem c "password" = Ok (snd (auth (hosts_request config_a)))
    /\ verify (hosts_request config_a) = false
    /\ (method (hosts_request config_a) = GET
        /\ url (hosts_request config_a)
           = ("https://" ++ s
              ++ "/PrismGateway/services/rest/v2.0/clusters")%string
        \/ method (hosts_request config_a) = GET
           /\ url (hosts_request config_a)
              = ("https://" ++ s
                 ++ "/PrismGateway/services/rest/v2.0/hosts")%string
        \/ method (hosts_request config_a) = POST
           /\ url (hosts_request config_a)
              = ("https://" ++ s ++ "/api/nutanix/v3/vms/list")%string).
Proof.
  apply (every_request_comes_from_the_config decimal load_a respond_a
           (Some "config.yml"%string) (hosts_request config_a)).
  vm_compute. tauto.
Defined.

(** X13. The limits are neither checked nor converted when the configuration
    is read.  One that is not a number goes unnoticed until its own check: a
    CPU-core limit written as a string lets the script request clusters and
    hosts and count the hosts, and then ends the run with [TypeError]
    before anything is logged and before the VMs are requested. *)
Theorem non_numeric_limit_fails_at_its_check
    (str_to_int : string -> option Z)
    (load_yaml : string -> reply) (respond : request -> reply)
    (path : string) (c : value) (nx : Nutanix) (clusters hosts : value)
    (t : HostTotals)
    (Hload : load_yaml path = Body c) (Hinit : init c = Ok nx)
    (Hlimit : not_a_number (limit_value nx HostCpuCores))
    (Hclusters : respond (get_clusters nx) = Body clusters)
    (Hhosts : respond (get_hosts nx) = Body hosts)
    (Hcount : count_hosts str_to_int hosts = Ok t) :
  run_with str_to_int load_yaml respond path
  = ([Read path; Sent (get_clusters nx); Sent (get_hosts nx)],
     Aborted (Builtin TypeError)).
Proof.
  rewrite run_with_stages, Hload, Hinit, Hclusters, Hhosts. cbn zeta.
  assert (Hpart : hosts_part str_to_int nx hosts = ([], Raise TypeError)).
  { unfold hosts_part. rewrite Hcount, and_then_ok.
    rewrite (check_limit_not_a_number _ _ _ Hlimit). reflexivity. }
  rewrite Hpart. reflexivity.
Qed.

Lemma non_numeric_limit_fails_at_its_check_witness :
  exists nx,
    init quoted_limit_yaml = Ok nx
    /\ run_with decimal (fun _ => Body quoted_limit_yaml) respond_a "config.yml"
       = ([Read "config.yml"; Sent (get_clusters nx); Sent (get_hosts nx)],
          Aborted (Builtin TypeError)).
Proof.
  eexists. split; [reflexivity|].
  eapply (non_numeric_limit_fails_at_its_check decimal
            (fun _ => Body quoted_limit_yaml) respond_a "config.yml"
            quoted_limit_yaml _ _ (hosts_json as_str [host_a; host_b])
            (host_totals [host_a; host_b]));
    try reflexivity; try exact I.
Defined.

Lemma records_app cfg t ms ms' :
  records cfg t (ms ++ ms') = (records cfg t ms ++ records cfg t ms')%list.
Proof. unfold records. rewrite filter_app, map_app. reflexivity. Qed.

Lemma check_hosts_records str_to_int enc cfg hs vs t :
  (forall z, py_int str_to_int (enc z) = Ok z) ->
  fleet_totals hs vs = Ok t ->
  check_hosts str_to_int cfg (hosts_json enc hs)
  = (records cfg t host_metrics, Ok tt)
  /\ check_vms cfg (vms_json vs) = (records cfg t vm_metrics, Ok tt).
Proof.
  intros enc_int. unfold fleet_totals.
  cbn [host_totals vm_totals total_hosts_cpu_cores
       total_hosts_storage_usage_bytes total_hosts_memory_capacity_bytes
       total_vms_num_sockets total_vms_memory_size_mib
       total_vms_disk_size_bytes].
  destruct (bytes_to_gb (Zsum (map memory_capacity_in_bytes hs)))
    as [hmem|] eqn:Hm; [|discriminate].
  destruct (bytes_to_gb (Zsum (map storage_capacity_bytes hs)))
    as [hsto|] eqn:Hs; [|discriminate].
  destruct (mib_to_gb (Zsum (map memory_size_mib vs)))
    as [vmem|] eqn:Hv; [|discriminate].
  destruct (bytes_to_gb (Zsum (map vm_disk_bytes vs)))
    as [vdisk|] eqn:Hd; [|discriminate].
  cbn [bind]. intros [= <-].
  rewrite (check_hosts_json _ _ enc_int cfg hs _ _ Hm Hs).
  rewrite (check_vms_json cfg vs _ _ Hv Hd).
  unfold records, record_of, check, host_metrics, vm_metrics.
  cbn [filter limit_of total_of hosts_cpu_cores hosts_memory_capacity_gbytes
       hosts_storage_usage_gbytes vms_num_sockets vms_memory_size_gb
       vms_disk_size_gb].
  split.
  - destruct (total_cpu_core_limit cfg <? _),
      (total_memory_usage_gb_limit cfg <? _),
      (total_storage_usage_gb_limit cfg <? _); reflexivity.
  - destruct (total_vms_num_sockets_limit cfg <? _),
      (total_vms_memory_size_gb_limit cfg <? _),
      (total_vms_disk_size_gb_limit cfg <? _); reflexivity.
Qed.

(** X14. A run in which everything goes through: the configuration is read,
    clusters and hosts are requested, the host records are logged, then the
    VM list is requested with a POST, the VM records are logged, and the
    banner is printed last.  The three requests go to the v2 paths
    [clusters] and [hosts] and the v3 path [vms/list] of the configured
    cluster. *)
Theorem complete_run_trace
    (str_to_int : string -> option Z) (enc : Z -> value)
    (enc_int : forall z, py_int str_to_int (enc z) = Ok z)
    (load_yaml : string -> reply) (respond : request -> reply)
    (path : string) (c : Config) (clusters : value)
    (hs : list Host) (vs : list Vm) (t : FleetTotals)
    (Hload : load_yaml path = Body (config_yaml c))
    (Hclusters : respond (clusters_request c) = Body clusters)
    (Hhosts : respond (hosts_request c) = Body (hosts_json enc hs))
    (Hvms : respond (vms_request c) = Body (vms_json vs))
    (Ht : fleet_totals hs vs = Ok t) :
  run_with str_to_int load_yaml respond path
  = (([Read path; Sent (clusters_request c); Sent (hosts_request c)]
      ++ map Logged (records (config_limits c) t host_metrics)
      ++ [Sent (vms_request c)]
      ++ map Logged (records (config_limits c) t vm_metrics)
      ++ [Printed banner])%list,
     Done tt).
Proof.
  destruct (init_config c) as (nx & Hinit & Hc & Hh & Hv & Hlim).
  destruct (check_hosts_records str_to_int enc (config_limits c) hs vs t
              enc_int Ht) as [Hhp Hvp].
  rewrite run_with_stages, Hload, Hinit, Hc, Hh, Hv, Hclusters, Hhosts.
  cbn zeta. rewrite (hosts_part_int _ nx _ _ Hlim), Hhp. cbn [fst snd].
  rewrite Hvms, (vms_part_int nx _ _ Hlim), Hvp. cbn [fst snd].
  rewrite <- !app_assoc. reflexivity.
Qed.

Lemma complete_run_trace_witness :
  run_with decimal load_a respond_a "config.yml"
  = (([Read "config.yml"; Sent (clusters_request config_a);
       Sent (hosts_request config_a)]
      ++ map Logged (records (config_limits config_a) totals_a host_metrics)
      ++ [Sent (vms_request config_a)]
      ++ map Logged (records (config_limits config_a) totals_a vm_metrics)
      ++ [Printed banner])%list,
     Done tt).
Proof.
  apply (complete_run_trace decimal as_str as_str_int load_a respond_a
           "config.yml" config_a (VDict [("entities", VList [])])
           [host_a; host_b] [vm_a; vm_b] totals_a);
    [reflexivity | reflexivity | reflexivity | reflexivity
    | vm_compute; reflexivity].
Defined.

Lemma clusters_is_not_hosts nx : get_hosts nx <> get_clusters nx.
Proof.
  unfold get_hosts, get_clusters, get. intros H.
  apply (f_equal url) in H. cbn [url] in H.
  apply append_inj_l in H. discriminate H.
Qed.

Lemma clusters_is_not_vms nx : get_vms nx <> get_clusters nx.
Proof.
  unfold get_vms, get_clusters, get, post_v3. intros H.
  apply (f_equal method) in H. discriminate H.
Qed.

(** X15. The answer to the clusters request is never looked at, yet the
    request has to succeed: two clusters that answer it with different
    bodies and answer the hosts and VM requests alike give the same run,
    and a cluster on which it fails ends the run right there, before the
    hosts are requested. *)
Theorem clusters_answer_is_unused_but_needed
    (str_to_int : string -> option Z) (load_yaml : string -> reply)
    (respond respond' : request -> reply)
    (path : string) (c : value) (nx : Nutanix)
    (Hload : load_yaml path = Body c) (Hinit : init c = Ok nx)
    (Hhosts : respond (get_hosts nx) = respond' (get_hosts nx))
    (Hvms : respond (get_vms nx) = respond' (get_vms nx)) :
  (forall a b,
     respond (get_clusters nx) = Body a ->
     respond' (get_clusters nx) = Body b ->
     run_with str_to_int load_yaml respond path
     = run_with str_to_int load_yaml respond' path)
  /\ (forall name,
        respond (get_clusters nx) = Fault name ->
        run_with str_to_int load_yaml respond path
        = ([Read path; Sent (get_clusters nx)], Aborted (Library name))).
Proof.
  split.
  - intros a b Ha Hb. rewrite !run_with_stages, Hload, Hinit, Ha, Hb.
    rewrite <- Hhosts, <- Hvms. reflexivity.
  - intros name Hf. rewrite run_with_stages, Hload, Hinit, Hf. reflexivity.
Qed.

Lemma clusters_answer_is_unused_but_needed_witness :
  run_with decimal load_a respond_a "config.yml"
  = run_with decimal load_a
      (fun r => if String.eqb (url r) (url (clusters_request config_a))
                then Body VNone else respond_a r)
      "config.yml".
Proof.
  destruct (init_config config_a) as (nx & Hinit & Hc & Hh & Hv & _).
  destruct (clusters_answer_is_unused_but_needed decimal load_a respond_a
              (fun r => if String.eqb (url r) (url (clusters_request config_a))
                        then Body VNone else respond_a r)
              "config.yml" (config_yaml config_a) nx eq_refl Hinit)
    as [Hsame _].
  - rewrite Hh. reflexivity.
  - rewrite Hv. reflexivity.
  - apply (Hsame (VDict [("entities", VList [])]) VNone).
    + rewrite Hc. reflexivity.
    + rewrite Hc. reflexivity.
Defined.

(** X16. The VM list is requested only once the host half has run to its
    last check: whenever a POST is sent, the clusters and hosts requests
    were answered, the host half ended normally, and every record it logged
    precedes the POST. *)
Theorem vm_list_is_requested_after_the_host_checks
    (str_to_int : string -> option Z)
    (load_yaml : string -> reply) (respond : request -> reply)
    (path : string) (r : request)
    (Hsent : In (Sent r) (fst (run_with str_to_int load_yaml respond path)))
    (Hpost : method r = POST) :
  exists c nx clusters hosts l rest,
    load_yaml path = Body c /\ init c = Ok nx
    /\ respond (get_clusters nx) = Body clusters
    /\ respond (get_hosts nx) = Body hosts
    /\ hosts_part str_to_int nx hosts = (l, Ok tt)
    /\ r = get_vms nx
    /\ fst (run_with str_to_int load_yaml respond path)
       = ([Read path; Sent (get_clusters nx); Sent (get_hosts nx)]
          ++ map Logged l ++ Sent r :: rest)%list.
Proof.
  destruct (sent_in_run _ _ _ _ _ Hsent) as (c & nx & Hload & Hinit & Hr).
  assert (Hvm : r = get_vms nx).
  { destruct Hr as [ -> | [ -> | -> ] ]; [discriminate Hpost .. | reflexivity]. }
  subst r. clear Hr Hpost.
  rewrite run_with_stages, Hload, Hinit in Hsent |- *.
  assert (Hno : forall evs : list log_record,
             ~ In (Sent (get_vms nx))
                 ([Read path; Sent (get_clusters nx); Sent (get_hosts nx)]
                  ++ map Logged evs)%list).
  { intros evs Hin. cbn in Hin.
    destruct Hin as [Hin|[Hin|[Hin|Hin]]];
      first [discriminate Hin | exact (not_sent_logged _ _ Hin)]. }
  destruct (respond (get_clusters nx)) as [cl|name] eqn:Hcl;
    [|exfalso; apply (Hno []); cbn in *; tauto].
  destruct (respond (get_hosts nx)) as [hosts|name] eqn:Hho;
    [|exfalso; apply (Hno []); cbn in *; tauto].
  cbn zeta in *.
  destruct (hosts_part str_to_int nx hosts) as [l [[]|e]] eqn:Hhp;
    cbn [fst snd] in *; [|exfalso; exact (Hno l Hsent)].
  exists c, nx, cl, hosts, l.
  destruct (respond (get_vms nx)) as [vms|name]; cbn [fst snd] in *.
  - destruct (snd (vms_part nx vms)) as [[]|e]; cbn [fst];
      eexists; (repeat split; try reflexivity; try assumption);
      try (rewrite <- ?app_assoc; reflexivity).
  - exists []. repeat split; try reflexivity; try assumption;
      try (rewrite <- ?app_assoc; reflexivity).
Qed.

Lemma vm_list_is_requested_after_the_host_checks_witness :
  exists c nx clusters hosts l rest,
    load_a "config.yml" = Body c /\ init c = Ok nx
    /\ respond_a (get_clusters nx) = Body clusters
    /\ respond_a (get_hosts nx) = Body hosts
    /\ hosts_part decimal nx hosts = (l, Ok tt)
    /\ vms_request config_a = get_vms nx
    /\ fst (run_with decimal load_a respond_a "config.yml")
       = ([Read "config.yml"; Sent (get_clusters nx); Sent (get_hosts nx)]
          ++ map Logged l ++ Sent (vms_request config_a) :: rest)%list.
Proof.
  apply (vm_list_is_requested_after_the_host_checks decimal load_a respond_a
           "config.yml" (vms_request config_a)); [|reflexivity].
  vm_compute. tauto.
Defined.

(** X17. The banner tells a run that reached the end from one that did not:
    it is among the events exactly when the run ended normally, and nothing
    follows it. *)
Theorem banner_marks_a_complete_run
    (str_to_int : string -> option Z)
    (load_yaml : string -> reply) (respond : request -> reply)
    (path : string) :
  let run := run_with str_to_int load_yaml respond path in
  (In (Printed banner) (fst run) <-> snd run = Done tt)
  /\ (snd run = Done tt ->
      exists before, fst run = (before ++ [Printed banner])%list).
Proof.
  cbn zeta. rewrite run_with_stages.
  assert (Hno : forall l l' r,
             ~ In (Printed banner)
                 (([Read path; Sent (get_clusters r); Sent (get_hosts r)]
                   ++ map Logged l)
                  ++ [Sent (get_vms r)] ++ map Logged l')%list).
  { intros l l' r Hin. split_in Hin; try discriminate;
      exact (not_printed_logged _ _ Hin). }
  destruct (load_yaml path) as [c|name];
    [|cbn; split; [split; [intuition discriminate | discriminate]
                  | discriminate]].
  destruct (init c) as [nx|e];
    [|cbn; split; [split; [intuition discriminate | discriminate]
                  | discriminate]].
  destruct (respond (get_clusters nx)) as [cl|name];
    [|cbn; split; [split; [intuition discriminate | discriminate]
                  | discriminate]].
  destruct (respond (get_hosts nx)) as [hosts|name];
    [|cbn; split; [split; [intuition discriminate | discriminate]
                  | discriminate]].
  cbn zeta.
  destruct (hosts_part str_to_int nx hosts) as [l [[]|e]]; cbn [fst snd].
  2:{ split; [split; [|discriminate] | discriminate].
      intros Hin. exfalso. apply (Hno l [] nx).
      apply in_or_app. left. exact Hin. }
  destruct (respond (get_vms nx)) as [vms|name]; cbn [fst snd].
  2:{ split; [split; [|discriminate] | discriminate].
      intros Hin. exfalso. apply (Hno l [] nx).
      cbn [map]. rewrite app_nil_r. exact Hin. }
  destruct (vms_part nx vms) as [l' [[]|e]]; cbn [fst snd].
  - split; [split; [reflexivity|]|].
    + intros _. apply in_or_app. right. left. reflexivity.
    + intros _. eexists. reflexivity.
  - split; [split; [|discriminate] | discriminate].
    intros Hin. exfalso. apply (Hno l l' nx). exact Hin.
Qed.

Lemma logged_other ev tr :
  (forall r, ev <> Logged r) -> logged (ev :: tr) = logged tr.
Proof. destruct ev; intros H; try reflexivity. destruct (H r eq_refl). Qed.

Lemma logged_run path a b c l l' tail :
  logged tail = [] ->
  logged (Read path :: Sent a :: Sent b
          :: (map Logged l ++ Sent c :: (map Logged l' ++ tail))%list)
  = (l ++ l')%list.
Proof.
  intros Ht. rewrite !logged_other by discriminate.
  rewrite logged_app, logged_map, logged_other by discriminate.
  rewrite logged_app, logged_map, Ht, app_nil_r. reflexivity.
Qed.

(** X18. With integer limits the script logs what [main] logs on the two
    payloads the cluster returned, and ends as [main] ends: normally, or
    with the same exception. *)
Theorem script_logs_what_main_logs
    (str_to_int : string -> option Z)
    (load_yaml : string -> reply) (respond : request -> reply)
    (path : string) (c : Config) (clusters hosts vms : value)
    (Hload : load_yaml path = Body (config_yaml c))
    (Hclusters : respond (clusters_request c) = Body clusters)
    (Hhosts : respond (hosts_request c) = Body hosts)
    (Hvms : respond (vms_request c) = Body vms) :
  let run := run_with str_to_int load_yaml respond path in
  let ref := main str_to_int (config_limits c) hosts vms in
  logged (fst run) = fst ref
  /\ snd run = match snd ref with
               | Ok u => Done u
               | Raise e => Aborted (Builtin e)
               end.
Proof.
  cbn zeta.
  destruct (init_config c) as (nx & Hinit & Hc & Hh & Hv & Hlim).
  rewrite run_with_stages, Hload, Hinit, Hc, Hh, Hv, Hclusters, Hhosts.
  cbn zeta. rewrite (hosts_part_int _ nx _ _ Hlim).
  unfold main.
  destruct (check_hosts str_to_int (config_limits c) hosts) as [l [[]|e]];
    cbn [fst snd and_then].
  - rewrite Hvms, (vms_part_int nx _ _ Hlim).
    destruct (check_vms (config_limits c) vms) as [l' [[]|e]]; cbn [fst snd].
    + rewrite <- ?app_assoc. cbn [app].
      rewrite (logged_run path _ _ _ l l' [Printed banner] eq_refl).
      split; reflexivity.
    + rewrite <- (app_nil_r (map Logged l')), <- ?app_assoc. cbn [app].
      rewrite (logged_run path _ _ _ l l' [] eq_refl).
      split; reflexivity.
  - rewrite logged_app, logged_map. split; reflexivity.
Qed.

Lemma script_logs_what_main_logs_witness :
  logged (fst (run_with decimal load_a respond_a "config.yml"))
  = fst (main decimal (config_limits config_a)
           (hosts_json as_str [host_a; host_b]) (vms_json [vm_a; vm_b])).
Proof.
  exact (proj1 (script_logs_what_main_logs decimal load_a respond_a
                  "config.yml" config_a (VDict [("entities", VList [])])
                  (hosts_json as_str [host_a; host_b]) (vms_json [vm_a; vm_b])
                  eq_refl eq_refl eq_refl eq_refl)).
Defined.
